(** * cryptomath-api: the listing subsystem (Articles, Tags)

    A shallow embedding of
      - controllers/articles.js   ([all]: limit/offset normalisation),
      - src/models/article.js     (class [Articles]: getters, the
        denormalising [data] setter, [setData]),
      - src/models/tag.js         (class [Tags]),
    together with a relational reading of the two SQL statements each
    [setData] issues. *)

From Stdlib Require Import List ZArith Bool Ascii String Lia Arith Permutation.
Import ListNotations.

Open Scope string_scope.
Open Scope Z_scope.

(* ================================================================== *)
(** * JavaScript values used by the listing code *)
(* ================================================================== *)

Module JS.

(** A JS Number as far as the listing code observes it: [NaN] or an
    integer (standing for the Number nearest to it).  [+0] and [-0] are
    both [JInt 0]: both are falsy and they are [===] to each other.
    Strings are sequences of code units below 256. *)
Inductive jsnum : Type :=
| JNaN
| JInt (z : Z).

(** ToBoolean on numbers: [NaN] and [0] are falsy. *)
Definition truthy_num (n : jsnum) : bool :=
  match n with
  | JNaN => false
  | JInt z => negb (z =? 0)
  end.

(** ToBoolean on strings: only the empty string is falsy. *)
Definition truthy_str (s : string) : bool :=
  match s with
  | EmptyString => false
  | String _ _ => true
  end.

(** [a || b] on numbers. *)
Definition or_num (a b : jsnum) : jsnum :=
  if truthy_num a then a else b.

(** StrWhiteSpaceChar below 256: TAB, LF, VT, FF, CR, SP and NBSP. *)
Definition is_space (c : ascii) : bool :=
  let n := nat_of_ascii c in
  ((9 <=? n) && (n <=? 13))%nat || (n =? 32)%nat || (n =? 160)%nat.

Fixpoint trim_start (s : string) : string :=
  match s with
  | String c s' => if is_space c then trim_start s' else s
  | EmptyString => EmptyString
  end.

(** Value of a character as a digit, for radices up to 16. *)
Definition digit_value (c : ascii) : option Z :=
  let n := nat_of_ascii c in
  if ((48 <=? n) && (n <=? 57))%nat then Some (Z.of_nat (n - 48))
  else if ((97 <=? n) && (n <=? 102))%nat then Some (Z.of_nat (n - 87))
  else if ((65 <=? n) && (n <=? 70))%nat then Some (Z.of_nat (n - 55))
  else None.

Definition digit_in (radix : Z) (c : ascii) : option Z :=
  match digit_value c with
  | Some d => if d <? radix then Some d else None
  | None => None
  end.

(** Reads the longest prefix of radix-[radix] digits; [acc] is [None]
    until the first digit has been read. *)
Fixpoint read_digits (radix : Z) (s : string) (acc : option Z) : option Z :=
  match s with
  | String c s' =>
      match digit_in radix c with
      | Some d =>
          read_digits radix s'
            (Some (match acc with Some a => a * radix + d | None => d end))
      | None => acc
      end
  | EmptyString => acc
  end.

Definition strip_sign (s : string) : Z * string :=
  match s with
  | String "-" s' => (-1, s')
  | String "+" s' => (1, s')
  | _ => (1, s)
  end.

Definition strip_hex_prefix (s : string) : Z * string :=
  match s with
  | String "0" (String "x" s') => (16, s')
  | String "0" (String "X" s') => (16, s')
  | _ => (10, s)
  end.

(** [parseInt(s)] with the radix argument omitted. *)
Definition parseInt (input : string) : jsnum :=
  let '(sign, s1) := strip_sign (trim_start input) in
  let '(radix, s2) := strip_hex_prefix s1 in
  match read_digits radix s2 None with
  | None => JNaN
  | Some m => JInt (sign * m)
  end.

(** What [this.search], a column of a result row or a column of a tuple
    inside the storage engine can hold: [undefined] (no such key),
    [null], an integer (of magnitude below 10^21, which JS prints as
    plain decimals) or a text.  None of them is [NaN], so [===] on
    these values is plain equality. *)
Inductive jsval : Type :=
| JUndefined
| JNull
| JNumber (z : Z)
| JString (s : string).

Definition strict_eq (a b : jsval) : bool :=
  match a, b with
  | JUndefined, JUndefined => true
  | JNull, JNull => true
  | JNumber x, JNumber y => x =? y
  | JString x, JString y => String.eqb x y
  | _, _ => false
  end.

(** Decimal rendering of an integer, as JS prints it. *)
Fixpoint digits_of (fuel : nat) (n : Z) (acc : string) : string :=
  match fuel with
  | O => acc
  | S fuel' =>
      let acc' := String (ascii_of_nat (48 + Z.to_nat (n mod 10))) acc in
      if n / 10 =? 0 then acc' else digits_of fuel' (n / 10) acc'
  end.

Definition string_of_Z (z : Z) : string :=
  let body := digits_of (S (Z.to_nat (Z.log2 (Z.abs z)))) (Z.abs z) EmptyString in
  if z <? 0 then String "-" body else body.

(** ToString on these values. *)
Definition ToString (v : jsval) : string :=
  match v with
  | JUndefined => "undefined"
  | JNull => "null"
  | JNumber z => string_of_Z z
  | JString s => s
  end.

(** A result row: the [dataValues] of a model instance, keyed by result
    column name.  [row.id] and [row['dataValues']['id']] read the same
    entry. *)
Definition Row : Type := list (string * jsval).

Fixpoint get (r : Row) (k : string) : jsval :=
  match r with
  | [] => JUndefined
  | (k', v) :: r' => if String.eqb k' k then v else get r' k
  end.

End JS.
Import JS.

(* ================================================================== *)
(** * controllers/articles.js *)
(* ================================================================== *)

Module Controller.

Definition ARTICLES_LIMIT : jsnum := JInt 10.

(** [req.body], as far as [all] reads it: its two pagination members
    as [parseInt] sees them, that is, through ToString (the text
    ["undefined"] for a member that is absent). *)
Record body : Type := mkBody {
  body_limit : string;
  body_offset : string
}.

(** The [limit] and [offset] members of the object [data] that [all]
    passes to [new Articles(data)]. *)
Definition data_limit (b : body) : jsnum :=
  or_num (parseInt (body_limit b)) ARTICLES_LIMIT.

Definition data_offset (b : body) : jsnum :=
  or_num (parseInt (body_offset b)) (JInt 0).

End Controller.


(* ================================================================== *)
(** * Query text: what models/article.js and models/tag.js import *)
(* ================================================================== *)

Module Sql.

Definition dq : string := String (ascii_of_nat 34) EmptyString.
Definition nl : string := String (ascii_of_nat 10) EmptyString.

(** ["name"] *)
Definition q (name : string) : string := dq ++ name ++ dq.

(** ["table"."column"] *)
Definition qc (table column : string) : string := q table ++ "." ++ q column.

(** A template literal, line by line (indentation and trailing blanks
    of the source lines left out). *)
Definition template (lines : list string) : string := String.concat nl lines.

Inductive Direction : Type := ASC | DESC.

Inductive Comparator : Type := OpEq | OpGt | OpGe | OpLt | OpLe.

(** Modelled from the spec: the filter a caller attaches to a field
    (built by the FilteredList constructor of models/mixins, which is
    not among the sources).  The kinds are the spec's: id equality, set
    membership, numeric comparator (equality when the operator is
    absent), text pattern, day or day range.  [FTsMatch] is the object
    [{tsMatch: true, operation}] the [where] getters build themselves. *)
Inductive FilterSpec : Type :=
| FId (value : Z)
| FIds (values : list Z)
| FNumeric (operator : option Comparator) (value : Z)
| FText (pattern : string)
| FDate (from upto : Z)
| FTsMatch (operation : string).

Record WhereDescriptor : Type := mkWhere {
  wd_column : string;
  wd_filter : FilterSpec
}.

Record OrderDescriptor : Type := mkOrder {
  od_column : string;
  od_direction : Direction
}.

(** What the listing classes take from outside models/article.js and
    models/tag.js: the three functions of utils/queries and the table
    names of the User and Hub models. *)
Record Imports : Type := mkImports {
  prepareWhere : list WhereDescriptor -> bool -> string;
  prepareOrder : list OrderDescriptor -> string;
  prepareQuery : string -> string;
  userTableName : string;
  hubTableName : string
}.

(** [if (x) xs.push(f x)] *)
Definition push_if {A B : Type} (x : option A) (f : A -> B) (xs : list B) : list B :=
  match x with
  | Some a => (xs ++ [f a])%list
  | None => xs
  end.

(** ToBoolean of [this.search]. *)
Definition truthy (v : jsval) : bool :=
  match v with
  | JUndefined => false
  | JNull => false
  | JNumber z => negb (z =? 0)
  | JString s => truthy_str s
  end.

End Sql.
Import Sql.

(* ================================================================== *)
(** * models/article.js: class Articles, the getters *)
(* ================================================================== *)

Module Articles.

Record Filters : Type := mkFilters {
  f_id : option FilterSpec;
  f_title : option FilterSpec;
  f_author : option FilterSpec;
  f_hubs : option FilterSpec;
  f_tags : option FilterSpec;
  f_answers : option FilterSpec;
  f_votes : option FilterSpec;
  f_createdAt : option FilterSpec
}.

Record Sorts : Type := mkSorts {
  s_title : option Direction;
  s_author : option Direction;
  s_answers : option Direction;
  s_votes : option Direction;
  s_createdAt : option Direction
}.

(** The request part of an [Articles] instance: what the constructor
    stores and [setData] never writes. *)
Record Request : Type := mkRequest {
  filters : Filters;
  sorts : Sorts;
  limit : Z;
  offset : Z;
  search : jsval;
  extended : bool
}.

(** [get cols()] *)
Definition cols_id : string := qc "Article" "id".
Definition cols_title : string := qc "Article" "title".
Definition cols_abstract : string := qc "Article" "abstract".
Definition cols_createdAt : string := qc "Article" "createdAt".
Definition cols_author : string := qc "Article" "author".
Definition cols_tsv : string := qc "Article" "tsv".
Definition cols_user_id : string := qc "User" "id".
Definition cols_user_email : string := qc "User" "email".
Definition cols_user_displayName : string := qc "User" "displayName".
Definition cols_user_hash : string := qc "User" "hash".
Definition cols_hub_id : string := qc "Hub" "id".
Definition cols_hub_name : string := qc "Hub" "name".
Definition cols_tag_id : string := qc "Tag" "id".
Definition cols_tag_name : string := qc "Tag" "name".
Definition cols_tag_hub : string := qc "Tag" "hub".
Definition cols_count : string := "COUNT(DISTINCT(" ++ qc "Article" "id" ++ "))".
Definition cols_answers : string := "COUNT(DISTINCT(" ++ qc "ArticleAnswer" "id" ++ "))".
Definition cols_votes : string := "COALESCE(SUM(" ++ qc "ArticleVote" "vote" ++ "), 0)".

(** [get tsQuery()] *)
Definition tsQuery (r : Request) : string :=
  if truthy (search r)
  then "plainto_tsquery('" ++ ToString (search r) ++ "')"
  else EmptyString.

(** [get rankCol()] *)
Definition rankCol (r : Request) : string :=
  if truthy (search r)
  then "TS_RANK(" ++ cols_tsv ++ ", " ++ tsQuery r ++ ")"
  else EmptyString.

(** The array [wheres] of [get where()] at its [return]. *)
Definition wheres (r : Request) : list WhereDescriptor :=
  let ws := push_if (f_id (filters r)) (mkWhere cols_id) [] in
  let ws := push_if (f_title (filters r)) (mkWhere cols_title) ws in
  let ws := push_if (f_createdAt (filters r))
                    (mkWhere ("DATE(" ++ cols_createdAt ++ ")")) ws in
  if truthy (search r)
  then (ws ++ [mkWhere cols_tsv (FTsMatch (tsQuery r))])%list
  else ws.

Definition userWheres (r : Request) : list WhereDescriptor :=
  push_if (f_author (filters r)) (mkWhere cols_user_id) [].

Definition hubWheres (r : Request) : list WhereDescriptor :=
  push_if (f_hubs (filters r)) (mkWhere cols_hub_id) [].

Definition tagWheres (r : Request) : list WhereDescriptor :=
  push_if (f_tags (filters r)) (mkWhere cols_tag_id) [].

(** The array [havings] of [get having()] at its [return]. *)
Definition havings (r : Request) : list WhereDescriptor :=
  let hs := push_if (f_answers (filters r)) (mkWhere cols_answers) [] in
  push_if (f_votes (filters r)) (mkWhere cols_votes) hs.

(** The array [orders] of [get order()] at its [return]. *)
Definition orders (r : Request) : list OrderDescriptor :=
  let os := push_if (s_title (sorts r)) (mkOrder cols_title) [] in
  let os := push_if (s_author (sorts r)) (mkOrder cols_user_displayName) os in
  let os := push_if (s_answers (sorts r)) (mkOrder cols_answers) os in
  let os := push_if (s_votes (sorts r)) (mkOrder cols_votes) os in
  let os :=
    match s_createdAt (sorts r) with
    | Some d => (os ++ [mkOrder cols_createdAt d])%list
    | None => (os ++ [mkOrder cols_createdAt DESC])%list
    end in
  if truthy (search r)
  then (os ++ [mkOrder (q "rank") DESC])%list
  else os.

Section Text.

Variable I : Imports.

(** [get where()], [get userWhere()], ..., [get order()] *)
Definition where_ (r : Request) : string := prepareWhere I (wheres r) false.
Definition userWhere (r : Request) : string := prepareWhere I (userWheres r) true.
Definition hubWhere (r : Request) : string := prepareWhere I (hubWheres r) true.
Definition tagWhere (r : Request) : string := prepareWhere I (tagWheres r) true.
Definition having (r : Request) : string := prepareWhere I (havings r) false.
Definition order (r : Request) : string := prepareOrder I (orders r).

(** The template literal of the first [db.query] of [setData]. *)
Definition pageTemplate (r : Request) : string :=
  template [
    EmptyString;
    "SELECT DISTINCT";
    cols_id ++ ",";
    cols_title ++ ",";
    (if extended r then cols_abstract ++ "," else EmptyString);
    cols_createdAt ++ ",";
    (if truthy (search r) then rankCol r ++ " AS " ++ q "rank" ++ "," else EmptyString);
    cols_user_id ++ " AS " ++ q "User.id" ++ ",";
    cols_user_displayName ++ " AS " ++ q "User.displayName" ++ ",";
    cols_user_hash ++ " AS " ++ q "User.hash" ++ ",";
    cols_hub_id ++ " AS " ++ q "Hub.id" ++ ",";
    cols_hub_name ++ " AS " ++ q "Hub.name" ++ ",";
    cols_tag_id ++ " AS " ++ q "Tag.id" ++ ",";
    cols_tag_name ++ " AS " ++ q "Tag.name" ++ ",";
    cols_tag_hub ++ " AS " ++ q "Tag.hub" ++ ",";
    cols_answers ++ " AS " ++ q "answers" ++ ",";
    cols_votes ++ " AS " ++ q "votes";
    "FROM " ++ q "Articles" ++ " AS " ++ q "Article";
    "INNER JOIN " ++ q (userTableName I) ++ " AS " ++ q "User" ++ " ON "
      ++ cols_author ++ " = " ++ cols_user_id ++ " " ++ userWhere r;
    "INNER JOIN (" ++ q "ArticlesHubs" ++ " AS " ++ q "ArticleHub";
    "INNER JOIN " ++ q (hubTableName I) ++ " AS " ++ q "Hub" ++ " ON "
      ++ cols_hub_id ++ " = " ++ qc "ArticleHub" "hub" ++ ") ON "
      ++ cols_id ++ " = " ++ qc "ArticleHub" "article" ++ " " ++ hubWhere r;
    "INNER JOIN (" ++ q "ArticlesTags" ++ " AS " ++ q "ArticleTag";
    "INNER JOIN " ++ q "Tags" ++ " AS " ++ q "Tag" ++ " ON "
      ++ cols_tag_id ++ " = " ++ qc "ArticleTag" "tag" ++ ") ON "
      ++ cols_id ++ " = " ++ qc "ArticleTag" "article" ++ " " ++ tagWhere r;
    "LEFT OUTER JOIN " ++ q "ArticlesAnswers" ++ " AS " ++ q "ArticleAnswer"
      ++ " ON " ++ cols_id ++ " = " ++ qc "ArticleAnswer" "article";
    "LEFT OUTER JOIN " ++ q "ArticlesVotes" ++ " AS " ++ q "ArticleVote"
      ++ " ON " ++ cols_id ++ " = " ++ qc "ArticleVote" "article";
    "WHERE " ++ where_ r;
    "GROUP BY";
    cols_id ++ ",";
    cols_user_id ++ ",";
    cols_user_email ++ ",";
    cols_hub_id ++ ",";
    qc "ArticleHub" "id" ++ ",";
    cols_tag_id ++ ",";
    qc "ArticleTag" "id";
    "HAVING " ++ having r;
    "ORDER BY " ++ order r;
    "OFFSET " ++ string_of_Z (offset r);
    "LIMIT " ++ string_of_Z (limit r);
    EmptyString ].

(** The template literal of the second [db.query] of [setData]. *)
Definition totalTemplate (r : Request) : string :=
  template [
    EmptyString;
    "SELECT";
    cols_count ++ " AS " ++ q "total";
    "FROM " ++ q "Articles" ++ " AS " ++ q "Article";
    "INNER JOIN " ++ q (userTableName I) ++ " AS " ++ q "User" ++ " ON "
      ++ cols_author ++ " = " ++ cols_user_id ++ " " ++ userWhere r;
    "INNER JOIN (" ++ q "ArticlesHubs" ++ " AS " ++ q "ArticleHub"
      ++ " INNER JOIN " ++ q (hubTableName I) ++ " AS " ++ q "Hub" ++ " ON "
      ++ cols_hub_id ++ " = " ++ qc "ArticleHub" "hub" ++ ") ON "
      ++ cols_id ++ " = " ++ qc "ArticleHub" "article" ++ " " ++ hubWhere r;
    "INNER JOIN (" ++ q "ArticlesTags" ++ " AS " ++ q "ArticleTag"
      ++ " INNER JOIN " ++ q "Tags" ++ " AS " ++ q "Tag" ++ " ON "
      ++ cols_tag_id ++ " = " ++ qc "ArticleTag" "tag" ++ ") ON "
      ++ cols_id ++ " = " ++ qc "ArticleTag" "article" ++ " " ++ tagWhere r;
    "INNER JOIN (SELECT DISTINCT " ++ cols_id ++ " FROM " ++ q "Articles"
      ++ " AS " ++ q "Article";
    "LEFT OUTER JOIN " ++ q "ArticlesAnswers" ++ " AS " ++ q "ArticleAnswer"
      ++ " ON " ++ cols_id ++ " = " ++ qc "ArticleAnswer" "article";
    "LEFT OUTER JOIN " ++ q "ArticlesVotes" ++ " AS " ++ q "ArticleVote"
      ++ " ON " ++ cols_id ++ " = " ++ qc "ArticleVote" "article";
    "GROUP BY " ++ cols_id;
    "HAVING " ++ having r;
    ") AS " ++ q "ArticlesAnswerVote" ++ " ON " ++ cols_id ++ " = "
      ++ qc "ArticlesAnswerVote" "id";
    "WHERE " ++ where_ r;
    EmptyString ].

End Text.

End Articles.

(* ================================================================== *)
(** * models/tag.js: class Tags, the getters *)
(* ================================================================== *)

Module Tags.

Record Filters : Type := mkFilters {
  f_id : option FilterSpec;
  f_name : option FilterSpec;
  f_hub : option FilterSpec;
  f_articles : option FilterSpec
}.

Record Sorts : Type := mkSorts {
  s_name : option Direction;
  s_articles : option Direction
}.

Record Request : Type := mkRequest {
  filters : Filters;
  sorts : Sorts;
  limit : Z;
  offset : Z;
  search : jsval
}.

(** [get cols()] *)
Definition cols_id : string := qc "Tag" "id".
Definition cols_name : string := qc "Tag" "name".
Definition cols_hub : string := qc "Tag" "hub".
Definition cols_tsv : string := qc "Tag" "tsv".
Definition cols_articles : string := "COUNT(DISTINCT(" ++ qc "Article" "id" ++ "))".

(** [get tsQuery()] *)
Definition tsQuery (r : Request) : string :=
  if truthy (search r)
  then "plainto_tsquery('" ++ ToString (search r) ++ "')"
  else EmptyString.

(** [get rankCol()] *)
Definition rankCol (r : Request) : string :=
  if truthy (search r)
  then "TS_RANK(" ++ cols_tsv ++ ", " ++ tsQuery r ++ ")"
  else EmptyString.

Definition wheres (r : Request) : list WhereDescriptor :=
  let ws := push_if (f_id (filters r)) (mkWhere cols_id) [] in
  let ws := push_if (f_name (filters r)) (mkWhere cols_name) ws in
  let ws := push_if (f_hub (filters r)) (mkWhere cols_hub) ws in
  if truthy (search r)
  then (ws ++ [mkWhere cols_tsv (FTsMatch (tsQuery r))])%list
  else ws.

Definition havings (r : Request) : list WhereDescriptor :=
  push_if (f_articles (filters r)) (mkWhere cols_articles) [].

Definition orders (r : Request) : list OrderDescriptor :=
  let os := push_if (s_name (sorts r)) (mkOrder cols_name) [] in
  let os :=
    match s_articles (sorts r) with
    | Some d => (os ++ [mkOrder cols_articles d])%list
    | None => (os ++ [mkOrder cols_articles DESC])%list
    end in
  if truthy (search r)
  then (os ++ [mkOrder (q "rank") DESC])%list
  else os.

Section Text.

Variable I : Imports.

Definition where_ (r : Request) : string := prepareWhere I (wheres r) false.
Definition having (r : Request) : string := prepareWhere I (havings r) false.
Definition order (r : Request) : string := prepareOrder I (orders r).

(** The template literal of the first [db.query] of [setData]. *)
Definition pageTemplate (r : Request) : string :=
  template [
    EmptyString;
    "SELECT DISTINCT";
    cols_id ++ ",";
    cols_name ++ ",";
    cols_hub ++ ",";
    (if truthy (search r) then rankCol r ++ " AS " ++ q "rank" ++ "," else EmptyString);
    cols_articles ++ " AS " ++ q "articles";
    "FROM " ++ q "Tags" ++ " AS " ++ q "Tag";
    "LEFT OUTER JOIN (" ++ q "ArticlesTags" ++ " AS " ++ q "ArticleTag";
    "INNER JOIN " ++ q "Articles" ++ " AS " ++ q "Article" ++ " ON "
      ++ qc "Article" "id" ++ " = " ++ qc "ArticleTag" "article" ++ ") ON "
      ++ cols_id ++ " = " ++ qc "ArticleTag" "tag";
    "WHERE " ++ where_ r;
    "GROUP BY";
    cols_id;
    "HAVING " ++ having r;
    "ORDER BY " ++ order r;
    "OFFSET " ++ string_of_Z (offset r);
    "LIMIT " ++ string_of_Z (limit r);
    EmptyString ].

(** The template literal of the second [db.query] of [setData]. *)
Definition totalTemplate (r : Request) : string :=
  template [
    EmptyString;
    "SELECT COUNT(" ++ q "id" ++ ") AS " ++ q "total";
    "FROM (";
    "SELECT DISTINCT";
    cols_id ++ " AS " ++ q "id";
    "FROM " ++ q "Tags" ++ " AS " ++ q "Tag";
    "LEFT OUTER JOIN (" ++ q "ArticlesTags" ++ " AS " ++ q "ArticleTag";
    "INNER JOIN " ++ q "Articles" ++ " AS " ++ q "Article" ++ " ON "
      ++ qc "Article" "id" ++ " = " ++ qc "ArticleTag" "article" ++ ") ON "
      ++ cols_id ++ " = " ++ qc "ArticleTag" "tag";
    "WHERE " ++ where_ r;
    "GROUP BY";
    cols_id;
    "HAVING " ++ having r;
    ") AS " ++ q "result";
    EmptyString ].

End Text.

End Tags.

(* ================================================================== *)
(** * models/article.js: the [data] setter of Articles *)
(* ================================================================== *)

Module Denormalizer.

Record Hub : Type := mkHub {
  hub_id : jsval;
  hub_name : jsval
}.

Record Tag : Type := mkTag {
  tag_id : jsval;
  tag_name : jsval;
  tag_hub : jsval
}.

Record Author : Type := mkAuthor {
  author_id : jsval;
  author_displayName : jsval;
  author_hash : jsval
}.

(** An element of the array the setter stores in [dataProxy].  The key
    [abstract] exists only on an [extended] list. *)
Record ArticleObject : Type := mkArticleObject {
  id : jsval;
  title : jsval;
  abstract : option jsval;
  createdAt : jsval;
  author : Author;
  hubs : list Hub;
  tags : list Tag;
  answers : jsnum;
  votes : jsnum
}.

(** [const hub = {...}] and [const tag = {...}] of the loop body. *)
Definition hub_of (row : Row) : Hub :=
  mkHub (get row "Hub.id") (get row "Hub.name").

Definition tag_of (row : Row) : Tag :=
  mkTag (get row "Tag.id") (get row "Tag.name") (get row "Tag.hub").

Definition author_of (row : Row) : Author :=
  mkAuthor (get row "User.id") (get row "User.displayName") (get row "User.hash").

(** [newArticleObject] *)
Definition newArticleObject (extended : bool) (row : Row) : ArticleObject :=
  {| id := get row "id";
     title := get row "title";
     abstract := if extended then Some (get row "abstract") else None;
     createdAt := get row "createdAt";
     author := author_of row;
     hubs := [hub_of row];
     tags := [tag_of row];
     answers := parseInt (ToString (get row "answers"));
     votes := parseInt (ToString (get row "votes")) |}.

(** The [if (articleObject)] branch: the two guarded [push]es. *)
Definition absorb (hub : Hub) (tag : Tag) (o : ArticleObject) : ArticleObject :=
  let hasHub := existsb (fun h => strict_eq (hub_id h) (hub_id hub)) (hubs o) in
  let hasTag := existsb (fun t => strict_eq (tag_id t) (tag_id tag)) (tags o) in
  {| id := id o;
     title := title o;
     abstract := abstract o;
     createdAt := createdAt o;
     author := author o;
     hubs := if hasHub then hubs o else (hubs o ++ [hub])%list;
     tags := if hasTag then tags o else (tags o ++ [tag])%list;
     answers := answers o;
     votes := votes o |}.

(** In-place mutation of the object [articles.find] returned: the first
    element with the given id. *)
Fixpoint mutate_found (articleId : jsval) (f : ArticleObject -> ArticleObject)
    (articles : list ArticleObject) : list ArticleObject :=
  match articles with
  | [] => []
  | a :: rest =>
      if strict_eq (id a) articleId
      then f a :: rest
      else a :: mutate_found articleId f rest
  end.

(** One iteration of [for (let article of articlesRaw)]. *)
Definition step (extended : bool) (articles : list ArticleObject) (article : Row)
    : list ArticleObject :=
  let articleId := get article "id" in
  let hub := hub_of article in
  let tag := tag_of article in
  match find (fun a => strict_eq (id a) articleId) articles with
  | Some _ => mutate_found articleId (absorb hub tag) articles
  | None => (articles ++ [newArticleObject extended article])%list
  end.

(** [set data(articlesRaw)]: the value assigned to [this.dataProxy]. *)
Definition set_data (extended : bool) (articlesRaw : list Row) : list ArticleObject :=
  fold_left (step extended) articlesRaw [].

(** ** What the denormalizer is specified to compute *)

(** The elements of [xs] with pairwise different keys, each at the place
    of its first occurrence. *)
Fixpoint distinct_on {A : Type} (key : A -> jsval) (xs : list A) : list A :=
  match xs with
  | [] => []
  | x :: xs' =>
      x :: filter (fun y => negb (strict_eq (key y) (key x))) (distinct_on key xs')
  end.

Definition distinct (xs : list jsval) : list jsval := distinct_on (fun x => x) xs.

Definition root_id (row : Row) : jsval := get row "id".

(** The rows of one root id, in row order. *)
Definition rows_of (articleId : jsval) (rows : list Row) : list Row :=
  filter (fun r => strict_eq (root_id r) articleId) rows.

(** The entity of the rows [rs] of one root id, [first] being the first
    of them: scalars, author and aggregates of the first row; one hub
    and one tag per distinct id in the rows. *)
Definition entity_from (extended : bool) (first : Row) (rs : list Row) : ArticleObject :=
  {| id := get first "id";
     title := get first "title";
     abstract := if extended then Some (get first "abstract") else None;
     createdAt := get first "createdAt";
     author := author_of first;
     hubs := distinct_on hub_id (map hub_of rs);
     tags := distinct_on tag_id (map tag_of rs);
     answers := parseInt (ToString (get first "answers"));
     votes := parseInt (ToString (get first "votes")) |}.

(** The entity of a root id, when it has a row. *)
Definition entity_of (extended : bool) (rows : list Row) (articleId : jsval)
    : option ArticleObject :=
  match rows_of articleId rows with
  | [] => None
  | first :: later => Some (entity_from extended first (first :: later))
  end.

End Denormalizer.

(* ================================================================== *)
(** * models/tag.js: the [data] setter of Tags *)
(* ================================================================== *)

Module TagDenormalizer.

Record TagObject : Type := mkTagObject {
  id : jsval;
  name : jsval;
  hub : jsval;
  articles : jsnum
}.

Definition tagObject (tag : Row) : TagObject :=
  {| id := get tag "id";
     name := get tag "name";
     hub := get tag "hub";
     articles := parseInt (ToString (get tag "articles")) |}.

(** [set data(tagsRaw)] *)
Definition set_data (tagsRaw : list Row) : list TagObject :=
  fold_left (fun tags tag => (tags ++ [tagObject tag])%list) tagsRaw [].

End TagDenormalizer.

(* ================================================================== *)
(** * Running statements: [this.db.query], [await], [try]/[catch] *)
(* ================================================================== *)

Module Run.

(** What [await this.db.query(sql, options)] comes back with. *)
Inductive answer (E : Type) : Type :=
| Resolved (rows : list Row)
| Rejected (error : E).
Arguments Resolved {E} rows.
Arguments Rejected {E} error.

(** The storage connection: a state and the effect of one statement on
    it.  [E] is the type of the error values it can reject with. *)
Record Handle (E : Type) : Type := mkHandle {
  storage : Type;
  query : storage -> string -> storage * answer E
}.
Arguments storage {E} h.
Arguments query {E} h s sql.

(** How a method call ends. *)
Inductive outcome (E A : Type) : Type :=
| Returned (value : A)
| Thrown (error : E).
Arguments Returned {E A} value.
Arguments Thrown {E A} error.

Section Monad.

Context {E : Type} (db : Handle E) (T : Type).

(** What a method of a list instance can read and write: the instance
    ([this]), the storage, and the statements issued so far. *)
Record World : Type := mkWorld {
  this : T;
  store : storage db;
  issued : list string
}.

Definition M (A : Type) : Type := World -> World * outcome E A.

Definition ret {A : Type} (a : A) : M A := fun w => (w, Returned a).

Definition throw {A : Type} (e : E) : M A := fun w => (w, Thrown e).

Definition bind {A B : Type} (m : M A) (k : A -> M B) : M B :=
  fun w =>
    match m w with
    | (w', Returned a) => k a w'
    | (w', Thrown e) => (w', Thrown e)
    end.

(** [try { body } catch (error) { handler }] *)
Definition try_catch {A : Type} (body : M A) (handler : E -> M A) : M A :=
  fun w =>
    match body w with
    | (w', Returned a) => (w', Returned a)
    | (w', Thrown e) => handler e w'
    end.

Definition read_this : M T := fun w => (w, Returned (this w)).

Definition write_this (t : T) : M unit :=
  fun w => (mkWorld t (store w) (issued w), Returned tt).

(** [await this.db.query(sql, ...)]: a rejection is thrown at the
    [await]. *)
Definition db_query (sql : string) : M (list Row) :=
  fun w =>
    let '(s', a) := query db (store w) sql in
    let w' := mkWorld (this w) s' (issued w ++ [sql])%list in
    match a with
    | Resolved rows => (w', Returned rows)
    | Rejected e => (w', Thrown e)
    end.

End Monad.

Arguments this {E db T} w.
Arguments store {E db T} w.
Arguments issued {E db T} w.
Arguments mkWorld {E db T} this store issued.
Arguments ret {E db T A} a.
Arguments throw {E db T A} e.
Arguments bind {E db T A B} m k.
Arguments try_catch {E db T A} body handler.
Arguments read_this {E db T}.
Arguments write_this {E db T} t.
Arguments db_query {E db T} sql.

Notation "x <- m ;; k" := (bind m (fun x => k))
  (at level 61, m at next level, right associativity).
Notation "m ;;; k" := (bind m (fun _ => k))
  (at level 61, right associativity).

(** Modelled from the spec: the [total] accessor of FilteredList
    (models/mixins is not among the sources).  [this.total = rows]
    leaves in [total] the integer of the count statement's one row. *)
Definition total_of (rows : list Row) : jsnum :=
  match rows with
  | [] => JNaN
  | row :: _ => parseInt (ToString (get row "total"))
  end.

End Run.
Import Run.

Module ArticlesList.

Import Articles Denormalizer.

(** An [Articles] instance: the request it was constructed from and the
    two members [setData] assigns.  The timings that the logging
    callback collects are left out: [setData] does not read them. *)
Record Instance : Type := mkInstance {
  request : Request;
  dataProxy : list ArticleObject;
  total : jsnum
}.

(** [get data()] *)
Definition data (l : Instance) : list ArticleObject := dataProxy l.

(** The texts handed to [this.db.query]. *)
Definition page_sql (I : Imports) (l : Instance) : string :=
  prepareQuery I (pageTemplate I (request l)).

Definition total_sql (I : Imports) (l : Instance) : string :=
  prepareQuery I (totalTemplate I (request l)).

Section SetData.

Context {E : Type} (I : Imports) (db : Handle E).

(** [async setData()] *)
Definition setData : M db Instance bool :=
  try_catch
    (l <- read_this ;;
     rows <- db_query (page_sql I l) ;;
     l <- read_this ;;
     write_this (mkInstance (request l)
                            (set_data (extended (request l)) rows)
                            (total l)) ;;;
     l <- read_this ;;
     rows <- db_query (total_sql I l) ;;
     l <- read_this ;;
     write_this (mkInstance (request l) (dataProxy l) (total_of rows)) ;;;
     ret true)
    (fun error => throw error).

End SetData.

End ArticlesList.

Module TagsList.

Import Tags TagDenormalizer.

Record Instance : Type := mkInstance {
  request : Request;
  dataProxy : list TagObject;
  total : jsnum
}.

Definition data (l : Instance) : list TagObject := dataProxy l.

Definition page_sql (I : Imports) (l : Instance) : string :=
  prepareQuery I (pageTemplate I (request l)).

Definition total_sql (I : Imports) (l : Instance) : string :=
  prepareQuery I (totalTemplate I (request l)).

Section SetData.

Context {E : Type} (I : Imports) (db : Handle E).

(** [async setData()] *)
Definition setData : M db Instance unit :=
  try_catch
    (l <- read_this ;;
     rows <- db_query (page_sql I l) ;;
     l <- read_this ;;
     write_this (mkInstance (request l) (set_data rows) (total l)) ;;;
     l <- read_this ;;
     rows <- db_query (total_sql I l) ;;
     l <- read_this ;;
     write_this (mkInstance (request l) (dataProxy l) (total_of rows)) ;;;
     ret tt)
    (fun error => throw error).

End SetData.

End TagsList.

(* ================================================================== *)
(** * The storage side: tables, predicates, aggregates *)
(* ================================================================== *)

Module Storage.

(** Rows of the tables the statements read, with the columns they
    mention.  [createdAt] is a time in seconds. *)
Record ArticleT : Type := mkArticle {
  art_id : Z;
  art_title : string;
  art_abstract : string;
  art_createdAt : Z;
  art_author : Z;
  art_tsv : string
}.

Record UserT : Type := mkUser {
  usr_id : Z;
  usr_email : string;
  usr_displayName : string;
  usr_hash : string
}.

Record HubT : Type := mkHubT {
  hb_id : Z;
  hb_name : string
}.

Record TagT : Type := mkTagT {
  tg_id : Z;
  tg_name : string;
  tg_hub : Z;
  tg_tsv : string
}.

Record ArticleHubT : Type := mkArticleHub {
  ah_id : Z;
  ah_article : Z;
  ah_hub : Z
}.

Record ArticleTagT : Type := mkArticleTag {
  at_id : Z;
  at_article : Z;
  at_tag : Z
}.

Record ArticleAnswerT : Type := mkArticleAnswer {
  an_id : Z;
  an_article : Z
}.

Record ArticleVoteT : Type := mkArticleVote {
  vt_id : Z;
  vt_article : Z;
  vt_vote : Z
}.

Record Database : Type := mkDatabase {
  Articles : list ArticleT;
  Users : list UserT;
  Hubs : list HubT;
  Tags : list TagT;
  ArticlesHubs : list ArticleHubT;
  ArticlesTags : list ArticleTagT;
  ArticlesAnswers : list ArticleAnswerT;
  ArticlesVotes : list ArticleVoteT
}.

(** What the storage engine decides on its own: the match of a text
    pattern, a day range or a full-text query against a value, and the
    order in which it returns rows for an ORDER BY list (some
    rearrangement of them). *)
Record Engine : Type := mkEngine {
  vendor_match : FilterSpec -> jsval -> bool;
  sort_rows : list OrderDescriptor -> list Row -> list Row;
  sort_rows_perm : forall os rows, Permutation rows (sort_rows os rows)
}.

Definition compare_with (op : Comparator) (x y : Z) : bool :=
  match op with
  | OpEq => x =? y
  | OpGt => x >? y
  | OpGe => x >=? y
  | OpLt => x <? y
  | OpLe => x <=? y
  end.

(** Modelled from the spec: the predicate that prepareWhere (of
    utils/queries, not among the sources) compiles for one descriptor.
    Equality for [id], membership for [ids], the comparator ([=] when
    absent) for [numeric]; a comparison with NULL is not satisfied. *)
Definition satisfies (eng : Engine) (f : FilterSpec) (v : jsval) : bool :=
  match f, v with
  | FId x, JNumber y => y =? x
  | FIds xs, JNumber y => existsb (Z.eqb y) xs
  | FNumeric op x, JNumber y =>
      compare_with (match op with Some o => o | None => OpEq end) y x
  | FId _, _ => false
  | FIds _, _ => false
  | FNumeric _ _, _ => false
  | _, _ => vendor_match eng f v
  end.

(** Modelled from the spec: the fragment prepareWhere returns for a
    descriptor list is the conjunction of the descriptors' predicates
    (TRUE for the empty list), in join mode as well. *)
Definition holds (eng : Engine) (ds : list WhereDescriptor) (tuple : Row) : bool :=
  forallb (fun d => satisfies eng (wd_filter d) (get tuple (wd_column d))) ds.

(** The elements of [xs], each kept at its first occurrence. *)
Fixpoint distinct_by {A : Type} (eqb : A -> A -> bool) (xs : list A) : list A :=
  match xs with
  | [] => []
  | x :: xs' => x :: filter (fun y => negb (eqb x y)) (distinct_by eqb xs')
  end.

(** [t LEFT OUTER JOIN u ON ...]: the matching rows of [u], or one
    all-NULL row when there is none. *)
Definition left_outer {A : Type} (matching : list A) : list (option A) :=
  match matching with
  | [] => [None]
  | _ => map Some matching
  end.

(** [COUNT(DISTINCT(e))]: NULLs are not counted. *)
Definition count_distinct (values : list (option Z)) : Z :=
  Z.of_nat (List.length (distinct_by Z.eqb
    (flat_map (fun v => match v with Some z => [z] | None => [] end) values))).

(** [SUM(e)]: NULL when no row has a value. *)
Definition sum (values : list (option Z)) : option Z :=
  match flat_map (fun v => match v with Some z => [z] | None => [] end) values with
  | [] => None
  | zs => Some (fold_right Z.add 0 zs)
  end.

(** [COALESCE(e, d)] *)
Definition coalesce (v : option Z) (d : Z) : Z :=
  match v with
  | Some z => z
  | None => d
  end.

Definition val_eqb (a b : string * jsval) : bool :=
  String.eqb (fst a) (fst b) && strict_eq (snd a) (snd b).

Fixpoint row_eqb (a b : Row) : bool :=
  match a, b with
  | [], [] => true
  | x :: a', y :: b' => val_eqb x y && row_eqb a' b'
  | _, _ => false
  end.

(** [OFFSET o LIMIT n]; the statement fails on a negative [o] or [n]. *)
Definition paginate {A : Type} (offset limit : Z) (rows : list A) : option (list A) :=
  if (offset <? 0) || (limit <? 0) then None
  else Some (firstn (Z.to_nat limit) (skipn (Z.to_nat offset) rows)).

End Storage.

(* ================================================================== *)
(** * What the two statements of Articles.setData select *)
(* ================================================================== *)

Module ArticlesSql.

Import Storage Articles.

(** A table row as a tuple: the value of each column expression the
    statements apply to it. *)
Definition article_tuple (a : ArticleT) : Row :=
  [ (cols_id, JNumber (art_id a));
    (cols_title, JString (art_title a));
    (cols_abstract, JString (art_abstract a));
    (cols_createdAt, JNumber (art_createdAt a));
    ("DATE(" ++ cols_createdAt ++ ")", JNumber (art_createdAt a / 86400));
    (cols_author, JNumber (art_author a));
    (cols_tsv, JString (art_tsv a)) ].

Definition user_tuple (u : UserT) : Row :=
  [ (cols_user_id, JNumber (usr_id u));
    (cols_user_email, JString (usr_email u));
    (cols_user_displayName, JString (usr_displayName u));
    (cols_user_hash, JString (usr_hash u)) ].

Definition hub_tuple (l : ArticleHubT) (h : HubT) : Row :=
  [ (cols_hub_id, JNumber (hb_id h));
    (cols_hub_name, JString (hb_name h));
    (qc "ArticleHub" "id", JNumber (ah_id l));
    (qc "ArticleHub" "article", JNumber (ah_article l));
    (qc "ArticleHub" "hub", JNumber (ah_hub l)) ].

Definition tag_tuple (l : ArticleTagT) (t : TagT) : Row :=
  [ (cols_tag_id, JNumber (tg_id t));
    (cols_tag_name, JString (tg_name t));
    (cols_tag_hub, JNumber (tg_hub t));
    (qc "ArticleTag" "id", JNumber (at_id l));
    (qc "ArticleTag" "article", JNumber (at_article l));
    (qc "ArticleTag" "tag", JNumber (at_tag l)) ].

(** A row of Article joined with its author, one of its hubs and one of
    its tags: the three INNER JOINs both statements start with. *)
Record Head : Type := mkHead {
  h_article : ArticleT;
  h_user : UserT;
  h_hublink : ArticleHubT;
  h_hub : HubT;
  h_taglink : ArticleTagT;
  h_tag : TagT
}.

Definition head_tuple (h : Head) : Row :=
  (article_tuple (h_article h) ++ user_tuple (h_user h)
   ++ hub_tuple (h_hublink h) (h_hub h) ++ tag_tuple (h_taglink h) (h_tag h))%list.

(** [("ArticlesHubs" AS "ArticleHub" INNER JOIN Hubs AS "Hub"
      ON "Hub"."id" = "ArticleHub"."hub")] *)
Definition hub_links (db : Database) : list (ArticleHubT * HubT) :=
  flat_map (fun l =>
    map (pair l) (filter (fun h => hb_id h =? ah_hub l) (Hubs db)))
    (ArticlesHubs db).

(** [("ArticlesTags" AS "ArticleTag" INNER JOIN "Tags" AS "Tag"
      ON "Tag"."id" = "ArticleTag"."tag")] *)
Definition tag_links (db : Database) : list (ArticleTagT * TagT) :=
  flat_map (fun l =>
    map (pair l) (filter (fun t => tg_id t =? at_tag l) (Tags db)))
    (ArticlesTags db).

Section Statements.

Variable eng : Engine.
Variable r : Request.
Variable db : Database.

(** The rows the three INNER JOINs give for one article; each ON
    condition carries the join-mode fragment [userWhere], [hubWhere] or
    [tagWhere] after it. *)
Definition heads_of (a : ArticleT) : list Head :=
  flat_map (fun u =>
    flat_map (fun lh =>
      flat_map (fun lt =>
        [mkHead a u (fst lh) (snd lh) (fst lt) (snd lt)])
        (filter (fun lt =>
           (art_id a =? at_article (fst lt))
           && holds eng (tagWheres r)
                (article_tuple a ++ user_tuple u ++ hub_tuple (fst lh) (snd lh)
                 ++ tag_tuple (fst lt) (snd lt))%list)
           (tag_links db)))
      (filter (fun lh =>
         (art_id a =? ah_article (fst lh))
         && holds eng (hubWheres r)
              (article_tuple a ++ user_tuple u ++ hub_tuple (fst lh) (snd lh))%list)
         (hub_links db)))
    (filter (fun u =>
       (art_author a =? usr_id u)
       && holds eng (userWheres r) (article_tuple a ++ user_tuple u)%list)
       (Users db)).

(** The columns of the two outer-joined tables on a joined row. *)
Definition fan_tuple (p : option ArticleAnswerT * option ArticleVoteT) : Row :=
  [ (qc "ArticleAnswer" "id",
     match fst p with Some n => JNumber (an_id n) | None => JNull end);
    (qc "ArticleAnswer" "article",
     match fst p with Some n => JNumber (an_article n) | None => JNull end);
    (qc "ArticleVote" "id",
     match snd p with Some v => JNumber (vt_id v) | None => JNull end);
    (qc "ArticleVote" "article",
     match snd p with Some v => JNumber (vt_article v) | None => JNull end);
    (qc "ArticleVote" "vote",
     match snd p with Some v => JNumber (vt_vote v) | None => JNull end) ].

(** The two LEFT OUTER JOINs for one article: an answer (or NULL) with
    a vote (or NULL), every combination. *)
Definition answers_of (a : ArticleT) : list (option ArticleAnswerT) :=
  left_outer (filter (fun n => art_id a =? an_article n) (ArticlesAnswers db)).

Definition votes_of (a : ArticleT) : list (option ArticleVoteT) :=
  left_outer (filter (fun v => art_id a =? vt_article v) (ArticlesVotes db)).

Definition fanout (a : ArticleT) : list (option ArticleAnswerT * option ArticleVoteT) :=
  list_prod (answers_of a) (votes_of a).

(** The aggregate columns over the rows of one group:
    [COUNT(DISTINCT("ArticleAnswer"."id"))] and
    [COALESCE(SUM("ArticleVote"."vote"), 0)]. *)
Definition answers_agg (rows : list (option ArticleAnswerT * option ArticleVoteT)) : Z :=
  count_distinct (map (fun p => option_map an_id (fst p)) rows).

Definition votes_agg (rows : list (option ArticleAnswerT * option ArticleVoteT)) : Z :=
  coalesce (sum (map (fun p => option_map vt_vote (snd p)) rows)) 0.

Definition agg_tuple (rows : list (option ArticleAnswerT * option ArticleVoteT)) : Row :=
  [ (cols_answers, JNumber (answers_agg rows));
    (cols_votes, JNumber (votes_agg rows)) ].

(** ** The page statement *)

(** FROM ... WHERE: the joined rows that pass [where]. *)
Definition page_from : list (Head * (option ArticleAnswerT * option ArticleVoteT)) :=
  filter (fun j => holds eng (wheres r) (head_tuple (fst j) ++ fan_tuple (snd j))%list)
    (flat_map (fun a =>
       flat_map (fun h => map (pair h) (fanout a)) (heads_of a))
       (Articles db)).

(** The GROUP BY list. *)
Definition group_key (h : Head) : list jsval :=
  map (get (head_tuple h))
    [ cols_id; cols_user_id; cols_user_email; cols_hub_id;
      qc "ArticleHub" "id"; cols_tag_id; qc "ArticleTag" "id" ].

Fixpoint key_eqb (a b : list jsval) : bool :=
  match a, b with
  | [], [] => true
  | x :: a', y :: b' => strict_eq x y && key_eqb a' b'
  | _, _ => false
  end.

(** The groups: per distinct key (at its first row), the rows with it. *)
Definition page_groups
    : list (Head * list (option ArticleAnswerT * option ArticleVoteT)) :=
  map (fun h =>
         (h, map snd (filter (fun j => key_eqb (group_key (fst j)) (group_key h))
                        page_from)))
    (distinct_by (fun h h' => key_eqb (group_key h) (group_key h'))
       (map fst page_from)).

(** HAVING *)
Definition page_having
    : list (Head * list (option ArticleAnswerT * option ArticleVoteT)) :=
  filter (fun g => holds eng (havings r) (agg_tuple (snd g) ++ head_tuple (fst g))%list)
    page_groups.

(** The select list.  The two aggregates are 64-bit integers, which the
    driver hands over as decimal strings.  The [rank] column of a
    search is left out: the [data] setter does not read it. *)
Definition select_row (g : Head * list (option ArticleAnswerT * option ArticleVoteT)) : Row :=
  let h := fst g in
  ([ ("id", JNumber (art_id (h_article h)));
     ("title", JString (art_title (h_article h))) ]
   ++ (if extended r then [("abstract", JString (art_abstract (h_article h)))] else [])
   ++ [ ("createdAt", JNumber (art_createdAt (h_article h)));
        ("User.id", JNumber (usr_id (h_user h)));
        ("User.displayName", JString (usr_displayName (h_user h)));
        ("User.hash", JString (usr_hash (h_user h)));
        ("Hub.id", JNumber (hb_id (h_hub h)));
        ("Hub.name", JString (hb_name (h_hub h)));
        ("Tag.id", JNumber (tg_id (h_tag h)));
        ("Tag.name", JString (tg_name (h_tag h)));
        ("Tag.hub", JNumber (tg_hub (h_tag h)));
        ("answers", JString (string_of_Z (answers_agg (snd g))));
        ("votes", JString (string_of_Z (votes_agg (snd g)))) ])%list.

(** SELECT DISTINCT ... ORDER BY, before OFFSET and LIMIT. *)
Definition page_all : list Row :=
  sort_rows eng (orders r) (distinct_by row_eqb (map select_row page_having)).

(** The rows of the page statement, or [None] when it fails. *)
Definition page_rows : option (list Row) :=
  paginate (offset r) (limit r) page_all.

(** ** The total statement *)

(** The derived table "ArticlesAnswerVote": SELECT DISTINCT
    "Article"."id" ... GROUP BY "Article"."id" HAVING ... *)
Definition sub_from : list (ArticleT * (option ArticleAnswerT * option ArticleVoteT)) :=
  flat_map (fun a => map (pair a) (fanout a)) (Articles db).

Definition sub_groups : list (Z * list (option ArticleAnswerT * option ArticleVoteT)) :=
  map (fun k => (k, map snd (filter (fun j => art_id (fst j) =? k) sub_from)))
    (distinct_by Z.eqb (map (fun j => art_id (fst j)) sub_from)).

Definition ArticlesAnswerVote : list Z :=
  distinct_by Z.eqb
    (map fst
       (filter (fun g =>
          holds eng (havings r)
            (agg_tuple (snd g) ++ [(cols_id, JNumber (fst g))])%list)
          sub_groups)).

(** FROM ... WHERE of the outer SELECT. *)
Definition total_from : list (Head * Z) :=
  filter (fun j => holds eng (wheres r)
                     (head_tuple (fst j)
                      ++ [(qc "ArticlesAnswerVote" "id", JNumber (snd j))])%list)
    (flat_map (fun a =>
       flat_map (fun h =>
         map (pair h) (filter (fun k => art_id a =? k) ArticlesAnswerVote))
         (heads_of a))
       (Articles db)).

(** [COUNT(DISTINCT("Article"."id"))] *)
Definition total_count : Z :=
  count_distinct (map (fun j => Some (art_id (h_article (fst j)))) total_from).

(** The one row of the total statement. *)
Definition total_rows : list Row :=
  [ [ ("total", JString (string_of_Z total_count)) ] ].

(** [data] and [total] after [setData], when no statement fails. *)
Definition data_after : option (list Denormalizer.ArticleObject) :=
  option_map (Denormalizer.set_data (extended r)) page_rows.

Definition total_after : jsnum := total_of total_rows.

End Statements.

End ArticlesSql.

(* ================================================================== *)
(** * What the two statements of Tags.setData select *)
(* ================================================================== *)

Module TagsSql.

Import Storage Tags.

Definition tag_tuple (t : TagT) : Row :=
  [ (cols_id, JNumber (tg_id t));
    (cols_name, JString (tg_name t));
    (cols_hub, JNumber (tg_hub t));
    (cols_tsv, JString (tg_tsv t)) ].

(** [("ArticlesTags" AS "ArticleTag" INNER JOIN "Articles" AS "Article"
      ON "Article"."id" = "ArticleTag"."article")] *)
Definition article_links (db : Database) : list (ArticleTagT * ArticleT) :=
  flat_map (fun l =>
    map (pair l) (filter (fun a => art_id a =? at_article l) (Articles db)))
    (ArticlesTags db).

Section Statements.

Variable eng : Engine.
Variable r : Request.
Variable db : Database.

(** The LEFT OUTER JOIN for one tag: its linked articles, or NULL. *)
Definition articles_of (t : TagT) : list (option (ArticleTagT * ArticleT)) :=
  left_outer (filter (fun la => tg_id t =? at_tag (fst la)) (article_links db)).

Definition link_tuple (la : option (ArticleTagT * ArticleT)) : Row :=
  match la with
  | Some (l, a) =>
      [ (qc "ArticleTag" "id", JNumber (at_id l));
        (qc "ArticleTag" "article", JNumber (at_article l));
        (qc "ArticleTag" "tag", JNumber (at_tag l));
        (qc "Article" "id", JNumber (art_id a)) ]
  | None =>
      [ (qc "ArticleTag" "id", JNull);
        (qc "ArticleTag" "article", JNull);
        (qc "ArticleTag" "tag", JNull);
        (qc "Article" "id", JNull) ]
  end.

(** FROM ... WHERE *)
Definition from_where : list (TagT * option (ArticleTagT * ArticleT)) :=
  filter (fun j => holds eng (wheres r) (tag_tuple (fst j) ++ link_tuple (snd j))%list)
    (flat_map (fun t => map (pair t) (articles_of t)) (Tags db)).

(** [COUNT(DISTINCT("Article"."id"))] over the rows of one group. *)
Definition articles_agg (rows : list (option (ArticleTagT * ArticleT))) : Z :=
  count_distinct (map (option_map (fun la => art_id (snd la))) rows).

(** GROUP BY "Tag"."id": per distinct id (at its first row), the rows
    with it. *)
Definition groups : list (TagT * list (option (ArticleTagT * ArticleT))) :=
  map (fun t =>
         (t, map snd (filter (fun j => tg_id (fst j) =? tg_id t) from_where)))
    (distinct_by (fun t t' => tg_id t =? tg_id t') (map fst from_where)).

(** HAVING *)
Definition groups_having : list (TagT * list (option (ArticleTagT * ArticleT))) :=
  filter (fun g =>
            holds eng (havings r)
              ((cols_articles, JNumber (articles_agg (snd g))) :: tag_tuple (fst g)))
    groups.

Definition select_row (g : TagT * list (option (ArticleTagT * ArticleT))) : Row :=
  [ ("id", JNumber (tg_id (fst g)));
    ("name", JString (tg_name (fst g)));
    ("hub", JNumber (tg_hub (fst g)));
    ("articles", JString (string_of_Z (articles_agg (snd g)))) ].

Definition page_all : list Row :=
  sort_rows eng (orders r) (distinct_by row_eqb (map select_row groups_having)).

Definition page_rows : option (list Row) :=
  paginate (offset r) (limit r) page_all.

(** The derived table "result": SELECT DISTINCT "Tag"."id" AS "id" ... *)
Definition result : list Z :=
  distinct_by Z.eqb (map (fun g => tg_id (fst g)) groups_having).

(** [COUNT("id")] *)
Definition total_count : Z := Z.of_nat (List.length result).

Definition total_rows : list Row :=
  [ [ ("total", JString (string_of_Z total_count)) ] ].

Definition data_after : option (list TagDenormalizer.TagObject) :=
  option_map TagDenormalizer.set_data page_rows.

Definition total_after : jsnum := total_of total_rows.

End Statements.

End TagsSql.

(* ================================================================== *)
(** * Vocabulary of the statements proved below *)
(* ================================================================== *)

Module Vocabulary.

(** [sub] occurs in [s]. *)
Definition contains (s sub : string) : Prop :=
  exists before after, s = before ++ sub ++ after.

(** The ordering keys a caller of the Articles list asked for: one per
    sort it gave, in the precedence the list fixes. *)
Definition article_caller_keys (r : Articles.Request) : list OrderDescriptor :=
  flat_map
    (fun fc => match fst fc (Articles.sorts r) with
               | Some d => [mkOrder (snd fc) d]
               | None => []
               end)
    [ (Articles.s_title, Articles.cols_title);
      (Articles.s_author, Articles.cols_user_displayName);
      (Articles.s_answers, Articles.cols_answers);
      (Articles.s_votes, Articles.cols_votes);
      (Articles.s_createdAt, Articles.cols_createdAt) ].

Definition tag_caller_keys (r : Tags.Request) : list OrderDescriptor :=
  flat_map
    (fun fc => match fst fc (Tags.sorts r) with
               | Some d => [mkOrder (snd fc) d]
               | None => []
               end)
    [ (Tags.s_name, Tags.cols_name);
      (Tags.s_articles, Tags.cols_articles) ].

(** The character of a decimal digit. *)
Definition digit_char (d : Z) : ascii := ascii_of_nat (48 + Z.to_nat d).

(** The rank key of a search. *)
Definition rank_key : OrderDescriptor := mkOrder (q "rank") DESC.

End Vocabulary.
Import Vocabulary.

(* ================================================================== *)
(** * Root entities that satisfy the predicates; sample data *)
(* ================================================================== *)

Module Matching.

Import Storage.

Section Predicates.

Variable eng : Engine.

(** An article satisfies the [where] predicates: those on its own
    columns, and those carried by the joins, which ask for an author, a
    hub and a tag of the article that pass [userWhere], [hubWhere] and
    [tagWhere]. *)
Definition has_author (r : Articles.Request) (db : Database) (a : ArticleT) : bool :=
  existsb (fun u => (art_author a =? usr_id u)
                    && holds eng (Articles.userWheres r) (ArticlesSql.user_tuple u))
    (Users db).

Definition has_hub (r : Articles.Request) (db : Database) (a : ArticleT) : bool :=
  existsb (fun lh => (art_id a =? ah_article (fst lh))
                     && holds eng (Articles.hubWheres r)
                          (ArticlesSql.hub_tuple (fst lh) (snd lh)))
    (ArticlesSql.hub_links db).

Definition has_tag (r : Articles.Request) (db : Database) (a : ArticleT) : bool :=
  existsb (fun lt => (art_id a =? at_article (fst lt))
                     && holds eng (Articles.tagWheres r)
                          (ArticlesSql.tag_tuple (fst lt) (snd lt)))
    (ArticlesSql.tag_links db).

Definition article_where (r : Articles.Request) (db : Database) (a : ArticleT) : bool :=
  holds eng (Articles.wheres r) (ArticlesSql.article_tuple a)
  && has_author r db a && has_hub r db a && has_tag r db a.

(** The [having] predicates as the two statements evaluate them for an
    article: on the aggregate columns taken over the group of its
    answers joined with its votes (see [votes_agg_fanout] for what the
    vote column then holds). *)
Definition grouped_having (r : Articles.Request) (db : Database) (a : ArticleT) : bool :=
  holds eng (Articles.havings r) (ArticlesSql.agg_tuple (ArticlesSql.fanout db a)).

(** The articles the total statement counts. *)
Definition counted_articles (r : Articles.Request) (db : Database) : list ArticleT :=
  filter (fun a => article_where r db a && grouped_having r db a) (Articles db).

(** The number of answers of an article and the sum of its vote
    values, read off the two tables. *)
Definition answer_count (db : Database) (a : ArticleT) : Z :=
  Z.of_nat (List.length
    (distinct_by Z.eqb
       (map an_id (filter (fun n => an_article n =? art_id a) (ArticlesAnswers db))))).

Definition vote_sum (db : Database) (a : ArticleT) : Z :=
  fold_right Z.add 0
    (map vt_vote (filter (fun v => vt_article v =? art_id a) (ArticlesVotes db))).

(** Modelled from the spec: an article satisfies the [having]
    predicates when they hold of its number of answers and of the sum
    of its vote values. *)
Definition article_having (r : Articles.Request) (db : Database) (a : ArticleT) : bool :=
  holds eng (Articles.havings r)
    [ (Articles.cols_answers, JNumber (answer_count db a));
      (Articles.cols_votes, JNumber (vote_sum db a)) ].

Definition tag_where (r : Tags.Request) (t : TagT) : bool :=
  holds eng (Tags.wheres r) (TagsSql.tag_tuple t).

Definition tag_having (r : Tags.Request) (db : Database) (t : TagT) : bool :=
  holds eng (Tags.havings r)
    [ (Tags.cols_articles, JNumber (TagsSql.articles_agg (TagsSql.articles_of db t))) ].

(** The joined rows of a tag that pass [where]: all of them or none. *)
Definition kept_rows (r : Tags.Request) (db : Database) (t : TagT)
    : list (option (ArticleTagT * ArticleT)) :=
  if tag_where r t then TagsSql.articles_of db t else [].

Definition matching_tags (r : Tags.Request) (db : Database) : list TagT :=
  filter (fun t => tag_where r t && tag_having r db t) (Tags db).

End Predicates.

(** The same request with another page. *)
Definition articles_page (r : Articles.Request) (limit offset : Z) : Articles.Request :=
  Articles.mkRequest (Articles.filters r) (Articles.sorts r) limit offset
    (Articles.search r) (Articles.extended r).

Definition tags_page (r : Tags.Request) (limit offset : Z) : Tags.Request :=
  Tags.mkRequest (Tags.filters r) (Tags.sorts r) limit offset (Tags.search r).

End Matching.
Import Matching.

(* ================================================================== *)
(** * Sample requests and databases *)
(* ================================================================== *)

Module Samples.

Import Storage.

(** An engine that matches no vendor pattern and returns rows in the
    order it built them. *)
Definition plain_engine : Engine :=
  mkEngine (fun _ _ => false) (fun _ rows => rows) (fun _ rows => Permutation_refl rows).

Definition no_filters : Articles.Filters :=
  Articles.mkFilters None None None None None None None None.

Definition no_sorts : Articles.Sorts :=
  Articles.mkSorts None None None None None.

(** The first page of all articles. *)
Definition list_all : Articles.Request :=
  Articles.mkRequest no_filters no_sorts 10 0 JUndefined false.

(** The first page of the articles of hub 3. *)
Definition list_hub_3 : Articles.Request :=
  Articles.mkRequest
    (Articles.mkFilters None None None (Some (FIds [3])) None None None None)
    no_sorts 10 0 JUndefined false.

(** One article, by user 7, in hub 3 with tag 9; two answers and one
    vote of value 1. *)
Definition db_two_answers_one_vote : Database :=
  mkDatabase
    [mkArticle 1 "On primes" "An abstract" 1000 7 "prime"]
    [mkUser 7 "u@example.org" "U" "hash"]
    [mkHubT 3 "Algebra"]
    [mkTagT 9 "primes" 3 "prime"]
    [mkArticleHub 1 1 3]
    [mkArticleTag 1 1 9]
    [mkArticleAnswer 1 1; mkArticleAnswer 2 1]
    [mkArticleVote 1 1 1].

(** One article in hubs 3 and 5, with tag 9; no answer, no vote. *)
Definition db_hubs_3_5 : Database :=
  mkDatabase
    [mkArticle 1 "On primes" "An abstract" 1000 7 "prime"]
    [mkUser 7 "u@example.org" "U" "hash"]
    [mkHubT 3 "Algebra"; mkHubT 5 "Number theory"]
    [mkTagT 9 "primes" 3 "prime"]
    [mkArticleHub 1 1 3; mkArticleHub 2 1 5]
    [mkArticleTag 1 1 9]
    []
    [].

(** A storage connection that rejects every statement. *)
Definition refusing_handle : Handle string :=
  mkHandle string unit (fun s _ => (s, Rejected "connection refused")).

(** A storage connection that answers every statement with the same
    one row. *)
Definition constant_handle : Handle string :=
  mkHandle string unit
    (fun s _ => (s, Resolved [ [("id", JNumber 1); ("total", JString "1")] ])).

(** A list instance that holds no data yet, facing each of the two
    connections. *)
Definition fresh_list : ArticlesList.Instance :=
  ArticlesList.mkInstance list_all [] JNaN.

Definition refused_world : World refusing_handle ArticlesList.Instance :=
  mkWorld (db := refusing_handle) fresh_list tt [].

Definition constant_world : World constant_handle ArticlesList.Instance :=
  mkWorld (db := constant_handle) fresh_list tt [].

(** Modelled from the spec: one utils/queries that fits its words, for
    use in examples.  prepareWhere yields TRUE for no descriptor and
    prefixes the combinator in join mode; prepareOrder keeps the order
    of its entries.  The predicates themselves are not rendered, and
    prepareQuery is taken to leave the text as it is. *)
Definition sample_imports : Imports :=
  mkImports
    (fun ds join =>
       (if join then "AND " else EmptyString)
       ++ match ds with
          | [] => "TRUE"
          | _ => String.concat " AND " (map wd_column ds)
          end)
    (fun os =>
       String.concat ", "
         (map (fun o => od_column o ++ match od_direction o with
                                       | ASC => " ASC"
                                       | DESC => " DESC"
                                       end) os))
    (fun sql => sql)
    "Users"
    "Hubs".

(** A request for the first page of the articles with [votes >= 5]. *)
Definition votes_at_least_5 : Articles.Request :=
  Articles.mkRequest
    (Articles.mkFilters None None None None None None (Some (FNumeric (Some OpGe) 5)) None)
    no_sorts 10 0 JUndefined false.

(** One article, by user 7, in hub 3 with tag 9; two answers and one
    vote of value 3. *)
Definition db_two_answers_vote_3 : Database :=
  mkDatabase
    [mkArticle 1 "On primes" "An abstract" 1000 7 "prime"]
    [mkUser 7 "u@example.org" "U" "hash"]
    [mkHubT 3 "Algebra"]
    [mkTagT 9 "primes" 3 "prime"]
    [mkArticleHub 1 1 3]
    [mkArticleTag 1 1 9]
    [mkArticleAnswer 1 1; mkArticleAnswer 2 1]
    [mkArticleVote 1 1 3].

(** A storage holding [db] that is asked the two statements of one
    [setData] of the Articles list for the request [r]: it answers the
    first statement it receives with the rows of the page statement
    (rejecting it when the statement fails) and every later one with
    the row of the total statement. *)
Definition articles_storage (eng : Engine) (r : Articles.Request) (db : Database)
  : Handle string :=
  mkHandle string bool
    (fun asked _ =>
       if asked then (true, Resolved (ArticlesSql.total_rows eng r db))
       else (true,
             match ArticlesSql.page_rows eng r db with
             | Some rows => Resolved rows
             | None => Rejected "LIMIT must not be negative"
             end)).

End Samples.
Import Samples.

(* ================================================================== *)
(** * models/tag.js: class TagsInHub *)
(* ================================================================== *)

Module TagsInHub.

(** An element of the array the setter stores in [dataProxy]. *)
Record TagObject : Type := mkTagObject {
  id : jsval;
  name : jsval
}.

Definition tagObject (tag : Row) : TagObject :=
  {| id := get tag "id";
     name := get tag "name" |}.

(** [set data(tagsRaw)] *)
Definition set_data (tagsRaw : list Row) : list TagObject :=
  fold_left (fun tags tag => (tags ++ [tagObject tag])%list) tagsRaw [].

(** A [TagsInHub] instance: the [id] and [limit] the constructor stores
    as [hubId] and [limit], and the array of [dataProxy]. *)
Record Instance : Type := mkInstance {
  hubId : jsval;
  limit : jsval;
  dataProxy : list TagObject
}.

(** [get data()] *)
Definition data (l : Instance) : list TagObject := dataProxy l.

(** [get cols()] *)
Definition cols_id : string := qc "Tag" "id".
Definition cols_name : string := qc "Tag" "name".

(** The template literal of the one [db.query] of [setData]. *)
Definition template_ (l : Instance) : string :=
  template [
    EmptyString;
    "SELECT";
    cols_id ++ ",";
    cols_name;
    "FROM " ++ q "Tags" ++ " AS " ++ q "Tag";
    "LEFT OUTER JOIN (" ++ q "ArticlesTags" ++ " AS " ++ q "ArticleTag";
    "INNER JOIN " ++ q "Articles" ++ " AS " ++ q "Article" ++ " ON "
      ++ qc "Article" "id" ++ " = " ++ qc "ArticleTag" "article" ++ ") ON "
      ++ cols_id ++ " = " ++ qc "ArticleTag" "tag";
    "WHERE " ++ qc "Tag" "hub" ++ " = " ++ ToString (hubId l);
    "GROUP BY " ++ cols_id;
    "ORDER BY COUNT(DISTINCT(" ++ cols_id ++ ")) DESC";
    EmptyString ].

Definition sql (I : Imports) (l : Instance) : string :=
  prepareQuery I (template_ l).

Section SetData.

Context {E : Type} (I : Imports) (db : Handle E).

(** [async setData()] *)
Definition setData : M db Instance unit :=
  try_catch
    (l <- read_this ;;
     rows <- db_query (sql I l) ;;
     l <- read_this ;;
     write_this (mkInstance (hubId l) (limit l) (set_data rows)) ;;;
     ret tt)
    (fun error => throw error).

End SetData.

End TagsInHub.

Module Samples2.

(** A storage connection that answers the first statement it receives
    with one row and rejects every later one. *)
Definition total_refusing_handle : Handle string :=
  mkHandle string bool
    (fun answered _ =>
       if answered then (true, Rejected "timeout")
       else (true, Resolved [ [("id", JNumber 1)] ])).

(** A list instance holding no data and the total 7, facing it. *)
Definition total_refused_world : World total_refusing_handle ArticlesList.Instance :=
  mkWorld (db := total_refusing_handle)
    (ArticlesList.mkInstance list_all [] (JInt 7)) false [].

End Samples2.
Import Samples2.

(* ================================================================== *)
(** * Vocabulary for the clause lists *)
(* ================================================================== *)

Module Clauses.

(** 1 for a filter that was given, 0 otherwise. *)
Definition given {A : Type} (x : option A) : nat :=
  match x with
  | Some _ => 1
  | None => 0
  end.

(** The aggregate expressions of the two lists. *)
Definition article_aggregates : list string :=
  [Articles.cols_answers; Articles.cols_votes].

Definition tag_aggregates : list string := [Tags.cols_articles].

Definition is_tsMatch (d : WhereDescriptor) : bool :=
  match wd_filter d with
  | FTsMatch _ => true
  | _ => false
  end.

(** No two entries of a string list are equal. *)
Fixpoint distinct_strings (xs : list string) : bool :=
  match xs with
  | [] => true
  | x :: xs' => negb (existsb (String.eqb x) xs') && distinct_strings xs'
  end.

End Clauses.
Import Clauses.

(* ================================================================== *)
(** * controllers/articles.js: [responseBody] and [all] *)
(* ================================================================== *)

Module ArticlesController.

(** The object given as [error] in a failure response. *)
Record ErrorInfo : Type := mkErrorInfo {
  source : string;
  type_ : string;
  message : jsval
}.

Record Context : Type := mkContext {
  endpoint : string;
  limit : jsnum;
  offset : jsnum;
  total : jsnum;
  success : bool;
  code : Z;
  error : option ErrorInfo
}.

(** What [res.json] is given; [data] is [null] or the list's data. *)
Record Response : Type := mkResponse {
  data : option (list Denormalizer.ArticleObject);
  context : Context
}.

(** ToBoolean of [error]: [null] is falsy, an object is truthy. *)
Definition truthy_error (error : option ErrorInfo) : bool :=
  match error with
  | Some _ => true
  | None => false
  end.

(** [responseBody], all seven arguments given. *)
Definition responseBody (data : option (list Denormalizer.ArticleObject))
    (endpoint : string) (code : Z) (error : option ErrorInfo)
    (limit offset total : jsnum) : Response :=
  mkResponse data
    (mkContext ("/articles/" ++ endpoint) limit offset total
       (negb (truthy_error error)) code error).

(** [responseBody(data, endpoint, code, error)]: the last three
    arguments take their defaults. *)
Definition responseBody4 (data : option (list Denormalizer.ArticleObject))
    (endpoint : string) (code : Z) (error : option ErrorInfo) : Response :=
  responseBody data endpoint code error Controller.ARTICLES_LIMIT (JInt 0) (JInt 0).

(** [req.body] when it is an object, as far as [all] reads it: the two
    pagination members, and the members [filters] and [sorts], [None]
    standing for a falsy one.  The members are values of a parsed JSON
    text, so ToString of them returns. *)
Record Body (F S : Type) : Type := mkBodyObject {
  pagination : Controller.body;
  body_filters : option F;
  body_sorts : option S
}.
Arguments mkBodyObject {F S} pagination body_filters body_sorts.
Arguments pagination {F S} b.
Arguments body_filters {F S} b.
Arguments body_sorts {F S} b.

(** The object [data] of [all]; in [filters] and [sorts], [None] stands
    for [false]. *)
Record Data (F S : Type) : Type := mkData {
  d_limit : jsnum;
  d_offset : jsnum;
  d_filters : option F;
  d_sorts : option S
}.
Arguments mkData {F S} d_limit d_offset d_filters d_sorts.
Arguments d_limit {F S} d.
Arguments d_offset {F S} d.
Arguments d_filters {F S} d.
Arguments d_sorts {F S} d.

Definition data_of {F S : Type} (b : Body F S) : Data F S :=
  mkData (Controller.data_limit (pagination b)) (Controller.data_offset (pagination b))
    (body_filters b) (body_sorts b).

(** What a call of [all] throws when it does not respond: the TypeError
    of reading a member of [undefined] or [null], or the value that
    [new Articles(data)] threw. *)
Inductive Failure (E : Type) : Type :=
| TypeError
| Raised (error : E).
Arguments TypeError {E}.
Arguments Raised {E} error.

Section All.

Context {E F S : Type} (I : Imports) (db : Handle E).

(** [new Articles(data)].  The constructor runs the one of FilteredList
    (models/mixins) and [getInstance] (models/index), neither among the
    sources: it returns the list or throws. *)
Variable construct : Data F S -> outcome E ArticlesList.Instance.

(** [error.message] of a thrown value; [None] when the value is
    [undefined] or [null], where reading the member throws. *)
Variable message_of : E -> option jsval.

(** [all(req, res)]: [body] is [req.body], [None] when it is [undefined]
    or [null]; the storage is in the state [s].  A returned value is
    what [res.json] is given ([res.json] itself is taken to return).
    The world it ends in holds the list [articles] once it is built. *)
Definition all (body : option (Body F S)) (s : storage db)
  : World db (option ArticlesList.Instance) * outcome (Failure E) Response :=
  match body with
  | None => (mkWorld None s [], Thrown TypeError)
  | Some b =>
      let data := data_of b in
      match construct data with
      | Thrown error => (mkWorld None s [], Thrown (Raised error))
      | Returned articles =>
          match ArticlesList.setData I db (mkWorld articles s []) with
          | (w, Returned _) =>
              (mkWorld (Some (this w)) (store w) (issued w),
               Returned (responseBody (Some (ArticlesList.data (this w))) "all" 200 None
                           (d_limit data) (d_offset data) (ArticlesList.total (this w))))
          | (w, Thrown error) =>
              (mkWorld (Some (this w)) (store w) (issued w),
               match message_of error with
               | Some m =>
                   Returned (responseBody4 None "all" 500
                               (Some (mkErrorInfo "internal" "exception" m)))
               | None => Thrown TypeError
               end)
          end
      end
  end.

End All.

(** Modelled from the spec: a constructor that keeps the limit and
    offset it is given (the defaults for a value that is not a number)
    and the filters and sorts, none for [false]; no search, not
    extended. *)
Definition sample_construct {E : Type} (d : Data Articles.Filters Articles.Sorts)
  : outcome E ArticlesList.Instance :=
  Returned
    (ArticlesList.mkInstance
       (Articles.mkRequest
          (match d_filters d with Some f => f | None => no_filters end)
          (match d_sorts d with Some s => s | None => no_sorts end)
          (match d_limit d with JInt l => l | JNaN => 10 end)
          (match d_offset d with JInt o => o | JNaN => 0 end)
          JUndefined false)
       [] JNaN).

End ArticlesController.

(* ================================================================== *)
(** * The captcha controller: [responseBody] and [generate] *)
(* ================================================================== *)

Module CaptchaController.

(** The object given as [error]; the one of an unloaded captcha has no
    [message]. *)
Record ErrorInfo : Type := mkErrorInfo {
  source : string;
  type_ : string;
  message : option jsval
}.

Record Context : Type := mkContext {
  endpoint : string;
  status : string;
  code : Z;
  error : option ErrorInfo
}.

Section Generate.

(** Thrown values, the payload a captcha holds in [data], its [math]
    and signed tokens. *)
Context {E D Mth T : Type}.

(** [{token, math}] *)
Record Payload : Type := mkPayload {
  token : T;
  math : Mth
}.

Record Response : Type := mkResponse {
  data : option Payload;
  context : Context
}.

(** [responseBody(body, endpoint, code = 200, error = null)] *)
Definition responseBody (body : option Payload) (endpoint : string)
    (code : Z) (error : option ErrorInfo) : Response :=
  mkResponse body
    (mkContext ("/captcha/" ++ endpoint)
       (match error with Some _ => "error" | None => "success" end)
       code error).

(** The Captcha class (models/captcha) is not among the sources; a
    captcha is given by how its [setData] ends, with the value it
    returns and the [data] and [math] it holds from then on. *)
Variable captcha_setData : outcome E (bool * D * Mth).

(** [jwt.sign(payload, process.env.JWT_PRIVATE_KEY, {expiresIn})] *)
Variable jwt_sign : D -> Z -> outcome E T.

(** [error.message] of a thrown value. *)
Variable message_of : E -> jsval.

Definition exception_response (error : E) : Response :=
  responseBody None "generate" 500
    (Some (mkErrorInfo "internal" "exception" (Some (message_of error)))).

(** [generate]: the value handed to [res.json]. *)
Definition generate : Response :=
  match captcha_setData with
  | Thrown error => exception_response error
  | Returned (loaded, captcha_data, captcha_math) =>
      if negb loaded
      then responseBody None "generate" 500
             (Some (mkErrorInfo "captcha" "not_loaded" None))
      else
        match jwt_sign captcha_data (15 * 60) with
        | Thrown error => exception_response error
        | Returned tok =>
            responseBody (Some (mkPayload tok captcha_math)) "generate" 200 None
        end
  end.

End Generate.

Arguments Payload : clear implicits.
Arguments Response : clear implicits.

End CaptchaController.

(* ================================================================== *)
(** * Vocabulary for the page statements *)
(* ================================================================== *)

Module Pages.

Import Storage.

(** The number of different articles of the Articles table that
    ArticlesTags links to a tag. *)
Definition linked_articles (db : Database) (t : TagT) : Z :=
  Z.of_nat (List.length (distinct_by Z.eqb
    (map at_article
       (filter (fun l => (tg_id t =? at_tag l)
                         && existsb (fun a => art_id a =? at_article l) (Articles db))
          (ArticlesTags db))))).

(** The number of rows a page of [limit] rows at [offset] has, out of
    [total]. *)
Definition page_size (limit offset total : Z) : Z :=
  Z.min limit (Z.max 0 (total - offset)).

End Pages.
Import Pages.

(* ================================================================== *)
(** * The statement of TagsInHub.setData, read over tables *)
(* ================================================================== *)

Module TagsInHubSql.

Import Storage.

Section Statement.

(** The number interpolated after ["Tag"."hub" =]. *)
Variable hub : Z.
Variable db : Database.

(** FROM "Tags" AS "Tag" LEFT OUTER JOIN (...) ON "Tag"."id" =
    "ArticleTag"."tag" WHERE "Tag"."hub" = hub *)
Definition from_where : list (TagT * option (ArticleTagT * ArticleT)) :=
  filter (fun j => tg_hub (fst j) =? hub)
    (flat_map
       (fun t =>
          map (pair t)
            (left_outer
               (filter (fun la => tg_id t =? at_tag (fst la)) (TagsSql.article_links db))))
       (Tags db)).

(** GROUP BY "Tag"."id": per distinct id (at its first row), the rows
    with it. *)
Definition groups : list (TagT * list (TagT * option (ArticleTagT * ArticleT))) :=
  map (fun t => (t, filter (fun j => tg_id (fst j) =? tg_id t) from_where))
    (distinct_by (fun t t' => tg_id t =? tg_id t') (map fst from_where)).

(** [COUNT(DISTINCT("Tag"."id"))] over the rows of one group, the key
    of ORDER BY ... DESC. *)
Definition order_key (g : TagT * list (TagT * option (ArticleTagT * ArticleT))) : Z :=
  count_distinct (map (fun j => Some (tg_id (fst j))) (snd g)).

Definition select_row (g : TagT * list (TagT * option (ArticleTagT * ArticleT))) : Row :=
  [ ("id", JNumber (tg_id (fst g)));
    ("name", JString (tg_name (fst g))) ].

(** The rows before ORDER BY arranges them. *)
Definition selected : list Row := map select_row groups.

(** The tags of the hub, as the setter would store them. *)
Definition hub_tags : list TagsInHub.TagObject :=
  map (fun t => TagsInHub.mkTagObject (JNumber (tg_id t)) (JString (tg_name t)))
    (filter (fun t => tg_hub t =? hub) (Tags db)).

End Statement.

End TagsInHubSql.

(* ================================================================== *)
(** * models/article.js, models/tag.js: loading the default rows *)
(* ================================================================== *)

Module Seeding.

(** The argument of [model.findOrCreate]. *)
Record Options (W D : Type) : Type := mkOptions {
  where_ : W;
  defaults : D
}.
Arguments mkOptions {W D} where_ defaults.
Arguments where_ {W D} o.
Arguments defaults {W D} o.

(** The [model] a loader is given: a table state and the effect of one
    [findOrCreate] on it, which resolves (with a value the loaders do
    not read) or rejects.  [C] is the type of the argument. *)
Record Model (E C : Type) : Type := mkModel {
  table : Type;
  findOrCreate : table -> C -> table * option E
}.
Arguments table {E C} m.
Arguments findOrCreate {E C} m t c.

(** [new Error(error)] *)
Inductive JsError (E : Type) : Type :=
| NewError (cause : E).
Arguments NewError {E} cause.

(** An element of [articles] of tests/articles. *)
Record SeedArticle : Type := mkSeedArticle {
  sa_id : jsval;
  sa_title : jsval;
  sa_author : jsval;
  sa_abstract : jsval;
  sa_raw : jsval;
  sa_createdAt : jsval;
  sa_hubs : list jsval;
  sa_tags : list jsval
}.

(** An element of [answers] of tests/articles. *)
Record SeedAnswer : Type := mkSeedAnswer {
  sn_id : jsval;
  sn_article : jsval;
  sn_user : jsval;
  sn_message : jsval;
  sn_createdAt : jsval
}.

(** [{id, title, author, abstract, raw, createdAt}] *)
Record ArticleRow : Type := mkArticleRow {
  ar_id : jsval;
  ar_title : jsval;
  ar_author : jsval;
  ar_abstract : jsval;
  ar_raw : jsval;
  ar_createdAt : jsval
}.

(** [{article, hub}] and [{article, tag}] *)
Record Link : Type := mkLink {
  ln_article : jsval;
  ln_other : jsval
}.

(** [{id, article}] *)
Record AnswerKey : Type := mkAnswerKey {
  ak_id : jsval;
  ak_article : jsval
}.

(** [{id, name}] *)
Record TagKey : Type := mkTagKey {
  tk_id : jsval;
  tk_name : jsval
}.

Section Loaders.

Context {E C : Type} (model : Model E C).

(** The table and the arguments [findOrCreate] was called with so
    far. *)
Record World : Type := mkWorld {
  rows : table model;
  calls : list C
}.

Definition M (X A : Type) : Type := World -> World * outcome X A.

Definition ret {X A : Type} (a : A) : M X A := fun w => (w, Returned a).

Definition throw {X A : Type} (x : X) : M X A := fun w => (w, Thrown x).

Definition bind {X A B : Type} (m : M X A) (k : A -> M X B) : M X B :=
  fun w =>
    match m w with
    | (w', Returned a) => k a w'
    | (w', Thrown x) => (w', Thrown x)
    end.

(** [try { body } catch (error) { handler }] *)
Definition try_catch {X Y A : Type} (body : M X A) (handler : X -> M Y A) : M Y A :=
  fun w =>
    match body w with
    | (w', Returned a) => (w', Returned a)
    | (w', Thrown x) => handler x w'
    end.

(** [for (let x of xs) { body }] *)
Fixpoint for_of {X A : Type} (xs : list A) (body : A -> M X unit) : M X unit :=
  match xs with
  | [] => ret tt
  | x :: xs' => bind (body x) (fun _ => for_of xs' body)
  end.

(** [await model.findOrCreate(c)] *)
Definition await_findOrCreate (c : C) : M E unit :=
  fun w =>
    let '(t', r) := findOrCreate model (rows w) c in
    let w' := mkWorld t' (calls w ++ [c])%list in
    match r with
    | None => (w', Returned tt)
    | Some e => (w', Thrown e)
    end.

End Loaders.

Arguments mkWorld {E C model} rows calls.
Arguments rows {E C model} w.
Arguments calls {E C model} w.
Arguments ret {E C model X A} a.
Arguments throw {E C model X A} x.
Arguments bind {E C model X A B} m k.
Arguments try_catch {E C model X Y A} body handler.
Arguments for_of {E C model X A} xs body.

Section Defaults.

Context {E : Type}.

(** [ArticleDefaults(model)], over the imported [articles]. *)
Definition ArticleDefaults (model : Model E (Options jsval ArticleRow))
    (articles : list SeedArticle) : M model (JsError E) unit :=
  try_catch
    (for_of articles (fun article =>
       await_findOrCreate model
         (mkOptions (sa_id article)
            (mkArticleRow (sa_id article) (sa_title article) (sa_author article)
               (sa_abstract article) (sa_raw article) (sa_createdAt article)))))
    (fun error => throw (NewError error)).

(** [ArticleHubDefaults(model)] *)
Definition ArticleHubDefaults (model : Model E (Options Link Link))
    (articles : list SeedArticle) : M model (JsError E) unit :=
  try_catch
    (for_of articles (fun article =>
       for_of (sa_hubs article) (fun id =>
         await_findOrCreate model
           (mkOptions (mkLink (sa_id article) id) (mkLink (sa_id article) id)))))
    (fun error => throw (NewError error)).

(** [ArticleTagDefaults(model)] *)
Definition ArticleTagDefaults (model : Model E (Options Link Link))
    (articles : list SeedArticle) : M model (JsError E) unit :=
  try_catch
    (for_of articles (fun article =>
       for_of (sa_tags article) (fun id =>
         await_findOrCreate model
           (mkOptions (mkLink (sa_id article) id) (mkLink (sa_id article) id)))))
    (fun error => throw (NewError error)).

(** [ArticleAnswerDefaults(model)], over the imported [answers]. *)
Definition ArticleAnswerDefaults (model : Model E (Options AnswerKey SeedAnswer))
    (answers : list SeedAnswer) : M model (JsError E) unit :=
  try_catch
    (for_of answers (fun answer =>
       await_findOrCreate model
         (mkOptions (mkAnswerKey (sn_id answer) (sn_article answer))
            (mkSeedAnswer (sn_id answer) (sn_article answer) (sn_user answer)
               (sn_message answer) (sn_createdAt answer)))))
    (fun error => throw (NewError error)).

(** [TagDefaults(model)], over the imported [tags] of tests/tags, whose
    elements are of type [T]; [defaults] is the element itself. *)
Definition TagDefaults {T : Type} (tag_id tag_name : T -> jsval)
    (model : Model E (Options TagKey T)) (tags : list T) : M model (JsError E) unit :=
  try_catch
    (for_of tags (fun tag =>
       await_findOrCreate model (mkOptions (mkTagKey (tag_id tag) (tag_name tag)) tag)))
    (fun error => throw (NewError error)).

End Defaults.

(** The calls a loader makes when no call rejects, in order. *)
Definition link_calls (others : SeedArticle -> list jsval) (articles : list SeedArticle)
  : list (Options Link Link) :=
  flat_map
    (fun article =>
       map (fun id => mkOptions (mkLink (sa_id article) id) (mkLink (sa_id article) id))
         (others article))
    articles.

(** Running the calls [cs] in turn from the table [t], stopping after
    the first that rejects: the calls made, the table, the rejection. *)
Fixpoint attempt {E C : Type} (model : Model E C) (cs : list C) (t : table model)
  : list C * table model * option E :=
  match cs with
  | [] => ([], t, None)
  | c :: cs' =>
      match findOrCreate model t c with
      | (t', Some e) => ([c], t', Some e)
      | (t', None) =>
          let '(made, t'', r) := attempt model cs' t' in (c :: made, t'', r)
      end
  end.

(** What a loader ends with after [attempt]. *)
Definition finish {E C : Type} {model : Model E C} (w : World model)
    (a : list C * table model * option E) : World model * outcome (JsError E) unit :=
  let '(made, t, r) := a in
  (mkWorld t (calls w ++ made)%list,
   match r with
   | None => Returned tt
   | Some e => Thrown (NewError e)
   end).

(** Every call of [cs], made in turn from the table [t], resolves, and
    the table is [t'] after the last. *)
Inductive resolve_all {E C : Type} (model : Model E C)
  : table model -> list C -> table model -> Prop :=
| resolve_nil (t : table model) : resolve_all model t [] t
| resolve_cons (t : table model) (c : C) (t' : table model) (cs : list C)
    (t'' : table model) :
    findOrCreate model t c = (t', None) ->
    resolve_all model t' cs t'' ->
    resolve_all model t (c :: cs) t''.

(** How a loader that has the calls [all] to make ends when it is run
    in the world [w].  It returns after all of them, each resolved; or
    it throws [new Error(e)] where [e] is the rejection of a call [c],
    the calls before [c] resolved, [c] is the last call made and the
    table is as [c] left it. *)
Definition stops_at_first_rejection {E C : Type} {model : Model E C}
    (all : list C) (w : World model)
    (run : World model * outcome (JsError E) unit) : Prop :=
  match snd run with
  | Returned _ =>
      calls (fst run) = (calls w ++ all)%list
      /\ resolve_all model (rows w) all (rows (fst run))
  | Thrown (NewError e) =>
      exists pre c post t0,
        all = (pre ++ c :: post)%list
        /\ calls (fst run) = (calls w ++ pre ++ [c])%list
        /\ resolve_all model (rows w) pre t0
        /\ findOrCreate model t0 c = (rows (fst run), Some e)
  end.

(** A sample table of links, with a [findOrCreate] that adds the link
    when the table has none with the same article and other end, and
    rejects a link whose other end is null. *)
Definition link_eqb (x y : Link) : bool :=
  strict_eq (ln_article x) (ln_article y) && strict_eq (ln_other x) (ln_other y).

Definition sample_links : Model string (Options Link Link) :=
  mkModel string (Options Link Link) (list Link)
    (fun t c =>
       if existsb (link_eqb (where_ c)) t then (t, None)
       else match ln_other (defaults c) with
            | JNull => (t, Some "null value in column violates not-null constraint")
            | _ => ((t ++ [defaults c])%list, None)
            end).

Definition sample_articles : list SeedArticle :=
  [ mkSeedArticle (JNumber 1) (JString "On primes") (JNumber 7) (JString "An abstract")
      (JString "Text") (JNumber 1000) [JNumber 3; JNumber 5] [JNumber 9];
    mkSeedArticle (JNumber 2) (JString "On groups") (JNumber 7) (JString "An abstract")
      (JString "Text") (JNumber 2000) [JNull; JNumber 3] [] ].

End Seeding.

(* ================================================================== *)
(** * controllers/articles.js: limit and offset *)
(* ================================================================== *)

Lemma or_num_falsy (a d : jsnum) :
  a = JNaN \/ a = JInt 0 -> or_num a d = d.
Proof.
  intros [-> | ->]; reflexivity.
Qed.

Lemma or_num_truthy_default (a d : jsnum) :
  truthy_num d = true -> truthy_num (or_num a d) = true.
Proof.
  intros Hd. unfold or_num.
  destruct (truthy_num a) eqn:Ha; assumption.
Qed.

(** C10.  In [all], a [limit] whose [parseInt] is [NaN] or [0] becomes
    the default 10 and an [offset] whose [parseInt] is [NaN] or [0]
    becomes 0, in the object the Articles list is constructed from; the
    explicit value 0 and an absent limit are among them, and the limit
    handed over is never 0 (nor [NaN]). *)
Theorem all_defaults_limit_and_offset (b : Controller.body) :
  (parseInt (Controller.body_limit b) = JNaN
   \/ parseInt (Controller.body_limit b) = JInt 0 ->
   Controller.data_limit b = JInt 10)
  /\ (parseInt (Controller.body_offset b) = JNaN
      \/ parseInt (Controller.body_offset b) = JInt 0 ->
      Controller.data_offset b = JInt 0)
  /\ (Controller.body_limit b = ToString (JNumber 0)
      \/ Controller.body_limit b = ToString JUndefined ->
      Controller.data_limit b = JInt 10)
  /\ Controller.data_limit b <> JInt 0
  /\ Controller.data_limit b <> JNaN.
Proof.
  unfold Controller.data_limit, Controller.data_offset, Controller.ARTICLES_LIMIT.
  repeat split.
  - apply or_num_falsy.
  - apply or_num_falsy.
  - intros [-> | ->]; reflexivity.
  - intros H.
    pose proof (or_num_truthy_default
                  (parseInt (Controller.body_limit b)) (JInt 10) eq_refl) as T.
    rewrite H in T. discriminate T.
  - intros H.
    pose proof (or_num_truthy_default
                  (parseInt (Controller.body_limit b)) (JInt 10) eq_refl) as T.
    rewrite H in T. discriminate T.
Qed.

Lemma all_defaults_limit_and_offset_witness :
  Controller.data_limit (Controller.mkBody "0" "undefined") = JInt 10
  /\ Controller.data_offset (Controller.mkBody "0" "undefined") = JInt 0.
Proof.
  pose proof (all_defaults_limit_and_offset (Controller.mkBody "0" "undefined"))
    as [HL [HO _]].
  split.
  - apply HL. right. reflexivity.
  - apply HO. left. reflexivity.
Defined.

Example all_keeps_a_positive_limit :
  Controller.data_limit (Controller.mkBody "25" "50") = JInt 25
  /\ Controller.data_offset (Controller.mkBody "25" "50") = JInt 50.
Proof. split; reflexivity. Qed.

Example all_keeps_a_negative_limit :
  Controller.data_limit (Controller.mkBody "-3" "null") = JInt (-3).
Proof. reflexivity. Qed.

Example parseInt_samples :
  parseInt "25" = JInt 25 /\ parseInt "  -7px" = JInt (-7)
  /\ parseInt "0x1f" = JInt 31 /\ parseInt "ten" = JNaN
  /\ parseInt "0.5" = JInt 0 /\ parseInt EmptyString = JNaN.
Proof. repeat split; reflexivity. Qed.

(* ================================================================== *)
(** * The ORDER BY list *)
(* ================================================================== *)

Lemma push_if_app {A B : Type} (x : option A) (f : A -> B) (xs : list B) :
  push_if x f xs = (xs ++ match x with Some a => [f a] | None => [] end)%list.
Proof.
  destruct x; simpl; [reflexivity | now rewrite app_nil_r].
Qed.

(* ================================================================== *)
(** * Texts and what they contain *)
(* ================================================================== *)

Lemma append_assoc (a b c : string) : (a ++ b) ++ c = a ++ (b ++ c).
Proof.
  induction a as [| ch a IH]; simpl; [reflexivity | now rewrite IH].
Qed.

Lemma append_empty_r (a : string) : a ++ EmptyString = a.
Proof.
  induction a as [| ch a IH]; simpl; [reflexivity | now rewrite IH].
Qed.



Lemma contains_append_l (s t u : string) : contains t u -> contains (s ++ t) u.
Proof.
  intros (b & a & ->). exists (s ++ b), a. now rewrite !append_assoc.
Qed.





(* ================================================================== *)
(** * The ORDER BY clause of the page statement *)
(* ================================================================== *)

(** Two consecutive lines of a template stand in its text, one after
    the other. *)
Lemma contains_concat_pair (sep x y : string) (pre post : list string) :
  contains (String.concat sep (pre ++ x :: y :: post)) (x ++ sep ++ y).
Proof.
  induction pre as [| p pre IH].
  - change (String.concat sep ([] ++ x :: y :: post))
      with (x ++ sep ++ String.concat sep (y :: post)).
    destruct post as [| z post].
    + exists EmptyString, EmptyString. simpl.
      now rewrite !append_assoc, append_empty_r.
    + change (String.concat sep (y :: z :: post))
        with (y ++ sep ++ String.concat sep (z :: post)).
      exists EmptyString, (sep ++ String.concat sep (z :: post)). simpl.
      now rewrite !append_assoc.
  - destruct (pre ++ x :: y :: post)%list as [| z rest] eqn:Hl.
    + destruct pre; discriminate.
    + change (String.concat sep ((p :: pre) ++ x :: y :: post))
        with (String.concat sep (p :: (pre ++ x :: y :: post))).
      rewrite Hl.
      change (String.concat sep (p :: z :: rest))
        with (p ++ sep ++ String.concat sep (z :: rest)).
      apply contains_append_l, contains_append_l, IH.
Qed.

Lemma contains_template_lines (lines : list string) (n : nat) (x y : string) :
  nth_error lines n = Some x -> nth_error lines (S n) = Some y ->
  contains (template lines) (x ++ nl ++ y).
Proof.
  intros Hx Hy. unfold template.
  destruct (nth_error_split lines n Hx) as (pre & rest & -> & Hn).
  rewrite nth_error_app2 in Hy by lia.
  replace (S n - List.length pre)%nat with 1%nat in Hy by lia.
  destruct rest as [| y' post]; [discriminate |].
  injection Hy as ->.
  apply contains_concat_pair.
Qed.

(** C6.  When the caller's sorts omit [createdAt] (Articles) or
    [articles] (Tags), the [order] getter is [prepareOrder] of the
    caller's keys, then that dimension descending, then the rank key
    when a search is active and nothing otherwise; whenever a search is
    active it is [prepareOrder] of a list whose last entry is the rank
    key, descending, after the caller's keys and the default key.  In
    the page statement that text is the whole ORDER BY line, which the
    OFFSET line follows. *)
Theorem order_ends_with_default_then_rank (I : Imports) :
  (forall r : Articles.Request,
      Articles.s_createdAt (Articles.sorts r) = None ->
      let keys :=
        (article_caller_keys r ++ [mkOrder Articles.cols_createdAt DESC]
         ++ (if truthy (Articles.search r) then [rank_key] else []))%list in
      Articles.orders r = keys
      /\ Articles.order I r = prepareOrder I keys
      /\ contains (Articles.pageTemplate I r)
           (("ORDER BY " ++ prepareOrder I keys)
            ++ nl ++ "OFFSET " ++ string_of_Z (Articles.offset r)))
  /\ (forall r : Tags.Request,
         Tags.s_articles (Tags.sorts r) = None ->
         let keys :=
           (tag_caller_keys r ++ [mkOrder Tags.cols_articles DESC]
            ++ (if truthy (Tags.search r) then [rank_key] else []))%list in
         Tags.orders r = keys
         /\ Tags.order I r = prepareOrder I keys
         /\ contains (Tags.pageTemplate I r)
              (("ORDER BY " ++ prepareOrder I keys)
               ++ nl ++ "OFFSET " ++ string_of_Z (Tags.offset r)))
  /\ (forall r : Articles.Request,
         truthy (Articles.search r) = true ->
         exists keys,
           Articles.orders r = (keys ++ [rank_key])%list
           /\ (article_caller_keys r = keys
               \/ (article_caller_keys r
                   ++ [mkOrder Articles.cols_createdAt DESC])%list = keys)
           /\ Articles.order I r = prepareOrder I (keys ++ [rank_key])
           /\ contains (Articles.pageTemplate I r)
                (("ORDER BY " ++ prepareOrder I (keys ++ [rank_key]))
                 ++ nl ++ "OFFSET " ++ string_of_Z (Articles.offset r)))
  /\ (forall r : Tags.Request,
         truthy (Tags.search r) = true ->
         exists keys,
           Tags.orders r = (keys ++ [rank_key])%list
           /\ (tag_caller_keys r = keys
               \/ (tag_caller_keys r
                   ++ [mkOrder Tags.cols_articles DESC])%list = keys)
           /\ Tags.order I r = prepareOrder I (keys ++ [rank_key])
           /\ contains (Tags.pageTemplate I r)
                (("ORDER BY " ++ prepareOrder I (keys ++ [rank_key]))
                 ++ nl ++ "OFFSET " ++ string_of_Z (Tags.offset r))).
Proof.
  assert (LA : forall r, contains (Articles.pageTemplate I r)
                           (("ORDER BY " ++ Articles.order I r)
                            ++ nl ++ "OFFSET " ++ string_of_Z (Articles.offset r))).
  { intros r. unfold Articles.pageTemplate.
    apply (contains_template_lines _ 35); reflexivity. }
  assert (LT : forall r, contains (Tags.pageTemplate I r)
                           (("ORDER BY " ++ Tags.order I r)
                            ++ nl ++ "OFFSET " ++ string_of_Z (Tags.offset r))).
  { intros r. unfold Tags.pageTemplate.
    apply (contains_template_lines _ 14); reflexivity. }
  assert (EA : forall r, Articles.s_createdAt (Articles.sorts r) = None ->
                         Articles.orders r
                         = (article_caller_keys r ++ [mkOrder Articles.cols_createdAt DESC]
                            ++ (if truthy (Articles.search r) then [rank_key] else []))%list).
  { intros [f [t a n v c] l o s e] H; simpl in H; subst c.
    unfold Articles.orders, article_caller_keys; simpl.
    rewrite !push_if_app; simpl.
    destruct t, a, n, v, (truthy s); reflexivity. }
  assert (ET : forall r, Tags.s_articles (Tags.sorts r) = None ->
                         Tags.orders r
                         = (tag_caller_keys r ++ [mkOrder Tags.cols_articles DESC]
                            ++ (if truthy (Tags.search r) then [rank_key] else []))%list).
  { intros [f [n a] l o s] H; simpl in H; subst a.
    unfold Tags.orders, tag_caller_keys; simpl.
    rewrite !push_if_app; simpl.
    destruct n, (truthy s); reflexivity. }
  split; [| split; [| split]].
  - intros r H. cbv zeta. specialize (LA r). unfold Articles.order in *.
    rewrite (EA r H) in *. auto.
  - intros r H. cbv zeta. specialize (LT r). unfold Tags.order in *.
    rewrite (ET r H) in *. auto.
  - intros r H. specialize (LA r). unfold Articles.order in *.
    assert (K : exists keys,
               Articles.orders r = (keys ++ [rank_key])%list
               /\ (article_caller_keys r = keys
                   \/ (article_caller_keys r
                       ++ [mkOrder Articles.cols_createdAt DESC])%list = keys)).
    { destruct r as [f [t a n v c] l o s e]; simpl in H.
      unfold Articles.orders, article_caller_keys; simpl.
      rewrite !push_if_app, H; simpl.
      eexists; split; [reflexivity |].
      destruct t, a, n, v, c; simpl; auto. }
    destruct K as (keys & Hk & Hc). exists keys. rewrite Hk in *. auto.
  - intros r H. specialize (LT r). unfold Tags.order in *.
    assert (K : exists keys,
               Tags.orders r = (keys ++ [rank_key])%list
               /\ (tag_caller_keys r = keys
                   \/ (tag_caller_keys r
                       ++ [mkOrder Tags.cols_articles DESC])%list = keys)).
    { destruct r as [f [n a] l o s]; simpl in H.
      unfold Tags.orders, tag_caller_keys; simpl.
      rewrite !push_if_app, H; simpl.
      eexists; split; [reflexivity |].
      destruct n, a; simpl; auto. }
    destruct K as (keys & Hk & Hc). exists keys. rewrite Hk in *. auto.
Qed.

Lemma order_ends_with_default_then_rank_witness :
  Articles.order sample_imports
    (Articles.mkRequest
       (Articles.mkFilters None None None None None None None None)
       (Articles.mkSorts (Some ASC) None None None None)
       10 0 (JString "foo") false)
  = prepareOrder sample_imports
      [ mkOrder Articles.cols_title ASC;
        mkOrder Articles.cols_createdAt DESC;
        rank_key ].
Proof.
  destruct (order_ends_with_default_then_rank sample_imports) as [H _].
  apply (H (Articles.mkRequest
              (Articles.mkFilters None None None None None None None None)
              (Articles.mkSorts (Some ASC) None None None None)
              10 0 (JString "foo") false)).
  reflexivity.
Defined.

Example order_clause_of_a_search_sorted_by_title :
  Articles.order sample_imports
    (Articles.mkRequest
       (Articles.mkFilters None None None None None None None None)
       (Articles.mkSorts (Some ASC) None None None None)
       10 0 (JString "foo") false)
  = Articles.cols_title ++ " ASC, " ++ Articles.cols_createdAt ++ " DESC, "
    ++ q "rank" ++ " DESC".
Proof. vm_compute. reflexivity. Qed.

(* ================================================================== *)
(** * The search text in the rank column *)
(* ================================================================== *)



(* ================================================================== *)
(** * setData: errors and repetition *)
(* ================================================================== *)

Section SetDataFacts.

Context {E : Type} (I : Imports) (db : Handle E).


(** [setData] of Articles, statement by statement. *)
Lemma articles_setData_unfold (w : World db ArticlesList.Instance) :
  ArticlesList.setData I db w =
  match query db (store w) (ArticlesList.page_sql I (this w)) with
  | (s1, Rejected e) =>
      (mkWorld (this w) s1 (issued w ++ [ArticlesList.page_sql I (this w)]), Thrown e)
  | (s1, Resolved rows) =>
      let l1 := ArticlesList.mkInstance
                  (ArticlesList.request (this w))
                  (Denormalizer.set_data
                     (Articles.extended (ArticlesList.request (this w))) rows)
                  (ArticlesList.total (this w)) in
      match query db s1 (ArticlesList.total_sql I (this w)) with
      | (s2, Rejected e) =>
          (mkWorld l1 s2 (issued w ++ [ArticlesList.page_sql I (this w); ArticlesList.total_sql I (this w)]), Thrown e)
      | (s2, Resolved rows2) =>
          (mkWorld (ArticlesList.mkInstance (ArticlesList.request (this w))
                      (ArticlesList.dataProxy l1) (total_of rows2))
                   s2 (issued w ++ [ArticlesList.page_sql I (this w); ArticlesList.total_sql I (this w)]),
           Returned true)
      end
  end.
Proof.
  unfold ArticlesList.setData, try_catch, bind, db_query, read_this, write_this,
    ret, throw.
  simpl.
  destruct (query db (store w) _) as [s1 [rows | e]]; simpl; [| reflexivity].
  destruct (query db s1 _) as [s2 [rows2 | e]]; simpl;
    rewrite <- app_assoc; reflexivity.
Qed.

Lemma tags_setData_unfold (w : World db TagsList.Instance) :
  TagsList.setData I db w =
  match query db (store w) (TagsList.page_sql I (this w)) with
  | (s1, Rejected e) =>
      (mkWorld (this w) s1 (issued w ++ [TagsList.page_sql I (this w)]), Thrown e)
  | (s1, Resolved rows) =>
      let l1 := TagsList.mkInstance
                  (TagsList.request (this w))
                  (TagDenormalizer.set_data rows)
                  (TagsList.total (this w)) in
      match query db s1 (TagsList.total_sql I (this w)) with
      | (s2, Rejected e) =>
          (mkWorld l1 s2 (issued w ++ [TagsList.page_sql I (this w); TagsList.total_sql I (this w)]), Thrown e)
      | (s2, Resolved rows2) =>
          (mkWorld (TagsList.mkInstance (TagsList.request (this w))
                      (TagsList.dataProxy l1) (total_of rows2))
                   s2 (issued w ++ [TagsList.page_sql I (this w); TagsList.total_sql I (this w)]),
           Returned tt)
      end
  end.
Proof.
  unfold TagsList.setData, try_catch, bind, db_query, read_this, write_this,
    ret, throw.
  simpl.
  destruct (query db (store w) _) as [s1 [rows | e]]; simpl; [| reflexivity].
  destruct (query db s1 _) as [s2 [rows2 | e]]; simpl;
    rewrite <- app_assoc; reflexivity.
Qed.

(** C8.  When the storage rejects a statement of [setData] with an
    error [e], [setData] ends by throwing that same [e]; the statements
    issued by the call are those up to the rejected one, each once:
    the rejected statement is not issued again and none follows it.
    For Articles and for Tags, at the page statement and at the total
    statement. *)
Theorem setData_rethrows_the_rejection :
  (forall (w : World db ArticlesList.Instance) s e,
      query db (store w) (ArticlesList.page_sql I (this w)) = (s, Rejected e) ->
      ArticlesList.setData I db w
      = (mkWorld (this w) s (issued w ++ [ArticlesList.page_sql I (this w)]), Thrown e))
  /\ (forall (w : World db ArticlesList.Instance) s1 rows s2 e,
         query db (store w) (ArticlesList.page_sql I (this w)) = (s1, Resolved rows) ->
         query db s1 (ArticlesList.total_sql I (this w)) = (s2, Rejected e) ->
         snd (ArticlesList.setData I db w) = Thrown e
         /\ issued (fst (ArticlesList.setData I db w))
            = (issued w ++ [ArticlesList.page_sql I (this w); ArticlesList.total_sql I (this w)])%list)
  /\ (forall (w : World db TagsList.Instance) s e,
         query db (store w) (TagsList.page_sql I (this w)) = (s, Rejected e) ->
         TagsList.setData I db w
         = (mkWorld (this w) s (issued w ++ [TagsList.page_sql I (this w)]), Thrown e))
  /\ (forall (w : World db TagsList.Instance) s1 rows s2 e,
         query db (store w) (TagsList.page_sql I (this w)) = (s1, Resolved rows) ->
         query db s1 (TagsList.total_sql I (this w)) = (s2, Rejected e) ->
         snd (TagsList.setData I db w) = Thrown e
         /\ issued (fst (TagsList.setData I db w))
            = (issued w ++ [TagsList.page_sql I (this w); TagsList.total_sql I (this w)])%list).
Proof.
  split; [| split; [| split]].
  - intros w s e H. rewrite articles_setData_unfold, H. reflexivity.
  - intros w s1 rows s2 e H1 H2.
    rewrite articles_setData_unfold, H1. cbv zeta. rewrite H2.
    split; reflexivity.
  - intros w s e H. rewrite tags_setData_unfold, H. reflexivity.
  - intros w s1 rows s2 e H1 H2.
    rewrite tags_setData_unfold, H1. cbv zeta. rewrite H2.
    split; reflexivity.
Qed.

(** C9.  A second [setData] on the instance the first one left, over a
    storage that is as it was before the first, leaves the same [data]
    and the same [total] as the first did, and ends the same way. *)
Theorem setData_twice_same_data_and_total :
  (forall w : World db ArticlesList.Instance,
      store (fst (ArticlesList.setData I db w)) = store w ->
      ArticlesList.data (this (fst (ArticlesList.setData I db
                                      (fst (ArticlesList.setData I db w)))))
      = ArticlesList.data (this (fst (ArticlesList.setData I db w)))
      /\ ArticlesList.total (this (fst (ArticlesList.setData I db
                                         (fst (ArticlesList.setData I db w)))))
         = ArticlesList.total (this (fst (ArticlesList.setData I db w)))
      /\ snd (ArticlesList.setData I db (fst (ArticlesList.setData I db w)))
         = snd (ArticlesList.setData I db w))
  /\ (forall w : World db TagsList.Instance,
         store (fst (TagsList.setData I db w)) = store w ->
         TagsList.data (this (fst (TagsList.setData I db
                                     (fst (TagsList.setData I db w)))))
         = TagsList.data (this (fst (TagsList.setData I db w)))
         /\ TagsList.total (this (fst (TagsList.setData I db
                                        (fst (TagsList.setData I db w)))))
            = TagsList.total (this (fst (TagsList.setData I db w)))
         /\ snd (TagsList.setData I db (fst (TagsList.setData I db w)))
            = snd (TagsList.setData I db w)).
Proof.
  split.
  - intros w.
    rewrite (articles_setData_unfold w).
    destruct (query db (store w) (ArticlesList.page_sql I (this w))) as [s1 [rows | e]] eqn:Q1.
    + cbv zeta.
      destruct (query db s1 (ArticlesList.total_sql I (this w))) as [s2 [rows2 | e]] eqn:Q2;
        simpl; intros Hs; subst s2;
        rewrite articles_setData_unfold; simpl;
        unfold ArticlesList.page_sql, ArticlesList.total_sql in *; simpl; rewrite Q1; simpl; rewrite Q2;
        simpl; auto.
    + simpl; intros Hs; subst s1.
      rewrite articles_setData_unfold; simpl. rewrite Q1. simpl. auto.
  - intros w.
    rewrite (tags_setData_unfold w).
    destruct (query db (store w) (TagsList.page_sql I (this w))) as [s1 [rows | e]] eqn:Q1.
    + cbv zeta.
      destruct (query db s1 (TagsList.total_sql I (this w))) as [s2 [rows2 | e]] eqn:Q2;
        simpl; intros Hs; subst s2;
        rewrite tags_setData_unfold; simpl;
        unfold TagsList.page_sql, TagsList.total_sql in *; simpl; rewrite Q1; simpl; rewrite Q2;
        simpl; auto.
    + simpl; intros Hs; subst s1.
      rewrite tags_setData_unfold; simpl. rewrite Q1. simpl. auto.
Qed.

End SetDataFacts.

Lemma setData_rethrows_the_rejection_witness :
  ArticlesList.setData sample_imports refusing_handle refused_world
  = (mkWorld (db := refusing_handle) fresh_list tt
       [ArticlesList.page_sql sample_imports fresh_list],
     Thrown "connection refused").
Proof.
  destruct (setData_rethrows_the_rejection sample_imports refusing_handle) as [H _].
  apply (H refused_world tt "connection refused").
  reflexivity.
Defined.

Lemma setData_twice_same_data_and_total_witness :
  ArticlesList.total
    (this (fst (ArticlesList.setData sample_imports constant_handle
                  (fst (ArticlesList.setData sample_imports constant_handle
                          constant_world)))))
  = ArticlesList.total
      (this (fst (ArticlesList.setData sample_imports constant_handle constant_world))).
Proof.
  destruct (setData_twice_same_data_and_total sample_imports constant_handle) as [H _].
  apply (H constant_world).
  reflexivity.
Defined.

(* ================================================================== *)
(** * The [data] setter of Articles *)
(* ================================================================== *)

Import Denormalizer.

Lemma strict_eq_spec (a b : jsval) : reflect (a = b) (strict_eq a b).
Proof.
  destruct a, b; simpl; try (constructor; congruence).
  - destruct (Z.eqb_spec z z0); constructor; congruence.
  - destruct (String.eqb_spec s s0); constructor; congruence.
Qed.

Lemma strict_eq_refl (a : jsval) : strict_eq a a = true.
Proof. destruct (strict_eq_spec a a); congruence. Qed.

Lemma strict_eq_sym (a b : jsval) : strict_eq a b = strict_eq b a.
Proof.
  destruct (strict_eq_spec a b), (strict_eq_spec b a); congruence.
Qed.

Lemma existsb_filter_implied {A : Type} (p k : A -> bool) (xs : list A) :
  (forall x, p x = true -> k x = true) ->
  existsb p (filter k xs) = existsb p xs.
Proof.
  intros H. induction xs as [| x xs IH]; simpl; [reflexivity |].
  destruct (k x) eqn:Kx; simpl.
  - now rewrite IH.
  - destruct (p x) eqn:Px; [apply H in Px; congruence | exact IH].
Qed.

Section DistinctOn.

Context {A : Type} (key : A -> jsval).

Lemma existsb_distinct_on (v : jsval) (xs : list A) :
  existsb (fun x => strict_eq (key x) v) (distinct_on key xs)
  = existsb (fun x => strict_eq (key x) v) xs.
Proof.
  induction xs as [| x xs IH]; simpl; [reflexivity |].
  destruct (strict_eq_spec (key x) v) as [Hx | Hx]; simpl; [reflexivity |].
  rewrite existsb_filter_implied; [exact IH |].
  intros y Hy. destruct (strict_eq_spec (key y) v) as [Hv |]; [| discriminate].
  destruct (strict_eq_spec (key y) (key x)); [congruence | reflexivity].
Qed.

Lemma distinct_on_snoc (xs : list A) (y : A) :
  distinct_on key (xs ++ [y])
  = if existsb (fun x => strict_eq (key x) (key y)) xs
    then distinct_on key xs
    else (distinct_on key xs ++ [y])%list.
Proof.
  induction xs as [| x xs IH]; simpl; [reflexivity |].
  rewrite IH.
  destruct (existsb (fun x0 => strict_eq (key x0) (key y)) xs) eqn:Ex.
  - now rewrite orb_true_r.
  - rewrite orb_false_r, filter_app. simpl.
    rewrite (strict_eq_sym (key y) (key x)).
    destruct (strict_eq (key x) (key y)); simpl;
      [now rewrite app_nil_r | reflexivity].
Qed.

Lemma In_distinct_on (x : A) (xs : list A) :
  In x (distinct_on key xs) -> In x xs.
Proof.
  induction xs as [| y xs IH]; simpl; [tauto |].
  intros [-> | H]; [now left |].
  right. apply IH. now apply filter_In in H.
Qed.

Lemma map_distinct_on (xs : list A) :
  map key (distinct_on key xs) = distinct (map key xs).
Proof.
  unfold distinct.
  induction xs as [| x xs IH]; simpl; [reflexivity |].
  f_equal. rewrite <- IH. clear IH.
  induction (distinct_on key xs) as [| y ys IHy]; simpl; [reflexivity |].
  destruct (strict_eq (key y) (key x)); simpl; [exact IHy | now rewrite IHy].
Qed.

Lemma NoDup_map_distinct_on (xs : list A) : NoDup (map key (distinct_on key xs)).
Proof.
  induction xs as [| x xs IH]; simpl; constructor.
  - intros Hin. apply in_map_iff in Hin as (y & Hk & Hy).
    apply filter_In in Hy as [_ Hy].
    rewrite Hk, strict_eq_refl in Hy. discriminate.
  - clear -IH. induction (distinct_on key xs) as [| y ys IHy]; simpl; [constructor |].
    inversion IH as [| ? ? Hn Hd]; subst.
    destruct (strict_eq (key y) (key x)); simpl; [now apply IHy |].
    constructor; [| now apply IHy].
    intros Hin. apply Hn.
    apply in_map_iff in Hin as (z & Hz & Hin).
    apply in_map_iff. exists z. split; [exact Hz |].
    now apply filter_In in Hin.
Qed.

Lemma In_map_distinct_on (v : jsval) (xs : list A) :
  In v (map key (distinct_on key xs)) <-> In v (map key xs).
Proof.
  split.
  - intros H. apply in_map_iff in H as (x & <- & Hx).
    apply in_map, In_distinct_on, Hx.
  - intros H.
    assert (Ex : existsb (fun x => strict_eq (key x) v) (distinct_on key xs) = true).
    { rewrite existsb_distinct_on. apply existsb_exists.
      apply in_map_iff in H as (x & <- & Hx).
      exists x. split; [exact Hx | apply strict_eq_refl]. }
    apply existsb_exists in Ex as (x & Hx & Hk).
    destruct (strict_eq_spec (key x) v); [| discriminate].
    subst v. now apply in_map.
Qed.

End DistinctOn.

Lemma NoDup_distinct (xs : list jsval) : NoDup (distinct xs).
Proof.
  pose proof (NoDup_map_distinct_on (fun x => x) xs) as H.
  now rewrite map_id in H.
Qed.

Lemma In_distinct (v : jsval) (xs : list jsval) : In v (distinct xs) <-> In v xs.
Proof.
  pose proof (In_map_distinct_on (fun x => x) v xs) as H.
  now rewrite !map_id in H.
Qed.

Lemma distinct_snoc (xs : list jsval) (y : jsval) :
  distinct (xs ++ [y])
  = if existsb (fun x => strict_eq x y) xs then distinct xs
    else (distinct xs ++ [y])%list.
Proof. apply (distinct_on_snoc (fun x => x)). Qed.

Lemma rows_of_snoc (i : jsval) (rows : list Row) (r : Row) :
  rows_of i (rows ++ [r])
  = (rows_of i rows ++ if strict_eq (root_id r) i then [r] else [])%list.
Proof.
  unfold rows_of. rewrite filter_app. simpl.
  destruct (strict_eq (root_id r) i); reflexivity.
Qed.

Lemma rows_of_root (i : jsval) (rows : list Row) (r : Row) :
  In r (rows_of i rows) -> root_id r = i.
Proof.
  intros H. apply filter_In in H as [_ H].
  now destruct (strict_eq_spec (root_id r) i).
Qed.

Lemma rows_of_nil (i : jsval) (rows : list Row) :
  existsb (fun x => strict_eq x i) (map root_id rows) = false ->
  rows_of i rows = [].
Proof.
  induction rows as [| r rows IH]; simpl; [reflexivity |].
  intros H. apply orb_false_iff in H as [H1 H2].
  rewrite H1. now apply IH.
Qed.

Lemma entity_of_id (extended : bool) (rows : list Row) (i : jsval) (o : ArticleObject) :
  entity_of extended rows i = Some o -> id o = i.
Proof.
  unfold entity_of.
  destruct (rows_of i rows) as [| first later] eqn:R; [discriminate |].
  intros [= <-]. unfold entity_from, id.
  apply (rows_of_root i rows). rewrite R. now left.
Qed.

(** The entity of the rows [rs] and of one more row. *)
Lemma entity_from_snoc (extended : bool) (first r : Row) (rs : list Row) :
  entity_from extended first (rs ++ [r])
  = absorb (hub_of r) (tag_of r) (entity_from extended first rs).
Proof.
  unfold entity_from, absorb, id, title, abstract, createdAt, author, hubs, tags,
    answers, votes.
  rewrite !map_app.
  change (map hub_of [r]) with [hub_of r].
  change (map tag_of [r]) with [tag_of r].
  rewrite !distinct_on_snoc, !existsb_distinct_on.
  reflexivity.
Qed.

(** The entity of the id of a new row, given the entity before it. *)
Lemma entity_of_absorb (extended : bool) (rows : list Row) (r : Row) (o : ArticleObject) :
  entity_of extended rows (root_id r) = Some o ->
  entity_of extended (rows ++ [r]) (root_id r)
  = Some (absorb (hub_of r) (tag_of r) o).
Proof.
  unfold entity_of. rewrite rows_of_snoc, strict_eq_refl.
  destruct (rows_of (root_id r) rows) as [| first later]; [discriminate |].
  intros [= <-].
  change ((first :: later) ++ [r])%list with (first :: (later ++ [r]))%list.
  cbv iota beta.
  change (first :: (later ++ [r]))%list with ((first :: later) ++ [r])%list.
  now rewrite entity_from_snoc.
Qed.

Lemma entity_of_other (extended : bool) (rows : list Row) (r : Row) (i : jsval) :
  i <> root_id r ->
  entity_of extended (rows ++ [r]) i = entity_of extended rows i.
Proof.
  intros H. unfold entity_of. rewrite rows_of_snoc.
  destruct (strict_eq_spec (root_id r) i); [congruence |].
  now rewrite app_nil_r.
Qed.

Lemma entity_of_new (extended : bool) (rows : list Row) (r : Row) :
  existsb (fun x => strict_eq x (root_id r)) (map root_id rows) = false ->
  entity_of extended (rows ++ [r]) (root_id r) = Some (newArticleObject extended r).
Proof.
  intros H. unfold entity_of.
  rewrite rows_of_snoc, strict_eq_refl, (rows_of_nil _ _ H).
  reflexivity.
Qed.


Lemma find_none_existsb {A : Type} (p : A -> bool) (xs : list A) :
  find p xs = None <-> existsb p xs = false.
Proof.
  induction xs as [| x xs IH]; simpl; [tauto |].
  destruct (p x); simpl; [split; discriminate | exact IH].
Qed.

(** [mutate_found] against a pointwise description of the entities. *)
Lemma mutate_found_pointwise (F G : jsval -> option ArticleObject)
    (rid : jsval) (f : ArticleObject -> ArticleObject) :
  (forall i o, F i = Some o -> id o = i) ->
  (forall i, i <> rid -> G i = F i) ->
  (forall o, F rid = Some o -> G rid = Some (f o)) ->
  forall (ids : list jsval) (out : list ArticleObject),
    NoDup ids ->
    map Some out = map F ids ->
    map Some (mutate_found rid f out) = map G ids.
Proof.
  intros HF Hother Hrid ids.
  induction ids as [| i ids IH]; intros [| o out] Hnd Heq; try discriminate.
  - reflexivity.
  - simpl in Heq. injection Heq as Ho Hrest.
    symmetry in Ho. pose proof (HF _ _ Ho) as Hid.
    inversion Hnd as [| ? ? Hni Hnd']; subst.
    simpl. destruct (strict_eq_spec (id o) rid) as [Hr | Hr].
    + simpl. rewrite Hr in *. rewrite (Hrid _ Ho). f_equal.
      rewrite Hrest. apply map_ext_in.
      intros j Hj. symmetry. apply Hother. intros ->. contradiction.
    + simpl. rewrite (Hother _ Hr), Ho. f_equal. now apply IH.
Qed.

(** The setter computes, for each distinct root id in order of first
    appearance, the entity of that id. *)
Lemma set_data_entities (extended : bool) (rows : list Row) :
  map Some (set_data extended rows)
  = map (entity_of extended rows) (distinct (map root_id rows)).
Proof.
  unfold set_data.
  induction rows as [| r rows IH] using rev_ind; [reflexivity |].
  rewrite fold_left_app. simpl.
  set (out := fold_left (step extended) rows []) in *.
  assert (Hids : map id out = distinct (map root_id rows)).
  { clear -IH. revert IH. generalize (distinct (map root_id rows)) as ids.
    induction out as [| o out IHo]; intros [| i ids] H; try discriminate;
      [reflexivity |].
    simpl in H. injection H as Ho Hrest. simpl. f_equal.
    - symmetry in Ho. eapply entity_of_id, Ho.
    - now apply IHo. }
  rewrite map_app. simpl. rewrite distinct_snoc.
  unfold step. fold (root_id r).
  destruct (find (fun a => strict_eq (id a) (root_id r)) out) as [o |] eqn:Hfind.
  - assert (Ex : existsb (fun x => strict_eq x (root_id r)) (map root_id rows) = true).
    { rewrite <- (existsb_distinct_on (fun x => x)). fold (distinct (map root_id rows)).
      rewrite <- Hids. apply existsb_exists.
      apply find_some in Hfind as [Hin Hp].
      exists (id o). split; [now apply in_map | exact Hp]. }
    rewrite Ex.
    apply (mutate_found_pointwise (entity_of extended rows)).
    + apply entity_of_id.
    + intros i Hi. now apply entity_of_other.
    + apply entity_of_absorb.
    + apply NoDup_distinct.
    + exact IH.
  - assert (Ex : existsb (fun x => strict_eq x (root_id r)) (map root_id rows) = false).
    { rewrite <- (existsb_distinct_on (fun x => x)). fold (distinct (map root_id rows)).
      rewrite <- Hids.
      apply find_none_existsb in Hfind.
      clear -Hfind. induction out as [| o out IHo]; simpl in *; [reflexivity |].
      apply orb_false_iff in Hfind as [H1 H2]. now rewrite H1, IHo. }
    rewrite Ex, !map_app. simpl.
    rewrite (entity_of_new _ _ _ Ex). f_equal.
    rewrite IH. apply map_ext_in.
    intros i Hi. symmetry. apply entity_of_other.
    intros ->. apply (proj1 (In_distinct _ _)) in Hi.
    assert (T : existsb (fun x => strict_eq x (root_id r)) (map root_id rows) = true).
    { apply existsb_exists. exists (root_id r). split; [exact Hi | apply strict_eq_refl]. }
    congruence.
Qed.

Lemma set_data_ids (extended : bool) (rows : list Row) :
  map id (set_data extended rows) = distinct (map root_id rows).
Proof.
  pose proof (set_data_entities extended rows) as H. revert H.
  generalize (distinct (map root_id rows)) as ids.
  induction (set_data extended rows) as [| o out IHo]; intros [| i ids] H;
    try discriminate; [reflexivity |].
  simpl in H. injection H as Ho Hrest. simpl. f_equal.
  - symmetry in Ho. eapply entity_of_id, Ho.
  - now apply IHo.
Qed.

Lemma set_data_entity (extended : bool) (rows : list Row) (o : ArticleObject) :
  In o (set_data extended rows) ->
  entity_of extended rows (id o) = Some o.
Proof.
  intros Hin.
  assert (H : In (Some o) (map (entity_of extended rows) (distinct (map root_id rows)))).
  { rewrite <- set_data_entities. now apply in_map. }
  apply in_map_iff in H as (i & Hi & _).
  now rewrite (entity_of_id _ _ _ _ Hi).
Qed.

Lemma set_data_entity_rows (extended : bool) (rows : list Row) (o : ArticleObject) :
  In o (set_data extended rows) ->
  exists first later,
    rows_of (id o) rows = first :: later
    /\ o = entity_from extended first (first :: later).
Proof.
  intros Hin. apply set_data_entity in Hin.
  unfold entity_of in Hin.
  destruct (rows_of (id o) rows) as [| first later]; [discriminate |].
  injection Hin as <-.
  exists first, later. split; reflexivity.
Qed.

(** C3.  The setter yields one entity per distinct root id of the rows,
    in the order in which the ids first appear.  Each entity takes its
    author, [answers] and [votes] from the first row of its id; its
    [hubs] and [tags] hold one element per distinct hub id and tag id
    among the rows of its id, so their sizes are the numbers of distinct
    ids, whatever the number of rows. *)
Theorem set_data_one_entity_per_root_id (extended : bool) (rows : list Row) :
  map id (set_data extended rows) = distinct (map root_id rows)
  /\ List.length (set_data extended rows)
     = List.length (distinct (map root_id rows))
  /\ forall o, In o (set_data extended rows) ->
       exists first later,
         rows_of (id o) rows = first :: later
         /\ author o = author_of first
         /\ answers o = parseInt (ToString (get first "answers"))
         /\ votes o = parseInt (ToString (get first "votes"))
         /\ hubs o = distinct_on hub_id (map hub_of (first :: later))
         /\ tags o = distinct_on tag_id (map tag_of (first :: later))
         /\ NoDup (map hub_id (hubs o))
         /\ NoDup (map tag_id (tags o))
         /\ List.length (hubs o)
            = List.length (distinct (map (fun r => get r "Hub.id") (first :: later)))
         /\ List.length (tags o)
            = List.length (distinct (map (fun r => get r "Tag.id") (first :: later))).
Proof.
  split; [apply set_data_ids |].
  split; [rewrite <- (set_data_ids extended rows); now rewrite length_map |].
  intros o Hin.
  destruct (set_data_entity_rows extended rows o Hin) as (first & later & Hrows & Ho).
  exists first, later.
  split; [exact Hrows |].
  rewrite Ho. unfold entity_from, author, answers, votes, hubs, tags.
  repeat split.
  - apply NoDup_map_distinct_on.
  - apply NoDup_map_distinct_on.
  - rewrite <- (length_map hub_id), map_distinct_on, map_map. reflexivity.
  - rewrite <- (length_map tag_id), map_distinct_on, map_map. reflexivity.
Qed.

(** Four rows of one article: two hubs times two tags. *)
Example set_data_folds_a_fanout :
  map (fun o => (id o, map hub_id (hubs o), map tag_id (tags o), answers o, votes o))
    (set_data false
       [ [("id", JNumber 1); ("Hub.id", JNumber 3); ("Tag.id", JNumber 8);
          ("answers", JString "2"); ("votes", JString "5")];
         [("id", JNumber 1); ("Hub.id", JNumber 3); ("Tag.id", JNumber 9);
          ("answers", JString "2"); ("votes", JString "5")];
         [("id", JNumber 1); ("Hub.id", JNumber 5); ("Tag.id", JNumber 8);
          ("answers", JString "2"); ("votes", JString "5")];
         [("id", JNumber 1); ("Hub.id", JNumber 5); ("Tag.id", JNumber 9);
          ("answers", JString "2"); ("votes", JString "5")] ])
  = [ (JNumber 1, [JNumber 3; JNumber 5], [JNumber 8; JNumber 9], JInt 2, JInt 5) ].
Proof. reflexivity. Qed.

(** Rows of two articles, interleaved. *)
Example set_data_keeps_first_appearance_order :
  map (fun o => (id o, map hub_id (hubs o), votes o))
    (set_data false
       [ [("id", JNumber 2); ("Hub.id", JNumber 3); ("votes", JString "4")];
         [("id", JNumber 1); ("Hub.id", JNumber 3); ("votes", JString "0")];
         [("id", JNumber 2); ("Hub.id", JNumber 5); ("votes", JString "4")] ])
  = [ (JNumber 2, [JNumber 3; JNumber 5], JInt 4);
      (JNumber 1, [JNumber 3], JInt 0) ].
Proof. reflexivity. Qed.

(** C5, as the claim states it, fails: a row whose hub columns are null
    leaves an element with a null id in [hubs]. *)
Lemma set_data_keeps_a_null_hub :
  map (fun o => (id o, hubs o))
    (set_data false
       [ [("id", JNumber 1); ("Hub.id", JNull); ("Hub.name", JNull);
          ("Tag.id", JNumber 8); ("Tag.name", JString "t")] ])
  = [ (JNumber 1, [mkHub JNull JNull]) ].
Proof. reflexivity. Qed.

Lemma NoDup_map_inj_on {A B : Type} (f : A -> B) (xs : list A) (x y : A) :
  NoDup (map f xs) -> In x xs -> In y xs -> f x = f y -> x = y.
Proof.
  induction xs as [| z xs IH]; simpl; [tauto |].
  intros Hnd Hx Hy Hf. inversion Hnd as [| ? ? Hn Hd]; subst.
  destruct Hx as [-> | Hx], Hy as [-> | Hy].
  - reflexivity.
  - exfalso. apply Hn. rewrite Hf. now apply in_map.
  - exfalso. apply Hn. rewrite <- Hf. now apply in_map.
  - now apply IH.
Qed.

(** C5, amended.  The root id of every row has exactly one entity in
    the output, and that entity's [hubs] and [tags] hold the row's hub
    id and tag id, whatever they are, null included, each id once. *)
Theorem set_data_keeps_every_association_id
    (extended : bool) (rows : list Row) (r : Row) :
  In r rows ->
  exists o,
    In o (set_data extended rows)
    /\ id o = root_id r
    /\ (forall o', In o' (set_data extended rows) -> id o' = root_id r -> o' = o)
    /\ In (get r "Hub.id") (map hub_id (hubs o))
    /\ In (get r "Tag.id") (map tag_id (tags o))
    /\ NoDup (map hub_id (hubs o))
    /\ NoDup (map tag_id (tags o)).
Proof.
  intros Hr.
  assert (Hid : In (root_id r) (map id (set_data extended rows))).
  { rewrite set_data_ids. apply In_distinct. now apply in_map. }
  apply in_map_iff in Hid as (o & Hoid & Ho).
  exists o. split; [exact Ho |]. split; [exact Hoid |].
  split.
  { intros o' Ho' Hid'.
    apply (NoDup_map_inj_on id (set_data extended rows)); try assumption.
    - rewrite set_data_ids. apply NoDup_distinct.
    - congruence. }
  pose proof (set_data_entity _ _ _ Ho) as He.
  unfold entity_of in He.
  assert (Hrows : In r (rows_of (id o) rows)).
  { apply filter_In. split; [exact Hr |]. rewrite Hoid. apply strict_eq_refl. }
  destruct (rows_of (id o) rows) as [| first later]; [discriminate |].
  injection He as He. rewrite <- He.
  unfold entity_from, hubs, tags.
  repeat split.
  - apply In_map_distinct_on. rewrite map_map.
    apply (in_map (fun x => hub_id (hub_of x))) in Hrows. exact Hrows.
  - apply In_map_distinct_on. rewrite map_map.
    apply (in_map (fun x => tag_id (tag_of x))) in Hrows. exact Hrows.
  - apply NoDup_map_distinct_on.
  - apply NoDup_map_distinct_on.
Qed.

Lemma set_data_keeps_every_association_id_witness :
  exists o,
    In o (set_data false [ [("id", JNumber 1); ("Hub.id", JNull); ("Tag.id", JNumber 8)] ])
    /\ In JNull (map hub_id (hubs o)).
Proof.
  destruct (set_data_keeps_every_association_id false
              [ [("id", JNumber 1); ("Hub.id", JNull); ("Tag.id", JNumber 8)] ]
              [("id", JNumber 1); ("Hub.id", JNull); ("Tag.id", JNumber 8)])
    as (o & Ho & _ & _ & Hh & _).
  - left. reflexivity.
  - exists o. split; [exact Ho | exact Hh].
Defined.

(* ================================================================== *)
(** * Decimal strings: [parseInt] reads what ToString prints *)
(* ================================================================== *)

Lemma digit_cases (d : Z) :
  0 <= d < 10 ->
  d = 0 \/ d = 1 \/ d = 2 \/ d = 3 \/ d = 4 \/ d = 5 \/ d = 6 \/ d = 7 \/ d = 8 \/ d = 9.
Proof. lia. Qed.

Lemma digit_in_digit_char (d : Z) :
  0 <= d < 10 -> digit_in 10 (digit_char d) = Some d.
Proof.
  intros H. apply digit_cases in H.
  repeat (destruct H as [-> | H]; [reflexivity |]). subst d. reflexivity.
Qed.

Lemma digits_of_S (fuel : nat) (n : Z) (acc : string) :
  digits_of (S fuel) n acc
  = if n / 10 =? 0 then String (digit_char (n mod 10)) acc
    else digits_of fuel (n / 10) (String (digit_char (n mod 10)) acc).
Proof. reflexivity. Qed.

Lemma read_digits_of (fuel : nat) :
  forall (n : Z) (rest : string),
    0 <= n < 2 ^ Z.of_nat (S fuel) ->
    read_digits 10 (digits_of (S fuel) n rest) None = read_digits 10 rest (Some n).
Proof.
  induction fuel as [| fuel IH]; intros n rest Hn;
    rewrite (digits_of_S _ n rest);
    assert (Hd : 0 <= n mod 10 < 10) by (apply Z.mod_pos_bound; lia);
    pose proof (Z.div_mod n 10 ltac:(lia)) as Hdm;
    destruct (Z.eqb_spec (n / 10) 0) as [Hq | Hq].
  - cbn [read_digits]. rewrite (digit_in_digit_char _ Hd).
    f_equal. f_equal. lia.
  - exfalso. apply Hq. apply Z.div_small. simpl in Hn. lia.
  - cbn [read_digits]. rewrite (digit_in_digit_char _ Hd).
    f_equal. f_equal. lia.
  - rewrite IH.
    + cbn [read_digits]. rewrite (digit_in_digit_char _ Hd).
      f_equal. f_equal. lia.
    + rewrite Nat2Z.inj_succ, Z.pow_succ_r in Hn by lia.
      split; [apply Z.div_pos; lia |].
      apply Z.div_lt_upper_bound; lia.
Qed.

(** The first character printed for [n]: a non-zero digit, or the whole
    text is ["0"]. *)
Lemma digits_of_head (fuel : nat) :
  forall (n : Z) (rest : string),
    0 <= n < 2 ^ Z.of_nat (S fuel) ->
    (n = 0 /\ digits_of (S fuel) n rest = String "0" rest)
    \/ (exists d tail, 1 <= d < 10 /\ digits_of (S fuel) n rest = String (digit_char d) tail).
Proof.
  induction fuel as [| fuel IH]; intros n rest Hn;
    rewrite (digits_of_S _ n rest);
    assert (Hd : 0 <= n mod 10 < 10) by (apply Z.mod_pos_bound; lia);
    pose proof (Z.div_mod n 10 ltac:(lia)) as Hdm;
    destruct (Z.eqb_spec (n / 10) 0) as [Hq | Hq].
  - destruct (Z.eq_dec n 0) as [-> | Hz]; [left; split; reflexivity |].
    right. exists (n mod 10), rest. split; [lia | reflexivity].
  - exfalso. apply Hq. apply Z.div_small. simpl in Hn. lia.
  - destruct (Z.eq_dec n 0) as [-> | Hz]; [left; split; reflexivity |].
    right. exists (n mod 10), rest. split; [lia | reflexivity].
  - right.
    destruct (IH (n / 10) (String (digit_char (n mod 10)) rest)) as [[Hz _] | (d & tail & Hd' & Heq)].
    + rewrite Nat2Z.inj_succ, Z.pow_succ_r in Hn by lia.
      split; [apply Z.div_pos; lia |].
      apply Z.div_lt_upper_bound; lia.
    + contradiction.
    + exists d, tail. split; [exact Hd' | exact Heq].
Qed.

Lemma log2_fuel (n : Z) : 0 <= n -> n < 2 ^ Z.of_nat (S (Z.to_nat (Z.log2 n))).
Proof.
  intros Hn.
  rewrite Nat2Z.inj_succ, Z2Nat.id by apply Z.log2_nonneg.
  destruct (Z.eq_dec n 0) as [-> | Hz]; [reflexivity |].
  apply Z.log2_spec. lia.
Qed.

Lemma parseInt_digits (d : Z) (tail : string) :
  1 <= d < 10 ->
  parseInt (String (digit_char d) tail)
  = match read_digits 10 (String (digit_char d) tail) None with
    | Some m => JInt m
    | None => JNaN
    end.
Proof.
  intros H.
  assert (C : d = 1 \/ d = 2 \/ d = 3 \/ d = 4 \/ d = 5 \/ d = 6 \/ d = 7 \/ d = 8 \/ d = 9)
    by lia.
  assert (G : forall c : ascii,
             is_space c = false ->
             strip_sign (String c tail) = (1, String c tail) ->
             strip_hex_prefix (String c tail) = (10, String c tail) ->
             parseInt (String c tail)
             = match read_digits 10 (String c tail) None with
               | Some m => JInt m
               | None => JNaN
               end).
  { intros c Hs Hsign Hhex. unfold parseInt. cbn [trim_start].
    rewrite Hs, Hsign, Hhex.
    destruct (read_digits 10 (String c tail) None) as [m |]; [| reflexivity].
    now rewrite Z.mul_1_l. }
  destruct C as [-> | [-> | [-> | [-> | [-> | [-> | [-> | [-> | ->]]]]]]]];
    apply G; reflexivity.
Qed.

(** [parseInt] of the decimal text of a non-negative integer. *)
Lemma parseInt_string_of_nonneg (n : Z) :
  0 <= n -> parseInt (string_of_Z n) = JInt n.
Proof.
  intros Hn. unfold string_of_Z.
  destruct (Z.ltb_spec n 0) as [Hneg | _]; [lia |].
  rewrite Z.abs_eq by exact Hn.
  pose proof (log2_fuel n Hn) as Hf.
  pose proof (read_digits_of (Z.to_nat (Z.log2 n)) n EmptyString (conj Hn Hf)) as Hr.
  destruct (digits_of_head (Z.to_nat (Z.log2 n)) n EmptyString (conj Hn Hf))
    as [[-> Heq] | (d & tail & Hd & Heq)].
  - reflexivity.
  - rewrite Heq in *. rewrite (parseInt_digits d tail Hd), Hr. reflexivity.
Qed.

(* ================================================================== *)
(** * Lists: distinct elements, groups *)
(* ================================================================== *)

Import Storage.

Lemma In_distinct_by {A : Type} (eqb : A -> A -> bool) (x : A) (xs : list A) :
  In x (distinct_by eqb xs) -> In x xs.
Proof.
  induction xs as [| y xs IH]; simpl; [tauto |].
  intros [-> | H]; [now left |].
  right. apply IH. now apply filter_In in H.
Qed.

Lemma NoDup_distinct_by_Z (xs : list Z) : NoDup (distinct_by Z.eqb xs).
Proof.
  induction xs as [| x xs IH]; simpl; constructor.
  - intros H. apply filter_In in H as [_ H].
    rewrite Z.eqb_refl in H. discriminate.
  - now apply NoDup_filter.
Qed.

Lemma In_distinct_by_Z (x : Z) (xs : list Z) :
  In x (distinct_by Z.eqb xs) <-> In x xs.
Proof.
  split; [apply In_distinct_by |].
  induction xs as [| y xs IH]; simpl; [tauto |].
  intros [-> | H]; [now left |].
  destruct (Z.eq_dec y x) as [-> | Hne]; [now left |].
  right. apply filter_In. split; [now apply IH |].
  apply negb_true_iff, Z.eqb_neq, Hne.
Qed.

Lemma distinct_by_Z_NoDup (xs : list Z) : NoDup xs -> distinct_by Z.eqb xs = xs.
Proof.
  induction 1 as [| x xs Hn Hd IH]; simpl; [reflexivity |].
  rewrite IH. f_equal.
  apply forallb_filter_id. apply forallb_forall.
  intros y Hy. apply negb_true_iff, Z.eqb_neq. intros ->. contradiction.
Qed.

Lemma same_elements_same_length {A : Type} (xs ys : list A) :
  NoDup xs -> NoDup ys -> (forall x, In x xs <-> In x ys) ->
  List.length xs = List.length ys.
Proof.
  intros Hx Hy H. apply Permutation_length, NoDup_Permutation; assumption.
Qed.

Lemma left_outer_not_nil {A : Type} (xs : list A) : left_outer xs <> [].
Proof. destruct xs; discriminate. Qed.

Section Groups.

Context {A B : Type} (key : A -> Z) (f : A -> list B).

(** The rows of one key among the rows [x] paired with [f x], when the
    keys of the [x]s are pairwise different. *)
Lemma rows_of_key (xs : list A) (x0 : A) :
  NoDup (map key xs) -> In x0 xs ->
  map snd (filter (fun j => key (fst j) =? key x0)
             (flat_map (fun x => map (pair x) (f x)) xs))
  = f x0.
Proof.
  induction xs as [| x xs IH]; simpl; [tauto |].
  intros Hnd Hin. inversion Hnd as [| ? ? Hn Hd]; subst.
  rewrite filter_app, map_app.
  assert (Hsame : forall y, key y = key x0 ->
            map snd (filter (fun j => key (fst j) =? key x0) (map (pair y) (f y))) = f y).
  { intros y Hy. induction (f y) as [| b bs IHb]; simpl; [reflexivity |].
    rewrite Hy, Z.eqb_refl. simpl. now rewrite IHb. }
  assert (Hdiff : forall y, key y <> key x0 ->
            filter (fun j => key (fst j) =? key x0) (map (pair y) (f y)) = []).
  { intros y Hy. induction (f y) as [| b bs IHb]; simpl; [reflexivity |].
    destruct (Z.eqb_spec (key y) (key x0)); [contradiction | exact IHb]. }
  assert (Hnone : forall ys, ~ In (key x0) (map key ys) ->
            filter (fun j => key (fst j) =? key x0)
              (flat_map (fun x => map (pair x) (f x)) ys) = []).
  { intros ys Hys. induction ys as [| y ys IHys]; simpl; [reflexivity |].
    rewrite filter_app, Hdiff, IHys; [reflexivity | |].
    - intros H. apply Hys. now right.
    - intros H. apply Hys. left. exact H. }
  destruct Hin as [-> | Hin].
  - rewrite (Hsame x0 eq_refl), (Hnone xs Hn). simpl. now rewrite app_nil_r.
  - rewrite Hdiff, IH by (try assumption; intros H; apply Hn; rewrite H; now apply in_map).
    reflexivity.
Qed.

Lemma In_flat_map_pair (xs : list A) (x : A) (b : B) :
  In (x, b) (flat_map (fun x => map (pair x) (f x)) xs) <-> In x xs /\ In b (f x).
Proof.
  rewrite in_flat_map. split.
  - intros (y & Hy & H). apply in_map_iff in H as (b' & [= <- <-] & Hb). auto.
  - intros [Hx Hb]. exists x. split; [exact Hx | now apply in_map].
Qed.

End Groups.

Lemma filter_flat_map_pair {A B : Type} (p : A -> bool) (f : A -> list B) (xs : list A) :
  filter (fun j => p (fst j)) (flat_map (fun x => map (pair x) (f x)) xs)
  = flat_map (fun x => map (pair x) (if p x then f x else [])) xs.
Proof.
  induction xs as [| x xs IH]; simpl; [reflexivity |].
  rewrite filter_app, IH. f_equal.
  destruct (p x) eqn:Px.
  - induction (f x) as [| b bs IHb]; simpl; [reflexivity |]. now rewrite Px, IHb.
  - induction (f x) as [| b bs IHb]; simpl; [reflexivity |]. now rewrite Px, IHb.
Qed.

Lemma distinct_by_key_rep {A : Type} (key : A -> Z) (x : A) (xs : list A) :
  In x xs ->
  exists y, In y (distinct_by (fun a b => key a =? key b) xs) /\ key y = key x.
Proof.
  induction xs as [| z xs IH]; simpl; [tauto |].
  intros [-> | H]; [exists x; auto |].
  destruct (IH H) as (y & Hy & Hk).
  destruct (Z.eq_dec (key z) (key x)) as [Hz | Hz]; [exists z; auto |].
  exists y. split; [| exact Hk].
  right. apply filter_In. split; [exact Hy |].
  apply negb_true_iff, Z.eqb_neq. congruence.
Qed.

(* ================================================================== *)
(** * The total statement of Tags *)
(* ================================================================== *)

Section TagsTotal.

Variable eng : Engine.
Variable r : Tags.Request.
Variable db : Database.

Lemma tags_where_on_tag (t : TagT) (rest : Row) :
  holds eng (Tags.wheres r) (TagsSql.tag_tuple t ++ rest)%list = tag_where eng r t.
Proof.
  unfold tag_where, Tags.wheres.
  destruct (Tags.f_id (Tags.filters r)), (Tags.f_name (Tags.filters r)),
    (Tags.f_hub (Tags.filters r)), (truthy (Tags.search r)); reflexivity.
Qed.

Lemma tags_having_on_agg (v : jsval) (rest : Row) :
  holds eng (Tags.havings r) ((Tags.cols_articles, v) :: rest)
  = holds eng (Tags.havings r) [(Tags.cols_articles, v)].
Proof.
  unfold Tags.havings.
  destruct (Tags.f_articles (Tags.filters r)); reflexivity.
Qed.

Lemma tags_from_where :
  TagsSql.from_where eng r db
  = flat_map (fun t => map (pair t) (kept_rows eng r db t)) (Tags db).
Proof.
  unfold TagsSql.from_where, kept_rows.
  rewrite <- (filter_flat_map_pair (tag_where eng r)).
  apply filter_ext. intros [t la]. apply tags_where_on_tag.
Qed.

Lemma tags_in_from_where (t : TagT) :
  In t (map fst (TagsSql.from_where eng r db))
  <-> In t (Tags db) /\ tag_where eng r t = true.
Proof.
  rewrite tags_from_where, in_map_iff. split.
  - intros ([t' la] & <- & H).
    apply In_flat_map_pair in H as [Ht Hla]. split; [exact Ht |].
    unfold kept_rows in Hla. simpl. destruct (tag_where eng r t'); [reflexivity | destruct Hla].
  - intros [Ht Hw].
    destruct (TagsSql.articles_of db t) as [| la las] eqn:Hla.
    { exfalso. revert Hla. apply left_outer_not_nil. }
    exists (t, la). split; [reflexivity |].
    apply In_flat_map_pair. split; [exact Ht |].
    unfold kept_rows. rewrite Hw, Hla. now left.
Qed.

Hypothesis tag_ids_unique : NoDup (map tg_id (Tags db)).

Lemma tags_group_rows (t : TagT) :
  In t (Tags db) -> tag_where eng r t = true ->
  map snd (filter (fun j => tg_id (fst j) =? tg_id t) (TagsSql.from_where eng r db))
  = TagsSql.articles_of db t.
Proof.
  intros Ht Hw. rewrite tags_from_where.
  rewrite (rows_of_key tg_id (kept_rows eng r db) (Tags db) t tag_ids_unique Ht).
  unfold kept_rows. now rewrite Hw.
Qed.

Lemma tags_result_elements (k : Z) :
  In k (TagsSql.result eng r db)
  <-> In k (map tg_id (matching_tags eng r db)).
Proof.
  unfold TagsSql.result. rewrite In_distinct_by_Z.
  unfold TagsSql.groups_having, TagsSql.groups, matching_tags.
  rewrite !in_map_iff. split.
  - intros ([t rows] & <- & Hg). simpl.
    apply filter_In in Hg as [Hg Hh].
    apply in_map_iff in Hg as (t' & [= -> <-] & Ht').
    apply In_distinct_by, tags_in_from_where in Ht' as [Ht Hw].
    exists t. split; [reflexivity |].
    apply filter_In. split; [exact Ht |].
    rewrite Hw. simpl.
    simpl in Hh. rewrite (tags_group_rows t Ht Hw), tags_having_on_agg in Hh.
    exact Hh.
  - intros (t & <- & Ht).
    apply filter_In in Ht as [Ht Hm].
    apply andb_true_iff in Hm as [Hw Hh].
    assert (Hin : In t (map fst (TagsSql.from_where eng r db)))
      by (apply tags_in_from_where; auto).
    destruct (distinct_by_key_rep tg_id t _ Hin) as (t0 & Ht0 & Hk).
    assert (t0 = t).
    { apply (NoDup_map_inj_on tg_id (Tags db)); try assumption.
      apply In_distinct_by, tags_in_from_where in Ht0. tauto. }
    subst t0.
    exists (t, map snd (filter (fun j => tg_id (fst j) =? tg_id t)
                          (TagsSql.from_where eng r db))).
    split; [reflexivity |].
    apply filter_In. split.
    + apply in_map_iff. exists t. split; [reflexivity | exact Ht0].
    + simpl. rewrite (tags_group_rows t Ht Hw), tags_having_on_agg. exact Hh.
Qed.

Lemma tags_total_count :
  TagsSql.total_count eng r db
  = Z.of_nat (List.length (matching_tags eng r db)).
Proof.
  unfold TagsSql.total_count. f_equal.
  rewrite <- (length_map tg_id (matching_tags eng r db)).
  apply same_elements_same_length.
  - apply NoDup_distinct_by_Z.
  - unfold matching_tags.
    clear -tag_ids_unique. induction (Tags db) as [| t ts IH]; simpl; [constructor |].
    inversion tag_ids_unique as [| ? ? Hn Hd]; subst.
    destruct (tag_where eng r t && tag_having eng r db t); simpl; [| now apply IH].
    constructor; [| now apply IH].
    intros H. apply Hn. apply in_map_iff in H as (t' & Hk & Ht').
    apply in_map_iff. exists t'. split; [exact Hk |]. now apply filter_In in Ht'.
  - apply tags_result_elements.
Qed.

End TagsTotal.

(* ================================================================== *)
(** * The total statement of Articles *)
(* ================================================================== *)

Lemma flat_map_some {A : Type} (g : A -> Z) (xs : list A) :
  flat_map (fun v : option Z => match v with Some z => [z] | None => [] end)
    (map (fun j => Some (g j)) xs)
  = map g xs.
Proof.
  induction xs as [| x xs IH]; simpl; [reflexivity | now rewrite IH].
Qed.

Lemma list_prod_not_nil {A B : Type} (xs : list A) (ys : list B) :
  xs <> [] -> ys <> [] -> list_prod xs ys <> [].
Proof.
  destruct xs as [| x xs], ys as [| y ys]; try congruence. discriminate.
Qed.

Section ArticlesTotal.

Variable eng : Engine.
Variable r : Articles.Request.
Variable db : Database.

Lemma articles_where_on_article (a : ArticleT) (rest : Row) :
  holds eng (Articles.wheres r) (ArticlesSql.article_tuple a ++ rest)%list
  = holds eng (Articles.wheres r) (ArticlesSql.article_tuple a).
Proof.
  unfold Articles.wheres.
  destruct (Articles.f_id (Articles.filters r)), (Articles.f_title (Articles.filters r)),
    (Articles.f_createdAt (Articles.filters r)), (truthy (Articles.search r));
    reflexivity.
Qed.

Lemma articles_where_on_head (h : ArticlesSql.Head) (rest : Row) :
  holds eng (Articles.wheres r) (ArticlesSql.head_tuple h ++ rest)%list
  = holds eng (Articles.wheres r) (ArticlesSql.article_tuple (ArticlesSql.h_article h)).
Proof.
  unfold ArticlesSql.head_tuple. rewrite <- app_assoc.
  apply articles_where_on_article.
Qed.

Lemma articles_userWhere_on_user (a : ArticleT) (u : UserT) :
  holds eng (Articles.userWheres r)
    (ArticlesSql.article_tuple a ++ ArticlesSql.user_tuple u)%list
  = holds eng (Articles.userWheres r) (ArticlesSql.user_tuple u).
Proof.
  unfold Articles.userWheres.
  destruct (Articles.f_author (Articles.filters r)); reflexivity.
Qed.

Lemma articles_hubWhere_on_hub (a : ArticleT) (u : UserT) (l : ArticleHubT) (h : HubT) :
  holds eng (Articles.hubWheres r)
    (ArticlesSql.article_tuple a ++ ArticlesSql.user_tuple u
     ++ ArticlesSql.hub_tuple l h)%list
  = holds eng (Articles.hubWheres r) (ArticlesSql.hub_tuple l h).
Proof.
  unfold Articles.hubWheres.
  destruct (Articles.f_hubs (Articles.filters r)); reflexivity.
Qed.

Lemma articles_tagWhere_on_tag (a : ArticleT) (u : UserT) (lh : ArticleHubT) (h : HubT)
    (l : ArticleTagT) (t : TagT) :
  holds eng (Articles.tagWheres r)
    (ArticlesSql.article_tuple a ++ ArticlesSql.user_tuple u
     ++ ArticlesSql.hub_tuple lh h ++ ArticlesSql.tag_tuple l t)%list
  = holds eng (Articles.tagWheres r) (ArticlesSql.tag_tuple l t).
Proof.
  unfold Articles.tagWheres.
  destruct (Articles.f_tags (Articles.filters r)); reflexivity.
Qed.

Lemma articles_having_on_agg
    (rows : list (option ArticleAnswerT * option ArticleVoteT)) (rest : Row) :
  holds eng (Articles.havings r) (ArticlesSql.agg_tuple rows ++ rest)%list
  = holds eng (Articles.havings r) (ArticlesSql.agg_tuple rows).
Proof.
  unfold Articles.havings.
  destruct (Articles.f_answers (Articles.filters r)),
    (Articles.f_votes (Articles.filters r)); reflexivity.
Qed.

(** The joined rows of an article are the triples of an author, a hub
    and a tag of it that pass the join conditions. *)
Lemma in_heads_of (a : ArticleT) (h : ArticlesSql.Head) :
  In h (ArticlesSql.heads_of eng r db a)
  <-> ArticlesSql.h_article h = a
      /\ (In (ArticlesSql.h_user h) (Users db)
          /\ (art_author a =? usr_id (ArticlesSql.h_user h))
             && holds eng (Articles.userWheres r)
                  (ArticlesSql.user_tuple (ArticlesSql.h_user h)) = true)
      /\ (In (ArticlesSql.h_hublink h, ArticlesSql.h_hub h) (ArticlesSql.hub_links db)
          /\ (art_id a =? ah_article (ArticlesSql.h_hublink h))
             && holds eng (Articles.hubWheres r)
                  (ArticlesSql.hub_tuple (ArticlesSql.h_hublink h) (ArticlesSql.h_hub h))
             = true)
      /\ (In (ArticlesSql.h_taglink h, ArticlesSql.h_tag h) (ArticlesSql.tag_links db)
          /\ (art_id a =? at_article (ArticlesSql.h_taglink h))
             && holds eng (Articles.tagWheres r)
                  (ArticlesSql.tag_tuple (ArticlesSql.h_taglink h) (ArticlesSql.h_tag h))
             = true).
Proof.
  unfold ArticlesSql.heads_of. rewrite in_flat_map. split.
  - intros (u & Hu & H).
    apply in_flat_map in H as ([lh hb] & Hlh & H).
    apply in_flat_map in H as ([lt tg] & Hlt & H).
    destruct H as [<- | []].
    apply filter_In in Hu as [Hu Hup].
    apply filter_In in Hlh as [Hlh Hlhp].
    apply filter_In in Hlt as [Hlt Hltp].
    cbn [fst snd ArticlesSql.h_article ArticlesSql.h_user ArticlesSql.h_hublink
         ArticlesSql.h_hub ArticlesSql.h_taglink ArticlesSql.h_tag] in *.
    rewrite articles_userWhere_on_user in Hup.
    rewrite articles_hubWhere_on_hub in Hlhp.
    rewrite articles_tagWhere_on_tag in Hltp.
    tauto.
  - destruct h as [a' u lh hb lt tg].
    cbn [ArticlesSql.h_article ArticlesSql.h_user ArticlesSql.h_hublink
         ArticlesSql.h_hub ArticlesSql.h_taglink ArticlesSql.h_tag].
    intros (-> & [Hu Hup] & [Hlh Hlhp] & [Hlt Hltp]).
    exists u. split.
    { apply filter_In. split; [exact Hu |]. cbv beta.
      now rewrite articles_userWhere_on_user. }
    apply in_flat_map. exists (lh, hb). split.
    { apply filter_In. split; [exact Hlh |]. cbv beta. cbn [fst snd].
      now rewrite articles_hubWhere_on_hub. }
    apply in_flat_map. exists (lt, tg). split.
    { apply filter_In. split; [exact Hlt |]. cbv beta. cbn [fst snd].
      now rewrite articles_tagWhere_on_tag. }
    left. reflexivity.
Qed.

Lemma heads_of_joins (a : ArticleT) :
  (exists h, In h (ArticlesSql.heads_of eng r db a))
  <-> has_author eng r db a && has_hub eng r db a && has_tag eng r db a = true.
Proof.
  unfold has_author, has_hub, has_tag.
  rewrite !andb_true_iff, !existsb_exists. split.
  - intros (h & Hh). apply in_heads_of in Hh as (_ & Hu & Hlh & Hlt).
    repeat split.
    + exists (ArticlesSql.h_user h). exact Hu.
    + exists (ArticlesSql.h_hublink h, ArticlesSql.h_hub h). exact Hlh.
    + exists (ArticlesSql.h_taglink h, ArticlesSql.h_tag h). exact Hlt.
  - intros [[(u & Hu) ([lh hb] & Hlh)] ([lt tg] & Hlt)].
    exists (ArticlesSql.mkHead a u lh hb lt tg).
    apply in_heads_of. simpl. tauto.
Qed.

Lemma fanout_not_nil (a : ArticleT) : ArticlesSql.fanout db a <> [].
Proof.
  apply list_prod_not_nil; apply left_outer_not_nil.
Qed.

Hypothesis article_ids_unique : NoDup (map art_id (Articles db)).

Lemma sub_group_rows (a : ArticleT) :
  In a (Articles db) ->
  map snd (filter (fun j => art_id (fst j) =? art_id a) (ArticlesSql.sub_from db))
  = ArticlesSql.fanout db a.
Proof.
  intros Ha. unfold ArticlesSql.sub_from.
  apply (rows_of_key art_id (ArticlesSql.fanout db) (Articles db) a article_ids_unique Ha).
Qed.

Lemma in_ArticlesAnswerVote (k : Z) :
  In k (ArticlesSql.ArticlesAnswerVote eng r db)
  <-> exists a, In a (Articles db) /\ art_id a = k /\ grouped_having eng r db a = true.
Proof.
  unfold ArticlesSql.ArticlesAnswerVote. rewrite In_distinct_by_Z, in_map_iff.
  unfold ArticlesSql.sub_groups, grouped_having. split.
  - intros ([k' rows] & <- & Hg). cbn [fst].
    apply filter_In in Hg as [Hg Hh].
    apply in_map_iff in Hg as (k'' & [= -> <-] & Hk).
    apply In_distinct_by_Z, in_map_iff in Hk as ([a p] & <- & Hj).
    apply In_flat_map_pair in Hj as [Ha _]. cbv beta in Hh. cbn [fst snd] in *.
    exists a. split; [exact Ha |]. split; [reflexivity |].
    rewrite (sub_group_rows a Ha), articles_having_on_agg in Hh. exact Hh.
  - intros (a & Ha & <- & Hh).
    exists (art_id a, map snd (filter (fun j => art_id (fst j) =? art_id a)
                                (ArticlesSql.sub_from db))).
    split; [reflexivity |].
    apply filter_In. split.
    + apply in_map_iff. exists (art_id a). split; [reflexivity |].
      apply In_distinct_by_Z, in_map_iff.
      destruct (ArticlesSql.fanout db a) as [| p ps] eqn:Hf.
      { exfalso. revert Hf. apply fanout_not_nil. }
      exists (a, p). split; [reflexivity |].
      apply In_flat_map_pair. split; [exact Ha |]. rewrite Hf. now left.
    + cbv beta. cbn [fst snd].
      rewrite (sub_group_rows a Ha), articles_having_on_agg. exact Hh.
Qed.

Lemma total_from_ids (k : Z) :
  In k (map (fun j => art_id (ArticlesSql.h_article (fst j)))
          (ArticlesSql.total_from eng r db))
  <-> In k (map art_id (counted_articles eng r db)).
Proof.
  unfold ArticlesSql.total_from, counted_articles, article_where.
  rewrite !in_map_iff. split.
  - intros ([h k'] & <- & Hj). cbn [fst].
    apply filter_In in Hj as [Hj Hw]. cbv beta in Hw. cbn [fst snd] in Hw.
    rewrite articles_where_on_head in Hw.
    apply in_flat_map in Hj as (a & Ha & Hj).
    apply in_flat_map in Hj as (h' & Hh & Hj).
    apply in_map_iff in Hj as (k'' & [= -> ->] & Hk).
    apply filter_In in Hk as [Hk Hid].
    apply Z.eqb_eq in Hid.
    pose proof (proj1 (in_heads_of a h) Hh) as (Hha & _).
    assert (Hjoin : has_author eng r db a && has_hub eng r db a && has_tag eng r db a = true)
      by (apply heads_of_joins; exists h; exact Hh).
    apply in_ArticlesAnswerVote in Hk as (a' & Ha' & Hk' & Hhav).
    assert (a' = a).
    { apply (NoDup_map_inj_on art_id (Articles db)); try assumption. congruence. }
    subst a'.
    exists a. split; [now rewrite Hha |].
    apply filter_In. split; [exact Ha |].
    rewrite Hha in Hw. rewrite Hw, Hhav.
    rewrite !andb_true_iff in Hjoin. destruct Hjoin as [[-> ->] ->]. reflexivity.
  - intros (a & <- & Ha).
    apply filter_In in Ha as [Ha Hm].
    rewrite !andb_true_iff in Hm. destruct Hm as [[[[Hw Hu] Hh] Ht] Hhav].
    assert (Hjoin : has_author eng r db a && has_hub eng r db a && has_tag eng r db a = true)
      by (now rewrite Hu, Hh, Ht).
    apply heads_of_joins in Hjoin as (h & Hh').
    pose proof (proj1 (in_heads_of a h) Hh') as (Hha & _).
    exists (h, art_id a). split; [cbn [fst]; now rewrite Hha |].
    apply filter_In. split.
    + apply in_flat_map. exists a. split; [exact Ha |].
      apply in_flat_map. exists h. split; [exact Hh' |].
      apply in_map. apply filter_In. split; [| apply Z.eqb_refl].
      apply in_ArticlesAnswerVote. exists a. auto.
    + cbv beta. cbn [fst snd]. rewrite articles_where_on_head, Hha. exact Hw.
Qed.

Lemma NoDup_counted_articles : NoDup (map art_id (counted_articles eng r db)).
Proof.
  unfold counted_articles.
  generalize (fun a => article_where eng r db a && grouped_having eng r db a) as p.
  intros p. revert article_ids_unique.
  induction (Articles db) as [| a rest IH]; simpl; intros Hnd; [constructor |].
  inversion Hnd as [| ? ? Hn Hd]; subst.
  destruct (p a); simpl; [| now apply IH].
  constructor; [| now apply IH].
  intros H. apply Hn. apply in_map_iff in H as (a' & Hk & Ha').
  apply in_map_iff. exists a'. split; [exact Hk |]. now apply filter_In in Ha'.
Qed.

Lemma articles_total_count :
  ArticlesSql.total_count eng r db
  = Z.of_nat (List.length (counted_articles eng r db)).
Proof.
  unfold ArticlesSql.total_count, count_distinct. f_equal.
  rewrite (flat_map_some (fun j => art_id (ArticlesSql.h_article (fst j)))).
  rewrite <- (length_map art_id (counted_articles eng r db)).
  apply same_elements_same_length.
  - apply NoDup_distinct_by_Z.
  - apply NoDup_counted_articles.
  - intros k. rewrite In_distinct_by_Z. apply total_from_ids.
Qed.

End ArticlesTotal.

(* ================================================================== *)
(** * The page statement of Articles *)
(* ================================================================== *)

Lemma In_firstn {A : Type} (n : nat) (x : A) (xs : list A) :
  In x (firstn n xs) -> In x xs.
Proof.
  revert xs. induction n as [| n IH]; intros [| y ys]; simpl; try tauto.
  intros [-> | H]; [now left | right; now apply IH].
Qed.

Lemma In_skipn {A : Type} (n : nat) (x : A) (xs : list A) :
  In x (skipn n xs) -> In x xs.
Proof.
  revert xs. induction n as [| n IH]; intros [| y ys]; simpl; try tauto.
  intros H. right. now apply IH.
Qed.

Lemma In_paginate {A : Type} (offset limit : Z) (xs page : list A) (x : A) :
  paginate offset limit xs = Some page -> In x page -> In x xs.
Proof.
  unfold paginate. destruct ((offset <? 0) || (limit <? 0)); [discriminate |].
  intros [= <-] H. eapply In_skipn, In_firstn, H.
Qed.

Section ArticlesPage.

Variable eng : Engine.
Variable r : Articles.Request.
Variable db : Database.

(** Every row of the page comes from a joined row of some article. *)
Lemma page_row_origin (rows : list Row) (row : Row) :
  ArticlesSql.page_rows eng r db = Some rows -> In row rows ->
  exists h agg a,
    row = ArticlesSql.select_row r (h, agg)
    /\ In a (Articles db)
    /\ In h (ArticlesSql.heads_of eng r db a).
Proof.
  unfold ArticlesSql.page_rows, ArticlesSql.page_all.
  intros Hp Hin.
  apply (In_paginate _ _ _ _ _ Hp) in Hin.
  apply (Permutation_in _ (Permutation_sym (sort_rows_perm eng _ _))) in Hin.
  apply In_distinct_by, in_map_iff in Hin as ([h agg] & <- & Hg).
  apply filter_In in Hg as [Hg _].
  apply in_map_iff in Hg as (h' & [= -> _] & Hh).
  apply In_distinct_by, in_map_iff in Hh as ([h'' p] & <- & Hj).
  apply filter_In in Hj as [Hj _].
  apply in_flat_map in Hj as (a & Ha & Hj).
  apply in_flat_map in Hj as (h' & Hh' & Hj).
  apply in_map_iff in Hj as (p' & [= -> _] & _).
  exists h'', agg, a. auto.
Qed.

Lemma hub_of_select_row (g : ArticlesSql.Head * list (option ArticleAnswerT * option ArticleVoteT)) :
  Denormalizer.hub_of (ArticlesSql.select_row r g)
  = Denormalizer.mkHub (JNumber (hb_id (ArticlesSql.h_hub (fst g))))
                       (JString (hb_name (ArticlesSql.h_hub (fst g)))).
Proof.
  unfold Denormalizer.hub_of, ArticlesSql.select_row.
  destruct (Articles.extended r); reflexivity.
Qed.

Lemma tag_of_select_row (g : ArticlesSql.Head * list (option ArticleAnswerT * option ArticleVoteT)) :
  Denormalizer.tag_of (ArticlesSql.select_row r g)
  = Denormalizer.mkTag (JNumber (tg_id (ArticlesSql.h_tag (fst g))))
                       (JString (tg_name (ArticlesSql.h_tag (fst g))))
                       (JNumber (tg_hub (ArticlesSql.h_tag (fst g)))).
Proof.
  unfold Denormalizer.tag_of, ArticlesSql.select_row.
  destruct (Articles.extended r); reflexivity.
Qed.

End ArticlesPage.

Lemma set_data_hub_origin (extended : bool) (rows : list Row)
    (o : Denormalizer.ArticleObject) (h : Denormalizer.Hub) :
  In o (Denormalizer.set_data extended rows) -> In h (Denormalizer.hubs o) ->
  exists row, In row rows /\ h = Denormalizer.hub_of row.
Proof.
  intros Ho Hh.
  destruct (set_data_entity_rows extended rows o Ho) as (first & later & Hrows & Heq).
  rewrite Heq in Hh. unfold Denormalizer.entity_from, Denormalizer.hubs in Hh.
  apply In_distinct_on, in_map_iff in Hh as (row & <- & Hrow).
  exists row. split; [| reflexivity].
  rewrite <- Hrows in Hrow. now apply filter_In in Hrow.
Qed.

Lemma set_data_tag_origin (extended : bool) (rows : list Row)
    (o : Denormalizer.ArticleObject) (t : Denormalizer.Tag) :
  In o (Denormalizer.set_data extended rows) -> In t (Denormalizer.tags o) ->
  exists row, In row rows /\ t = Denormalizer.tag_of row.
Proof.
  intros Ho Ht.
  destruct (set_data_entity_rows extended rows o Ho) as (first & later & Hrows & Heq).
  rewrite Heq in Ht. unfold Denormalizer.entity_from, Denormalizer.tags in Ht.
  apply In_distinct_on, in_map_iff in Ht as (row & <- & Hrow).
  exists row. split; [| reflexivity].
  rewrite <- Hrows in Hrow. now apply filter_In in Hrow.
Qed.

(** C2, as the claim states it, fails: with the filter hubs=[3], the
    article of hubs 3 and 5 is listed once, with hub 3 alone. *)
Lemma hubs_filter_drops_the_other_hub :
  option_map
    (map (fun o => (Denormalizer.id o, map Denormalizer.hub_id (Denormalizer.hubs o))))
    (ArticlesSql.data_after plain_engine list_hub_3 db_hubs_3_5)
  = Some [ (JNumber 1, [JNumber 3]) ].
Proof. vm_compute. reflexivity. Qed.

Example no_filter_lists_both_hubs :
  option_map
    (map (fun o => (Denormalizer.id o, map Denormalizer.hub_id (Denormalizer.hubs o))))
    (ArticlesSql.data_after plain_engine list_all db_hubs_3_5)
  = Some [ (JNumber 1, [JNumber 3; JNumber 5]) ].
Proof. vm_compute. reflexivity. Qed.

(** C2, amended.  In the data of the Articles list every root id occurs
    once, and a set-membership filter on hubs (on tags) restricts the
    joined rows: every hub (tag) listed in an entity's nested collection
    has an id of the filter's set. *)
Theorem ids_filter_restricts_nested_collection
    (eng : Engine) (r : Articles.Request) (db : Database)
    (data : list Denormalizer.ArticleObject) :
  ArticlesSql.data_after eng r db = Some data ->
  NoDup (map Denormalizer.id data)
  /\ (forall hs o h,
         Articles.f_hubs (Articles.filters r) = Some (FIds hs) ->
         In o data -> In h (Denormalizer.hubs o) ->
         exists z, Denormalizer.hub_id h = JNumber z /\ In z hs)
  /\ (forall ts o t,
         Articles.f_tags (Articles.filters r) = Some (FIds ts) ->
         In o data -> In t (Denormalizer.tags o) ->
         exists z, Denormalizer.tag_id t = JNumber z /\ In z ts).
Proof.
  unfold ArticlesSql.data_after.
  destruct (ArticlesSql.page_rows eng r db) as [rows |] eqn:Hp; [| discriminate].
  intros [= <-].
  split; [rewrite set_data_ids; apply NoDup_distinct |].
  split.
  - intros hs o h Hf Ho Hh.
    destruct (set_data_hub_origin _ _ _ _ Ho Hh) as (row & Hrow & ->).
    destruct (page_row_origin eng r db rows row Hp Hrow) as (hd & agg & a & -> & _ & Hhd).
    rewrite hub_of_select_row. cbn [fst Denormalizer.hub_id].
    exists (hb_id (ArticlesSql.h_hub hd)). split; [reflexivity |].
    apply in_heads_of in Hhd as (_ & _ & (_ & Hc) & _).
    apply andb_true_iff in Hc as [_ Hc].
    unfold Articles.hubWheres in Hc. rewrite Hf in Hc.
    cbn [push_if app holds forallb wd_filter wd_column] in Hc.
    change (get (ArticlesSql.hub_tuple (ArticlesSql.h_hublink hd) (ArticlesSql.h_hub hd))
              Articles.cols_hub_id)
      with (JNumber (hb_id (ArticlesSql.h_hub hd))) in Hc.
    cbn [satisfies] in Hc.
    rewrite andb_true_r in Hc.
    apply existsb_exists in Hc as (z & Hz & Heq).
    apply Z.eqb_eq in Heq. now subst z.
  - intros ts o t Hf Ho Ht.
    destruct (set_data_tag_origin _ _ _ _ Ho Ht) as (row & Hrow & ->).
    destruct (page_row_origin eng r db rows row Hp Hrow) as (hd & agg & a & -> & _ & Hhd).
    rewrite tag_of_select_row. cbn [fst Denormalizer.tag_id].
    exists (tg_id (ArticlesSql.h_tag hd)). split; [reflexivity |].
    apply in_heads_of in Hhd as (_ & _ & _ & (_ & Hc)).
    apply andb_true_iff in Hc as [_ Hc].
    unfold Articles.tagWheres in Hc. rewrite Hf in Hc.
    cbn [push_if app holds forallb wd_filter wd_column] in Hc.
    change (get (ArticlesSql.tag_tuple (ArticlesSql.h_taglink hd) (ArticlesSql.h_tag hd))
              Articles.cols_tag_id)
      with (JNumber (tg_id (ArticlesSql.h_tag hd))) in Hc.
    cbn [satisfies] in Hc.
    rewrite andb_true_r in Hc.
    apply existsb_exists in Hc as (z & Hz & Heq).
    apply Z.eqb_eq in Heq. now subst z.
Qed.

Lemma ids_filter_restricts_nested_collection_witness :
  NoDup (map Denormalizer.id
           [ Denormalizer.mkArticleObject (JNumber 1) (JString "On primes") None
               (JNumber 1000)
               (Denormalizer.mkAuthor (JNumber 7) (JString "U") (JString "hash"))
               [Denormalizer.mkHub (JNumber 3) (JString "Algebra")]
               [Denormalizer.mkTag (JNumber 9) (JString "primes") (JNumber 3)]
               (JInt 0) (JInt 0) ]).
Proof.
  apply (ids_filter_restricts_nested_collection plain_engine list_hub_3 db_hubs_3_5).
  vm_compute. reflexivity.
Defined.

(** What the two aggregate columns are over the rows of one article:
    [answers] counts its distinct answers; [votes] is the sum of its
    vote values once per answer row (once when it has no answer). *)
Lemma coalesce_sum (values : list (option Z)) :
  coalesce (sum values) 0
  = fold_right Z.add 0
      (flat_map (fun v : option Z => match v with Some z => [z] | None => [] end) values).
Proof.
  unfold sum.
  destruct (flat_map _ values); reflexivity.
Qed.

Lemma fold_add_app (xs ys : list Z) :
  fold_right Z.add 0 (xs ++ ys) = fold_right Z.add 0 xs + fold_right Z.add 0 ys.
Proof.
  induction xs as [| x xs IH]; simpl; [reflexivity | rewrite IH; lia].
Qed.

Lemma votes_of_values (db : Database) (a : ArticleT) :
  flat_map (fun v : option Z => match v with Some z => [z] | None => [] end)
    (map (option_map vt_vote) (ArticlesSql.votes_of db a))
  = map vt_vote (filter (fun v => art_id a =? vt_article v) (ArticlesVotes db)).
Proof.
  unfold ArticlesSql.votes_of, left_outer.
  destruct (filter _ (ArticlesVotes db)) as [| v vs]; [reflexivity |].
  generalize (v :: vs) as l. intros l.
  induction l as [| x l IH]; simpl; [reflexivity | now rewrite IH].
Qed.

Lemma votes_agg_fanout (db : Database) (a : ArticleT) :
  ArticlesSql.votes_agg (ArticlesSql.fanout db a)
  = Z.of_nat (List.length (ArticlesSql.answers_of db a))
    * fold_right Z.add 0
        (map vt_vote (filter (fun v => art_id a =? vt_article v) (ArticlesVotes db))).
Proof.
  unfold ArticlesSql.votes_agg, ArticlesSql.fanout.
  rewrite coalesce_sum, <- votes_of_values.
  induction (ArticlesSql.answers_of db a) as [| n ns IH].
  - reflexivity.
  - cbn [list_prod]. rewrite map_app, flat_map_app, fold_add_app, IH.
    rewrite map_map. cbn [snd].
    change (fun x : option ArticleVoteT => option_map vt_vote x)
      with (option_map vt_vote).
    change (List.length (n :: ns)) with (S (List.length ns)).
    rewrite Nat2Z.inj_succ. lia.
Qed.

Lemma answers_of_length (db : Database) (a : ArticleT) :
  List.length (ArticlesSql.answers_of db a)
  = Nat.max 1 (List.length (filter (fun n => art_id a =? an_article n) (ArticlesAnswers db))).
Proof.
  unfold ArticlesSql.answers_of, left_outer.
  destruct (filter _ (ArticlesAnswers db)) as [| n ns]; [reflexivity |].
  rewrite length_map. simpl. reflexivity.
Qed.

Lemma answers_agg_fanout (db : Database) (a : ArticleT) :
  ArticlesSql.answers_agg (ArticlesSql.fanout db a)
  = Z.of_nat (List.length
      (distinct_by Z.eqb
         (map an_id (filter (fun n => art_id a =? an_article n) (ArticlesAnswers db))))).
Proof.
  unfold ArticlesSql.answers_agg, count_distinct. f_equal.
  apply same_elements_same_length; try apply NoDup_distinct_by_Z.
  intros k. rewrite !In_distinct_by_Z.
  unfold ArticlesSql.fanout.
  destruct (ArticlesSql.votes_of db a) as [| v vs] eqn:Hv.
  { exfalso. revert Hv. apply left_outer_not_nil. }
  rewrite in_flat_map. split.
  - intros (o & Ho & Hk).
    apply in_map_iff in Ho as ([n v'] & <- & Hp).
    apply in_prod_iff in Hp as [Hn _]. cbn [fst] in Hk.
    destruct n as [n |]; [| destruct Hk].
    destruct Hk as [<- | []].
    unfold ArticlesSql.answers_of, left_outer in Hn.
    destruct (filter _ (ArticlesAnswers db)) as [| n0 ns] eqn:Hf.
    + destruct Hn as [Hn | []]. discriminate.
    + apply in_map_iff in Hn as (n' & [= ->] & Hn').
      now apply in_map.
  - intros Hk. apply in_map_iff in Hk as (n & <- & Hn).
    exists (Some (an_id n)). split; [| now left].
    apply in_map_iff. exists (Some n, v). split; [reflexivity |].
    apply in_prod_iff. split; [| now left].
    unfold ArticlesSql.answers_of, left_outer.
    destruct (filter _ (ArticlesAnswers db)) as [| n0 ns]; [destruct Hn |].
    now apply in_map.
Qed.

(* ================================================================== *)
(** * The aggregates of the page statement *)
(* ================================================================== *)

Lemma sort_rows_single (eng : Engine) (os : list OrderDescriptor) (row : Row) :
  sort_rows eng os [row] = [row].
Proof.
  apply Permutation_length_1_inv, sort_rows_perm.
Qed.

(** C1, at an input where the code departs from it.  For an article
    with two answers and one vote of value 1, whatever the engine, the
    entity [setData] produces has [answers] 2 and [votes] 2, while the
    article's vote values sum to 1: the sum runs over the answer-vote
    pairs of the group. *)
Theorem votes_sum_counts_each_vote_once_per_answer (eng : Engine) :
  option_map
    (map (fun o => (Denormalizer.id o, Denormalizer.answers o, Denormalizer.votes o)))
    (ArticlesSql.data_after eng list_all db_two_answers_one_vote)
  = Some [ (JNumber 1, JInt 2, JInt 2) ]
  /\ fold_right Z.add 0
       (map vt_vote
          (filter (fun v => vt_article v =? 1) (ArticlesVotes db_two_answers_one_vote)))
     = 1.
Proof.
  split; [| reflexivity].
  unfold ArticlesSql.data_after, ArticlesSql.page_rows, ArticlesSql.page_all.
  set (rows := distinct_by row_eqb _).
  assert (Hrows : rows
                  = [ [ ("id", JNumber 1); ("title", JString "On primes");
                        ("createdAt", JNumber 1000); ("User.id", JNumber 7);
                        ("User.displayName", JString "U"); ("User.hash", JString "hash");
                        ("Hub.id", JNumber 3); ("Hub.name", JString "Algebra");
                        ("Tag.id", JNumber 9); ("Tag.name", JString "primes");
                        ("Tag.hub", JNumber 3); ("answers", JString "2");
                        ("votes", JString "2") ] ])
    by (vm_compute; reflexivity).
  rewrite Hrows, sort_rows_single.
  vm_compute. reflexivity.
Qed.

Example votes_sum_without_answers :
  option_map
    (map (fun o => (Denormalizer.id o, Denormalizer.answers o, Denormalizer.votes o)))
    (ArticlesSql.data_after plain_engine list_all
       (mkDatabase
          (Articles db_two_answers_one_vote) (Users db_two_answers_one_vote)
          (Hubs db_two_answers_one_vote) (Tags db_two_answers_one_vote)
          (ArticlesHubs db_two_answers_one_vote) (ArticlesTags db_two_answers_one_vote)
          []
          [mkArticleVote 1 1 1; mkArticleVote 2 1 4]))
  = Some [ (JNumber 1, JInt 0, JInt 5) ].
Proof. vm_compute. reflexivity. Qed.

(* ================================================================== *)
(** * [total] after setData *)
(* ================================================================== *)

(** With unique article ids (tag ids), the total statement yields the
    integer that counts the articles (tags) satisfying [where], the
    joins and [having] as the statement evaluates them, that is, for
    Articles, on the aggregates of the answer-vote pairs; it is the same
    for every limit and offset. *)
Lemma total_statements_count_roots (eng : Engine) :
  (forall r db,
      NoDup (map art_id (Articles db)) ->
      ArticlesSql.total_after eng r db
      = JInt (Z.of_nat (List.length (counted_articles eng r db))))
  /\ (forall r db,
         NoDup (map tg_id (Tags db)) ->
         TagsSql.total_after eng r db
         = JInt (Z.of_nat (List.length (matching_tags eng r db))))
  /\ (forall r db limit offset,
         ArticlesSql.total_after eng (articles_page r limit offset) db
         = ArticlesSql.total_after eng r db)
  /\ (forall r db limit offset,
         TagsSql.total_after eng (tags_page r limit offset) db
         = TagsSql.total_after eng r db)
  /\ (forall I r limit offset,
         Articles.totalTemplate I (articles_page r limit offset)
         = Articles.totalTemplate I r)
  /\ (forall I r limit offset,
         Tags.totalTemplate I (tags_page r limit offset) = Tags.totalTemplate I r).
Proof.
  repeat split.
  - intros r db Hnd.
    unfold ArticlesSql.total_after, ArticlesSql.total_rows, total_of.
    change (get [("total", JString (string_of_Z (ArticlesSql.total_count eng r db)))] "total")
      with (JString (string_of_Z (ArticlesSql.total_count eng r db))).
    cbn [ToString].
    rewrite (articles_total_count eng r db Hnd).
    apply parseInt_string_of_nonneg, Nat2Z.is_nonneg.
  - intros r db Hnd.
    unfold TagsSql.total_after, TagsSql.total_rows, total_of.
    change (get [("total", JString (string_of_Z (TagsSql.total_count eng r db)))] "total")
      with (JString (string_of_Z (TagsSql.total_count eng r db))).
    cbn [ToString].
    rewrite (tags_total_count eng r db Hnd).
    apply parseInt_string_of_nonneg, Nat2Z.is_nonneg.
Qed.

(** C4, at an input where the code departs from it.  The list is asked
    for the articles with [votes >= 5]; the storage holds one article
    with two answers and one vote of value 3.  The vote sum of the
    article is 3, so no article satisfies the [having] predicate; yet,
    whatever the engine and the imports, after [setData] [total] is 1
    and [data] holds the article, with [votes] 6: the statements
    evaluate [having] on the sum over the answer-vote pairs. *)
Theorem total_counts_an_article_below_the_votes_filter (eng : Engine) (I : Imports) :
  let db := db_two_answers_vote_3 in
  let after :=
    this (fst (ArticlesList.setData I (articles_storage eng votes_at_least_5 db)
                 (mkWorld (db := articles_storage eng votes_at_least_5 db)
                    (ArticlesList.mkInstance votes_at_least_5 [] JNaN) false []))) in
  ArticlesList.total after = JInt 1
  /\ map (fun o => (Denormalizer.id o, Denormalizer.votes o)) (ArticlesList.data after)
     = [ (JNumber 1, JInt 6) ]
  /\ (forall a, In a (Articles db) ->
        vote_sum db a = 3
        /\ holds eng (Articles.wheres votes_at_least_5) (ArticlesSql.article_tuple a) = true
        /\ article_having eng votes_at_least_5 db a = false).
Proof.
  cbv zeta.
  assert (Hpage : ArticlesSql.page_rows eng votes_at_least_5 db_two_answers_vote_3
                  = Some [ [ ("id", JNumber 1); ("title", JString "On primes");
                             ("createdAt", JNumber 1000); ("User.id", JNumber 7);
                             ("User.displayName", JString "U");
                             ("User.hash", JString "hash");
                             ("Hub.id", JNumber 3); ("Hub.name", JString "Algebra");
                             ("Tag.id", JNumber 9); ("Tag.name", JString "primes");
                             ("Tag.hub", JNumber 3); ("answers", JString "2");
                             ("votes", JString "6") ] ]).
  { unfold ArticlesSql.page_rows, ArticlesSql.page_all.
    set (rows := distinct_by row_eqb _).
    assert (Hrows : rows
                    = [ [ ("id", JNumber 1); ("title", JString "On primes");
                          ("createdAt", JNumber 1000); ("User.id", JNumber 7);
                          ("User.displayName", JString "U");
                          ("User.hash", JString "hash");
                          ("Hub.id", JNumber 3); ("Hub.name", JString "Algebra");
                          ("Tag.id", JNumber 9); ("Tag.name", JString "primes");
                          ("Tag.hub", JNumber 3); ("answers", JString "2");
                          ("votes", JString "6") ] ])
      by (vm_compute; reflexivity).
    rewrite Hrows, sort_rows_single. reflexivity. }
  assert (Htotal : ArticlesSql.total_rows eng votes_at_least_5 db_two_answers_vote_3
                   = [ [ ("total", JString "1") ] ])
    by (vm_compute; reflexivity).
  set (h := articles_storage eng votes_at_least_5 db_two_answers_vote_3).
  rewrite articles_setData_unfold.
  assert (Q1 : forall sql,
             query h false sql
             = (true, Resolved [ [ ("id", JNumber 1); ("title", JString "On primes");
                                   ("createdAt", JNumber 1000); ("User.id", JNumber 7);
                                   ("User.displayName", JString "U");
                                   ("User.hash", JString "hash");
                                   ("Hub.id", JNumber 3); ("Hub.name", JString "Algebra");
                                   ("Tag.id", JNumber 9); ("Tag.name", JString "primes");
                                   ("Tag.hub", JNumber 3); ("answers", JString "2");
                                   ("votes", JString "6") ] ]))
    by (intros sql; unfold h, articles_storage; cbn [query]; now rewrite Hpage).
  assert (Q2 : forall sql, query h true sql = (true, Resolved [ [ ("total", JString "1") ] ]))
    by (intros sql; unfold h, articles_storage; cbn [query]; now rewrite Htotal).
  cbn [store this]. rewrite Q1. cbv zeta. rewrite Q2.
  cbn [fst this ArticlesList.total ArticlesList.data ArticlesList.dataProxy].
  split; [vm_compute; reflexivity |].
  split; [vm_compute; reflexivity |].
  intros a [<- | []]. repeat split; vm_compute; reflexivity.
Qed.

(* ================================================================== *)
(** * The [data] setters of Tags and TagsInHub *)
(* ================================================================== *)

Lemma fold_left_push_map {A B : Type} (f : A -> B) (xs : list A) (acc : list B) :
  fold_left (fun ys x => (ys ++ [f x])%list) xs acc = (acc ++ map f xs)%list.
Proof.
  revert acc. induction xs as [| x xs IH]; intros acc; simpl.
  - now rewrite app_nil_r.
  - rewrite IH, <- app_assoc. reflexivity.
Qed.

(** X1.  The [data] setters of Tags and of TagsInHub build one object
    per row, in row order: rows are never merged or dropped, not even
    rows with the same id, so the array is as long as the row set. *)
Theorem tag_setters_keep_every_row (rows : list Row) :
  TagDenormalizer.set_data rows = map TagDenormalizer.tagObject rows
  /\ TagsInHub.set_data rows = map TagsInHub.tagObject rows
  /\ List.length (TagDenormalizer.set_data rows) = List.length rows
  /\ List.length (TagsInHub.set_data rows) = List.length rows
  /\ map TagDenormalizer.id (TagDenormalizer.set_data rows)
     = map (fun row => get row "id") rows.
Proof.
  unfold TagDenormalizer.set_data, TagsInHub.set_data.
  rewrite !fold_left_push_map. simpl.
  repeat split; try (now rewrite length_map).
  rewrite map_map. reflexivity.
Qed.

Example tags_set_data_keeps_equal_ids :
  map (fun o => (TagDenormalizer.id o, TagDenormalizer.articles o))
    (TagDenormalizer.set_data
       [ [("id", JNumber 4); ("articles", JString "2")];
         [("id", JNumber 4); ("articles", JString "2")];
         [("id", JNumber 6)] ])
  = [ (JNumber 4, JInt 2); (JNumber 4, JInt 2); (JNumber 6, JNaN) ].
Proof. reflexivity. Qed.

(* ================================================================== *)
(** * More on the [data] setter of Articles *)
(* ================================================================== *)

(** X2.  Every entity the Articles setter builds has at least one hub
    and one tag, whatever the rows: its first hub and first tag are
    those of the first row of its id, also when their ids are null. *)
Theorem set_data_collections_start_with_first_row
    (extended : bool) (rows : list Row) (o : Denormalizer.ArticleObject) :
  In o (Denormalizer.set_data extended rows) ->
  exists first later hubs' tags',
    Denormalizer.rows_of (Denormalizer.id o) rows = first :: later
    /\ Denormalizer.hubs o = Denormalizer.hub_of first :: hubs'
    /\ Denormalizer.tags o = Denormalizer.tag_of first :: tags'.
Proof.
  intros Ho.
  destruct (set_data_entity_rows extended rows o Ho) as (first & later & Hrows & ->).
  exists first, later. simpl.
  eexists. eexists. split; [exact Hrows |]. split; reflexivity.
Qed.

Lemma set_data_collections_start_with_first_row_witness :
  exists first later hubs' tags',
    Denormalizer.rows_of (JNumber 1) [ [("id", JNumber 1); ("Hub.id", JNumber 3)] ]
    = first :: later
    /\ [Denormalizer.mkHub (JNumber 3) JUndefined] = Denormalizer.hub_of first :: hubs'
    /\ [Denormalizer.mkTag JUndefined JUndefined JUndefined]
       = Denormalizer.tag_of first :: tags'.
Proof.
  apply (set_data_collections_start_with_first_row false
           [ [("id", JNumber 1); ("Hub.id", JNumber 3)] ]
           (Denormalizer.newArticleObject false [("id", JNumber 1); ("Hub.id", JNumber 3)])).
  left. reflexivity.
Defined.

(** X3.  An entity has the key [abstract] exactly on an extended list;
    there it holds the [abstract] column of the first row of its id
    ([undefined] when the row has no such column). *)
Theorem set_data_abstract_follows_extended
    (extended : bool) (rows : list Row) (o : Denormalizer.ArticleObject) :
  In o (Denormalizer.set_data extended rows) ->
  (extended = false /\ Denormalizer.abstract o = None)
  \/ (extended = true
      /\ exists first later,
           Denormalizer.rows_of (Denormalizer.id o) rows = first :: later
           /\ Denormalizer.abstract o = Some (get first "abstract")).
Proof.
  intros Ho.
  destruct (set_data_entity_rows extended rows o Ho) as (first & later & Hrows & ->).
  destruct extended; [right | left]; split; try reflexivity.
  exists first, later. split; [exact Hrows | reflexivity].
Qed.

Lemma set_data_abstract_follows_extended_witness :
  (true = false /\ Some (JString "About primes") = None)
  \/ (true = true
      /\ exists first later,
           Denormalizer.rows_of (JNumber 1)
             [ [("id", JNumber 1); ("abstract", JString "About primes")] ]
           = first :: later
           /\ Some (JString "About primes") = Some (get first "abstract")).
Proof.
  apply (set_data_abstract_follows_extended true
           [ [("id", JNumber 1); ("abstract", JString "About primes")] ]
           (Denormalizer.newArticleObject true
              [("id", JNumber 1); ("abstract", JString "About primes")])).
  left. reflexivity.
Defined.

(* ================================================================== *)
(** * More on setData *)
(* ================================================================== *)

Section SetDataMore.

Context {E : Type} (I : Imports) (db : Handle E).

Lemma tagsInHub_setData_unfold (w : World db TagsInHub.Instance) :
  TagsInHub.setData I db w =
  match query db (store w) (TagsInHub.sql I (this w)) with
  | (s1, Rejected e) =>
      (mkWorld (this w) s1 (issued w ++ [TagsInHub.sql I (this w)]), Thrown e)
  | (s1, Resolved rows) =>
      (mkWorld (TagsInHub.mkInstance (TagsInHub.hubId (this w)) (TagsInHub.limit (this w))
                  (TagsInHub.set_data rows))
               s1 (issued w ++ [TagsInHub.sql I (this w)]),
       Returned tt)
  end.
Proof.
  unfold TagsInHub.setData, try_catch, bind, db_query, read_this, write_this, ret, throw.
  simpl.
  destruct (query db (store w) _) as [s1 [rows | e]]; reflexivity.
Qed.

(** X4.  When the page statement succeeds and the total statement is
    rejected, [setData] has already replaced [data] by the new page
    while [total] still holds its value from before the call: the
    instance is left with a fresh page and a stale total.  For Articles
    and for Tags. *)
Theorem setData_failed_total_leaves_new_data_old_total :
  (forall (w : World db ArticlesList.Instance) s1 rows s2 e,
      query db (store w) (ArticlesList.page_sql I (this w)) = (s1, Resolved rows) ->
      query db s1 (ArticlesList.total_sql I (this w)) = (s2, Rejected e) ->
      this (fst (ArticlesList.setData I db w))
      = ArticlesList.mkInstance
          (ArticlesList.request (this w))
          (Denormalizer.set_data
             (Articles.extended (ArticlesList.request (this w))) rows)
          (ArticlesList.total (this w)))
  /\ (forall (w : World db TagsList.Instance) s1 rows s2 e,
         query db (store w) (TagsList.page_sql I (this w)) = (s1, Resolved rows) ->
         query db s1 (TagsList.total_sql I (this w)) = (s2, Rejected e) ->
         this (fst (TagsList.setData I db w))
         = TagsList.mkInstance
             (TagsList.request (this w))
             (TagDenormalizer.set_data rows)
             (TagsList.total (this w))).
Proof.
  split.
  - intros w s1 rows s2 e H1 H2.
    rewrite articles_setData_unfold, H1. cbv zeta. rewrite H2. reflexivity.
  - intros w s1 rows s2 e H1 H2.
    rewrite tags_setData_unfold, H1. cbv zeta. rewrite H2. reflexivity.
Qed.

Lemma articles_setData_returns_true
    (w w' : World db ArticlesList.Instance) (v : bool) :
  ArticlesList.setData I db w = (w', Returned v) -> v = true.
Proof.
  rewrite articles_setData_unfold.
  destruct (query db (store w) _) as [s1 [rows | e]]; [| discriminate].
  cbv zeta.
  destruct (query db s1 _) as [s2 [rows2 | e]]; [| discriminate].
  now intros [= _ <-].
Qed.

(** X5.  A [setData] of Articles that returns has issued exactly two
    statements, the page statement and then the total statement, both
    answered by the storage; it returns [true], leaves in [data] the
    denormalized rows of the first and in [total] the count read from
    the second, and the request is as it was. *)
Theorem articles_setData_success
    (w w' : World db ArticlesList.Instance) (v : bool) :
  ArticlesList.setData I db w = (w', Returned v) ->
  v = true
  /\ issued w' = (issued w ++ [ArticlesList.page_sql I (this w);
                               ArticlesList.total_sql I (this w)])%list
  /\ ArticlesList.request (this w') = ArticlesList.request (this w)
  /\ exists s1 rows rows2,
       query db (store w) (ArticlesList.page_sql I (this w)) = (s1, Resolved rows)
       /\ query db s1 (ArticlesList.total_sql I (this w)) = (store w', Resolved rows2)
       /\ ArticlesList.data (this w')
          = Denormalizer.set_data (Articles.extended (ArticlesList.request (this w))) rows
       /\ ArticlesList.total (this w') = total_of rows2.
Proof.
  rewrite articles_setData_unfold.
  destruct (query db (store w) _) as [s1 [rows | e]] eqn:Q1; [| discriminate].
  cbv zeta.
  destruct (query db s1 _) as [s2 [rows2 | e]] eqn:Q2; [| discriminate].
  intros [= <- <-]. simpl.
  repeat split.
  exists s1, rows, rows2. repeat split; assumption.
Qed.

(** X6.  In every outcome, [setData] of Articles and of Tags leaves the
    request (filters, sorts, limit, offset, search) as it was, and the
    statements it has issued are the page statement alone or the page
    statement followed by the total statement. *)
Theorem setData_keeps_request_and_order :
  (forall w : World db ArticlesList.Instance,
      ArticlesList.request (this (fst (ArticlesList.setData I db w)))
      = ArticlesList.request (this w)
      /\ (issued (fst (ArticlesList.setData I db w))
          = (issued w ++ [ArticlesList.page_sql I (this w)])%list
          \/ issued (fst (ArticlesList.setData I db w))
             = (issued w ++ [ArticlesList.page_sql I (this w);
                             ArticlesList.total_sql I (this w)])%list))
  /\ (forall w : World db TagsList.Instance,
         TagsList.request (this (fst (TagsList.setData I db w)))
         = TagsList.request (this w)
         /\ (issued (fst (TagsList.setData I db w))
             = (issued w ++ [TagsList.page_sql I (this w)])%list
             \/ issued (fst (TagsList.setData I db w))
                = (issued w ++ [TagsList.page_sql I (this w);
                                TagsList.total_sql I (this w)])%list)).
Proof.
  split; intros w.
  - rewrite articles_setData_unfold.
    destruct (query db (store w) _) as [s1 [rows | e]]; [| simpl; auto].
    cbv zeta. destruct (query db s1 _) as [s2 [rows2 | e]]; simpl; auto.
  - rewrite tags_setData_unfold.
    destruct (query db (store w) _) as [s1 [rows | e]]; [| simpl; auto].
    cbv zeta. destruct (query db s1 _) as [s2 [rows2 | e]]; simpl; auto.
Qed.

(** X7.  [setData] of TagsInHub issues one statement.  When the storage
    rejects it, the same error is thrown and the instance is untouched;
    when it is answered, [data] becomes one object per row and [hubId]
    and [limit] stay as they were.  The statement's text does not
    depend on [limit]. *)
Theorem tagsInHub_setData_one_statement (w : World db TagsInHub.Instance) :
  issued (fst (TagsInHub.setData I db w))
  = (issued w ++ [TagsInHub.sql I (this w)])%list
  /\ (forall s e,
         query db (store w) (TagsInHub.sql I (this w)) = (s, Rejected e) ->
         snd (TagsInHub.setData I db w) = Thrown e
         /\ this (fst (TagsInHub.setData I db w)) = this w)
  /\ (forall s rows,
         query db (store w) (TagsInHub.sql I (this w)) = (s, Resolved rows) ->
         snd (TagsInHub.setData I db w) = Returned tt
         /\ this (fst (TagsInHub.setData I db w))
            = TagsInHub.mkInstance (TagsInHub.hubId (this w)) (TagsInHub.limit (this w))
                (map TagsInHub.tagObject rows))
  /\ (forall limit',
         TagsInHub.sql I (TagsInHub.mkInstance (TagsInHub.hubId (this w)) limit'
                            (TagsInHub.dataProxy (this w)))
         = TagsInHub.sql I (this w)).
Proof.
  rewrite tagsInHub_setData_unfold.
  split; [| split; [| split]].
  - destruct (query db (store w) _) as [s1 [rows | e]]; reflexivity.
  - intros s e H. rewrite H. split; reflexivity.
  - intros s rows H. rewrite H. simpl. split; [reflexivity |].
    unfold TagsInHub.set_data. rewrite fold_left_push_map. reflexivity.
  - reflexivity.
Qed.

End SetDataMore.

Lemma setData_failed_total_leaves_new_data_old_total_witness :
  ArticlesList.total (this (fst (ArticlesList.setData sample_imports total_refusing_handle
                                   total_refused_world)))
  = JInt 7
  /\ List.length (ArticlesList.data
                    (this (fst (ArticlesList.setData sample_imports total_refusing_handle
                                  total_refused_world))))
     = 1%nat.
Proof.
  destruct (setData_failed_total_leaves_new_data_old_total
              sample_imports total_refusing_handle) as [H _].
  rewrite (H total_refused_world true [ [("id", JNumber 1)] ] true "timeout");
    [split; reflexivity | reflexivity | reflexivity].
Defined.

Lemma articles_setData_success_witness :
  issued (fst (ArticlesList.setData sample_imports constant_handle constant_world))
  = [ ArticlesList.page_sql sample_imports fresh_list;
      ArticlesList.total_sql sample_imports fresh_list ].
Proof.
  destruct (articles_setData_success sample_imports constant_handle constant_world
              (fst (ArticlesList.setData sample_imports constant_handle constant_world))
              true eq_refl) as (_ & H & _).
  exact H.
Defined.

Lemma tagsInHub_setData_one_statement_witness :
  TagsInHub.data
    (this (fst (TagsInHub.setData sample_imports constant_handle
                  (mkWorld (db := constant_handle)
                     (TagsInHub.mkInstance (JNumber 3) (JNumber 5) []) tt []))))
  = [ TagsInHub.mkTagObject (JNumber 1) JUndefined ].
Proof.
  destruct (tagsInHub_setData_one_statement sample_imports constant_handle
              (mkWorld (db := constant_handle)
                 (TagsInHub.mkInstance (JNumber 3) (JNumber 5) []) tt []))
    as (_ & _ & H & _).
  destruct (H tt [ [("id", JNumber 1); ("total", JString "1")] ] eq_refl) as [_ Hthis].
  rewrite Hthis. reflexivity.
Defined.

(* ================================================================== *)
(** * The clause lists of Articles and Tags *)
(* ================================================================== *)

Lemma distinct_strings_NoDup (xs : list string) :
  distinct_strings xs = true -> NoDup xs.
Proof.
  induction xs as [| x xs IH]; simpl; [constructor |].
  intros H. apply andb_true_iff in H as [Hx Hxs].
  constructor; [| now apply IH].
  intros Hin. apply negb_true_iff in Hx.
  assert (T : existsb (String.eqb x) xs = true).
  { apply existsb_exists. exists x. split; [exact Hin | apply String.eqb_refl]. }
  congruence.
Qed.

Lemma forallb_Forall_In (cols : list string) (ds : list WhereDescriptor) :
  forallb (fun d => existsb (String.eqb (wd_column d)) cols) ds = true ->
  Forall (fun d => In (wd_column d) cols) ds.
Proof.
  intros H. apply Forall_forall. intros d Hd.
  apply (proj1 (forallb_forall _ _) H) in Hd.
  apply existsb_exists in Hd as (c & Hc & Heq).
  apply String.eqb_eq in Heq. now subst c.
Qed.

Lemma forallb_Forall_not_In (cols : list string) (ds : list WhereDescriptor) :
  forallb (fun d => negb (existsb (String.eqb (wd_column d)) cols)) ds = true ->
  Forall (fun d => ~ In (wd_column d) cols) ds.
Proof.
  intros H. apply Forall_forall. intros d Hd Hin.
  apply (proj1 (forallb_forall _ _) H) in Hd.
  apply negb_true_iff in Hd.
  assert (T : existsb (String.eqb (wd_column d)) cols = true).
  { apply existsb_exists. exists (wd_column d). split; [exact Hin | apply String.eqb_refl]. }
  congruence.
Qed.

(** X8.  Aggregate expressions are filtered after grouping only: every
    descriptor of [having] is on an aggregate column, no descriptor of
    [where] or of a join condition is, and within each list no column
    is filtered twice.  For Articles and for Tags. *)
Theorem aggregate_filters_go_to_having :
  (forall r : Articles.Request,
      Forall (fun d => In (wd_column d) article_aggregates) (Articles.havings r)
      /\ Forall (fun d => ~ In (wd_column d) article_aggregates)
           (Articles.wheres r ++ Articles.userWheres r
            ++ Articles.hubWheres r ++ Articles.tagWheres r)
      /\ NoDup (map wd_column (Articles.wheres r))
      /\ NoDup (map wd_column (Articles.havings r)))
  /\ (forall r : Tags.Request,
         Forall (fun d => In (wd_column d) tag_aggregates) (Tags.havings r)
         /\ Forall (fun d => ~ In (wd_column d) tag_aggregates) (Tags.wheres r)
         /\ NoDup (map wd_column (Tags.wheres r))
         /\ NoDup (map wd_column (Tags.havings r))).
Proof.
  split.
  - intros [[fi ft fa fh fg fn fv fc] srt l o s e].
    unfold Articles.havings, Articles.wheres, Articles.userWheres, Articles.hubWheres,
      Articles.tagWheres. cbn [Articles.filters Articles.search Articles.f_id
      Articles.f_title Articles.f_author Articles.f_hubs Articles.f_tags
      Articles.f_answers Articles.f_votes Articles.f_createdAt].
    split; [| split; [| split]].
    + apply forallb_Forall_In. destruct fn, fv; reflexivity.
    + apply forallb_Forall_not_In.
      destruct fi, ft, fc, (truthy s), fa, fh, fg; reflexivity.
    + apply distinct_strings_NoDup.
      destruct fi, ft, fc, (truthy s); reflexivity.
    + apply distinct_strings_NoDup.
      destruct fn, fv; reflexivity.
  - intros [[fi fn fh fa] srt l o s].
    unfold Tags.havings, Tags.wheres.
    cbn [Tags.filters Tags.search Tags.f_id Tags.f_name Tags.f_hub Tags.f_articles].
    split; [| split; [| split]].
    + apply forallb_Forall_In. destruct fa; reflexivity.
    + apply forallb_Forall_not_In.
      destruct fi, fn, fh, (truthy s); reflexivity.
    + apply distinct_strings_NoDup.
      destruct fi, fn, fh, (truthy s); reflexivity.
    + apply distinct_strings_NoDup.
      destruct fa; reflexivity.
Qed.

(** X9.  Every filter a caller gives to the Articles list is compiled
    into exactly one clause list, on the column of its field: [id],
    [title] and the day of [createdAt] in [where], [author] on the
    user's id in the join with User, [hubs] and [tags] on the ids in
    the joins with Hub and Tag, [answers] and [votes] in [having]; the
    lists hold nothing else but the tsMatch descriptor of a search. *)
Theorem articles_filters_are_routed (r : Articles.Request) :
  (forall f, Articles.f_id (Articles.filters r) = Some f ->
             In (mkWhere Articles.cols_id f) (Articles.wheres r))
  /\ (forall f, Articles.f_title (Articles.filters r) = Some f ->
                In (mkWhere Articles.cols_title f) (Articles.wheres r))
  /\ (forall f, Articles.f_createdAt (Articles.filters r) = Some f ->
                In (mkWhere ("DATE(" ++ Articles.cols_createdAt ++ ")") f)
                   (Articles.wheres r))
  /\ (forall f, Articles.f_author (Articles.filters r) = Some f ->
                Articles.userWheres r = [mkWhere Articles.cols_user_id f])
  /\ (forall f, Articles.f_hubs (Articles.filters r) = Some f ->
                Articles.hubWheres r = [mkWhere Articles.cols_hub_id f])
  /\ (forall f, Articles.f_tags (Articles.filters r) = Some f ->
                Articles.tagWheres r = [mkWhere Articles.cols_tag_id f])
  /\ (forall f, Articles.f_answers (Articles.filters r) = Some f ->
                In (mkWhere Articles.cols_answers f) (Articles.havings r))
  /\ (forall f, Articles.f_votes (Articles.filters r) = Some f ->
                In (mkWhere Articles.cols_votes f) (Articles.havings r))
  /\ List.length (Articles.wheres r)
     = (given (Articles.f_id (Articles.filters r))
        + given (Articles.f_title (Articles.filters r))
        + given (Articles.f_createdAt (Articles.filters r))
        + (if truthy (Articles.search r) then 1 else 0))%nat
  /\ List.length (Articles.userWheres r) = given (Articles.f_author (Articles.filters r))
  /\ List.length (Articles.hubWheres r) = given (Articles.f_hubs (Articles.filters r))
  /\ List.length (Articles.tagWheres r) = given (Articles.f_tags (Articles.filters r))
  /\ List.length (Articles.havings r)
     = (given (Articles.f_answers (Articles.filters r))
        + given (Articles.f_votes (Articles.filters r)))%nat.
Proof.
  destruct r as [[fi ft fa fh fg fn fv fc] srt l o s e].
  unfold Articles.havings, Articles.wheres, Articles.userWheres, Articles.hubWheres,
    Articles.tagWheres. cbn [Articles.filters Articles.search Articles.f_id
    Articles.f_title Articles.f_author Articles.f_hubs Articles.f_tags
    Articles.f_answers Articles.f_votes Articles.f_createdAt].
  repeat split.
  - intros f ->. destruct ft, fc, (truthy s); simpl; auto.
  - intros f ->. destruct fi, fc, (truthy s); simpl; auto.
  - intros f ->. destruct fi, ft, (truthy s); simpl; auto 6.
  - intros f ->. reflexivity.
  - intros f ->. reflexivity.
  - intros f ->. reflexivity.
  - intros f ->. destruct fv; simpl; auto.
  - intros f ->. destruct fn; simpl; auto.
  - destruct fi, ft, fc, (truthy s); reflexivity.
  - destruct fa; reflexivity.
  - destruct fh; reflexivity.
  - destruct fg; reflexivity.
  - destruct fn, fv; reflexivity.
Qed.

Lemma articles_filters_are_routed_witness :
  Articles.hubWheres list_hub_3 = [mkWhere Articles.cols_hub_id (FIds [3])].
Proof.
  destruct (articles_filters_are_routed list_hub_3) as (_ & _ & _ & _ & H & _).
  apply H. reflexivity.
Defined.

(** X10.  Without a search (also with the empty text), [tsQuery] and
    [rankCol] are empty, [where] filters no search vector, and the
    ORDER BY list has no rank key.  For Articles and for Tags. *)
Theorem no_search_no_rank :
  (forall r : Articles.Request,
      truthy (Articles.search r) = false ->
      Articles.tsQuery r = EmptyString
      /\ Articles.rankCol r = EmptyString
      /\ ~ In Articles.cols_tsv (map wd_column (Articles.wheres r))
      /\ ~ In (q "rank") (map od_column (Articles.orders r)))
  /\ (forall r : Tags.Request,
         truthy (Tags.search r) = false ->
         Tags.tsQuery r = EmptyString
         /\ Tags.rankCol r = EmptyString
         /\ ~ In Tags.cols_tsv (map wd_column (Tags.wheres r))
         /\ ~ In (q "rank") (map od_column (Tags.orders r))).
Proof.
  split.
  - intros [[fi ft fa fh fg fn fv fc] [st sa sn sv sc] l o s e] H.
    cbn [Articles.search] in H.
    unfold Articles.tsQuery, Articles.rankCol, Articles.wheres, Articles.orders.
    cbn [Articles.filters Articles.search Articles.sorts Articles.f_id
      Articles.f_title Articles.f_createdAt Articles.s_title Articles.s_author
      Articles.s_answers Articles.s_votes Articles.s_createdAt].
    rewrite H.
    split; [reflexivity |]. split; [reflexivity |]. split.
    + intros Hin.
      assert (T : existsb (String.eqb Articles.cols_tsv)
                    (map wd_column
                       (push_if fc (mkWhere ("DATE(" ++ Articles.cols_createdAt ++ ")"))
                          (push_if ft (mkWhere Articles.cols_title)
                             (push_if fi (mkWhere Articles.cols_id) [])))) = true).
      { apply existsb_exists. eexists. split; [exact Hin | apply String.eqb_refl]. }
      destruct fi, ft, fc; discriminate T.
    + intros Hin.
      apply (in_map_iff od_column) in Hin as (d & Hc & Hd).
      assert (T : existsb (fun d => String.eqb (q "rank") (od_column d))
                    (match sc with
                     | Some d0 =>
                         (push_if sv (mkOrder Articles.cols_votes)
                            (push_if sn (mkOrder Articles.cols_answers)
                               (push_if sa (mkOrder Articles.cols_user_displayName)
                                  (push_if st (mkOrder Articles.cols_title) [])))
                          ++ [mkOrder Articles.cols_createdAt d0])%list
                     | None =>
                         (push_if sv (mkOrder Articles.cols_votes)
                            (push_if sn (mkOrder Articles.cols_answers)
                               (push_if sa (mkOrder Articles.cols_user_displayName)
                                  (push_if st (mkOrder Articles.cols_title) [])))
                          ++ [mkOrder Articles.cols_createdAt DESC])%list
                     end) = true).
      { apply existsb_exists. exists d. split; [exact Hd |].
        rewrite Hc. apply String.eqb_refl. }
      destruct st, sa, sn, sv, sc; discriminate T.
  - intros [[fi fn fh fa] [sn sa] l o s] H.
    cbn [Tags.search] in H.
    unfold Tags.tsQuery, Tags.rankCol, Tags.wheres, Tags.orders.
    cbn [Tags.filters Tags.search Tags.sorts Tags.f_id Tags.f_name Tags.f_hub
      Tags.s_name Tags.s_articles].
    rewrite H.
    split; [reflexivity |]. split; [reflexivity |]. split.
    + intros Hin.
      assert (T : existsb (String.eqb Tags.cols_tsv)
                    (map wd_column
                       (push_if fh (mkWhere Tags.cols_hub)
                          (push_if fn (mkWhere Tags.cols_name)
                             (push_if fi (mkWhere Tags.cols_id) [])))) = true).
      { apply existsb_exists. eexists. split; [exact Hin | apply String.eqb_refl]. }
      destruct fi, fn, fh; discriminate T.
    + intros Hin.
      apply (in_map_iff od_column) in Hin as (d & Hc & Hd).
      assert (T : existsb (fun d => String.eqb (q "rank") (od_column d))
                    (match sa with
                     | Some d0 =>
                         (push_if sn (mkOrder Tags.cols_name) []
                          ++ [mkOrder Tags.cols_articles d0])%list
                     | None =>
                         (push_if sn (mkOrder Tags.cols_name) []
                          ++ [mkOrder Tags.cols_articles DESC])%list
                     end) = true).
      { apply existsb_exists. exists d. split; [exact Hd |].
        rewrite Hc. apply String.eqb_refl. }
      destruct sn, sa; discriminate T.
Qed.

Lemma no_search_no_rank_witness :
  Articles.rankCol
    (Articles.mkRequest no_filters no_sorts 10 0 (JString EmptyString) false)
  = EmptyString.
Proof.
  destruct no_search_no_rank as [H _].
  apply (H (Articles.mkRequest no_filters no_sorts 10 0 (JString EmptyString) false)).
  reflexivity.
Defined.

(** X11.  The ORDER BY list is never empty and never names a column
    twice; it always has a key on the default dimension ([createdAt]
    for Articles, the article count for Tags), with the caller's
    direction when the caller gave one. *)
Theorem order_list_is_well_formed :
  (forall r : Articles.Request,
      Articles.orders r <> []
      /\ NoDup (map od_column (Articles.orders r))
      /\ In (mkOrder Articles.cols_createdAt
               (match Articles.s_createdAt (Articles.sorts r) with
                | Some d => d
                | None => DESC
                end))
            (Articles.orders r))
  /\ (forall r : Tags.Request,
         Tags.orders r <> []
         /\ NoDup (map od_column (Tags.orders r))
         /\ In (mkOrder Tags.cols_articles
                  (match Tags.s_articles (Tags.sorts r) with
                   | Some d => d
                   | None => DESC
                   end))
               (Tags.orders r)).
Proof.
  split.
  - intros [f [st sa sn sv sc] l o s e].
    unfold Articles.orders.
    cbn [Articles.sorts Articles.search Articles.s_title Articles.s_author
      Articles.s_answers Articles.s_votes Articles.s_createdAt].
    split; [| split].
    + destruct st, sa, sn, sv, sc, (truthy s); discriminate.
    + apply distinct_strings_NoDup.
      destruct st, sa, sn, sv, sc, (truthy s); reflexivity.
    + destruct st, sa, sn, sv, sc, (truthy s); simpl; auto 8.
  - intros [f [sn sa] l o s].
    unfold Tags.orders.
    cbn [Tags.sorts Tags.search Tags.s_name Tags.s_articles].
    split; [| split].
    + destruct sn, sa, (truthy s); discriminate.
    + apply distinct_strings_NoDup.
      destruct sn, sa, (truthy s); reflexivity.
    + destruct sn, sa, (truthy s); simpl; auto.
Qed.

(* ================================================================== *)
(** * controllers/articles.js: the response of [all] *)
(* ================================================================== *)

Section AllFacts.

Context {E F S : Type} (I : Imports) (db : Handle E).
Variable construct : ArticlesController.Data F S -> outcome E ArticlesList.Instance.
Variable message_of : E -> option jsval.

(** X12.  [all] responds only when [req.body] is an object and
    [new Articles(data)] returns a list; [data] holds the limit and
    offset as the controller normalized them.  If [setData] of that list
    returns, the response has code 200, [success] true, no error, the
    list's data and total, and the normalized limit and offset.  If
    [setData] throws a value with a readable [message], the response
    has code 500, [success] false, no data, that message under source
    internal, and limit 10, offset 0, total 0 whatever was requested.
    In every other case [all] throws and gives no response: a TypeError
    when [req.body] is [undefined] or [null] (no statement issued, no
    list built), the constructor's own error, or a TypeError from the
    catch block when the value thrown has no members. *)
Theorem all_responds_or_throws
    (body : option (ArticlesController.Body F S)) (s : storage db) :
  let run := ArticlesController.all I db construct message_of body s in
  match snd run with
  | Returned resp =>
      exists b articles,
        body = Some b
        /\ construct
             (ArticlesController.mkData
                (Controller.data_limit (ArticlesController.pagination b))
                (Controller.data_offset (ArticlesController.pagination b))
                (ArticlesController.body_filters b) (ArticlesController.body_sorts b))
           = Returned articles
        /\ this (fst run) = Some (this (fst (ArticlesList.setData I db (mkWorld articles s []))))
        /\ issued (fst run) = issued (fst (ArticlesList.setData I db (mkWorld articles s [])))
        /\ ((snd (ArticlesList.setData I db (mkWorld articles s [])) = Returned true
             /\ resp
                = ArticlesController.mkResponse
                    (Some (ArticlesList.data
                             (this (fst (ArticlesList.setData I db (mkWorld articles s []))))))
                    (ArticlesController.mkContext "/articles/all"
                       (Controller.data_limit (ArticlesController.pagination b))
                       (Controller.data_offset (ArticlesController.pagination b))
                       (ArticlesList.total
                          (this (fst (ArticlesList.setData I db (mkWorld articles s [])))))
                       true 200 None))
            \/ (exists e m,
                  snd (ArticlesList.setData I db (mkWorld articles s [])) = Thrown e
                  /\ message_of e = Some m
                  /\ resp
                     = ArticlesController.mkResponse None
                         (ArticlesController.mkContext "/articles/all"
                            (JInt 10) (JInt 0) (JInt 0) false 500
                            (Some (ArticlesController.mkErrorInfo "internal" "exception"
                                     m)))))
  | Thrown x =>
      (body = None /\ x = ArticlesController.TypeError
       /\ this (fst run) = None /\ issued (fst run) = [])
      \/ (exists b e,
            body = Some b
            /\ construct (ArticlesController.data_of b) = Thrown e
            /\ x = ArticlesController.Raised e
            /\ this (fst run) = None /\ issued (fst run) = [])
      \/ (exists b articles e,
            body = Some b
            /\ construct (ArticlesController.data_of b) = Returned articles
            /\ snd (ArticlesList.setData I db (mkWorld articles s [])) = Thrown e
            /\ message_of e = None
            /\ x = ArticlesController.TypeError)
  end.
Proof.
  cbv zeta. unfold ArticlesController.all.
  destruct body as [b |]; [| left; auto].
  fold (ArticlesController.data_of b).
  destruct (construct (ArticlesController.data_of b)) as [articles | e] eqn:Hc.
  - destruct (ArticlesList.setData I db (mkWorld articles s [])) as [w [v | e]] eqn:Hs.
    + cbn [fst snd this issued]. exists b, articles. rewrite Hs.
      split; [reflexivity |]. split; [exact Hc |].
      split; [reflexivity |]. split; [reflexivity |].
      left. split; [| reflexivity].
      now rewrite (articles_setData_returns_true I db _ w v Hs).
    + cbn [fst snd this issued].
      destruct (message_of e) as [m |] eqn:Hm.
      * exists b, articles. rewrite Hs.
        split; [reflexivity |]. split; [exact Hc |].
        split; [reflexivity |]. split; [reflexivity |].
        right. exists e, m. auto.
      * right. right. exists b, articles, e. rewrite Hs. auto.
  - right. left. exists b, e. auto.
Qed.

End AllFacts.

Example all_reports_a_refused_connection :
  snd (ArticlesController.all sample_imports refusing_handle
         ArticlesController.sample_construct (fun e => Some (JString e))
         (Some (ArticlesController.mkBodyObject (Controller.mkBody "50" "20") None None)) tt)
  = Returned
      (ArticlesController.mkResponse None
         (ArticlesController.mkContext "/articles/all" (JInt 10) (JInt 0) (JInt 0)
            false 500
            (Some (ArticlesController.mkErrorInfo "internal" "exception"
                     (JString "connection refused"))))).
Proof. reflexivity. Qed.

Example all_throws_without_a_body :
  snd (ArticlesController.all sample_imports refusing_handle
         ArticlesController.sample_construct (fun e => Some (JString e)) None tt)
  = Thrown ArticlesController.TypeError.
Proof. reflexivity. Qed.

(* ================================================================== *)
(** * The captcha controller: the response of [generate] *)
(* ================================================================== *)

Section GenerateFacts.

Context {E D Mth T : Type}.
Variable message_of : E -> jsval.

(** X13.  [generate] answers with a token only when the captcha's
    [setData] returned a truthy value and [jwt.sign] returned the token
    for the captcha's data with an expiry of 900 seconds; the response
    then has code 200, status success, no error and the captcha's math.
    Every other response has no data, code 500 and status error; when
    [setData] returned a falsy value it is the [not_loaded] error of
    source captcha, whatever [jwt.sign] would have done. *)
Theorem generate_signs_only_a_loaded_captcha
    (captcha_setData : outcome E (bool * D * Mth)) (jwt_sign : D -> Z -> outcome E T) :
  let resp := CaptchaController.generate captcha_setData jwt_sign message_of in
  CaptchaController.endpoint (CaptchaController.context resp) = "/captcha/generate"
  /\ ((exists d m tok,
          captcha_setData = Returned (true, d, m)
          /\ jwt_sign d 900 = Returned tok
          /\ resp
             = CaptchaController.mkResponse
                 (Some (CaptchaController.mkPayload tok m))
                 (CaptchaController.mkContext "/captcha/generate" "success" 200 None))
      \/ (CaptchaController.data resp = None
          /\ CaptchaController.code (CaptchaController.context resp) = 500
          /\ CaptchaController.status (CaptchaController.context resp) = "error"
          /\ CaptchaController.error (CaptchaController.context resp) <> None))
  /\ (forall d m (other_sign : D -> Z -> outcome E T),
         captcha_setData = Returned (false, d, m) ->
         CaptchaController.generate captcha_setData other_sign message_of
         = CaptchaController.mkResponse None
             (CaptchaController.mkContext "/captcha/generate" "error" 500
                (Some (CaptchaController.mkErrorInfo "captcha" "not_loaded" None)))).
Proof.
  cbv zeta. unfold CaptchaController.generate.
  split; [| split].
  - destruct captcha_setData as [[[[] d] m] | e]; try reflexivity.
    cbn [negb]. destruct (jwt_sign d (15 * 60)); reflexivity.
  - destruct captcha_setData as [[[[] d] m] | e].
    + cbn [negb]. destruct (jwt_sign d (15 * 60)) as [tok | e] eqn:Hs.
      * left. exists d, m, tok. repeat split. exact Hs.
      * right. repeat split. discriminate.
    + right. repeat split. discriminate.
    + right. repeat split. discriminate.
  - intros d m other_sign ->. reflexivity.
Qed.

End GenerateFacts.

(* ================================================================== *)
(** * The page statement of Tags *)
(* ================================================================== *)

Lemma val_eqb_eq (a b : string * jsval) : val_eqb a b = true -> a = b.
Proof.
  destruct a as [k v], b as [k' v']. unfold val_eqb. simpl.
  intros H. apply andb_true_iff in H as [Hk Hv].
  apply String.eqb_eq in Hk.
  destruct (strict_eq_spec v v'); [congruence | discriminate].
Qed.

Lemma row_eqb_eq (a b : Row) : row_eqb a b = true -> a = b.
Proof.
  revert b. induction a as [| x a IH]; intros [| y b]; simpl; try discriminate;
    [reflexivity |].
  intros H. apply andb_true_iff in H as [Hx Hr].
  apply val_eqb_eq in Hx. apply IH in Hr. congruence.
Qed.

Lemma distinct_by_NoDup_id {A : Type} (eqb : A -> A -> bool) (xs : list A) :
  (forall x y, eqb x y = true -> x = y) ->
  NoDup xs -> distinct_by eqb xs = xs.
Proof.
  intros Heq. induction 1 as [| x xs Hn Hd IH]; simpl; [reflexivity |].
  rewrite IH. f_equal.
  apply forallb_filter_id. apply forallb_forall.
  intros y Hy. apply negb_true_iff.
  destruct (eqb x y) eqn:Hxy; [| reflexivity].
  apply Heq in Hxy. subst y. contradiction.
Qed.

Lemma NoDup_map_inv_list {A B : Type} (f : A -> B) (xs : list A) :
  NoDup (map f xs) -> NoDup xs.
Proof.
  induction xs as [| x xs IH]; simpl; intros H; [constructor |].
  inversion H as [| ? ? Hn Hd]; subst.
  constructor; [| now apply IH].
  intros Hin. apply Hn. now apply in_map.
Qed.

Lemma NoDup_map_through {A B C : Type} (f : A -> B) (g : B -> C) (xs : list A) :
  NoDup (map (fun x => g (f x)) xs) -> NoDup (map f xs).
Proof.
  intros H. rewrite <- map_map in H. eapply NoDup_map_inv_list, H.
Qed.

Lemma NoDup_firstn {A : Type} (n : nat) (xs : list A) :
  NoDup xs -> NoDup (firstn n xs).
Proof.
  revert xs. induction n as [| n IH]; intros [| x xs] H; simpl; try constructor.
  - inversion H as [| ? ? Hn Hd]; subst.
    intros Hin. apply Hn. eapply In_firstn, Hin.
  - inversion H; subst. now apply IH.
Qed.

Lemma NoDup_skipn {A : Type} (n : nat) (xs : list A) :
  NoDup xs -> NoDup (skipn n xs).
Proof.
  revert xs. induction n as [| n IH]; intros [| x xs] H; simpl; try assumption.
  inversion H; subst. now apply IH.
Qed.

Lemma NoDup_distinct_by_key {A : Type} (key : A -> Z) (xs : list A) :
  NoDup (map key (distinct_by (fun a b => key a =? key b) xs)).
Proof.
  induction xs as [| x xs IH]; simpl; constructor.
  - intros Hin. apply in_map_iff in Hin as (y & Hk & Hy).
    apply filter_In in Hy as [_ Hy].
    rewrite Hk, Z.eqb_refl in Hy. discriminate.
  - clear -IH. induction (distinct_by _ xs) as [| y ys IHy]; simpl; [constructor |].
    inversion IH as [| ? ? Hn Hd]; subst.
    destruct (key x =? key y); simpl; [now apply IHy |].
    constructor; [| now apply IHy].
    intros Hin. apply Hn.
    apply in_map_iff in Hin as (z & Hz & Hin).
    apply in_map_iff. exists z. split; [exact Hz |]. now apply filter_In in Hin.
Qed.

Section TagsPage.

Variable eng : Engine.
Variable r : Tags.Request.
Variable db : Database.

Hypothesis tag_ids_unique : NoDup (map tg_id (Tags db)).

(** The groups that pass HAVING: one per matching tag, with the tag's
    joined rows. *)
Lemma tags_group_having (g : TagT * list (option (ArticleTagT * ArticleT))) :
  In g (TagsSql.groups_having eng r db) ->
  In (fst g) (Tags db)
  /\ tag_where eng r (fst g) = true
  /\ tag_having eng r db (fst g) = true
  /\ snd g = TagsSql.articles_of db (fst g).
Proof.
  unfold TagsSql.groups_having, TagsSql.groups.
  intros Hg. apply filter_In in Hg as [Hg Hh].
  apply in_map_iff in Hg as (t & <- & Ht).
  apply In_distinct_by, tags_in_from_where in Ht as [Ht Hw].
  cbn [fst snd] in *.
  rewrite (tags_group_rows eng r db tag_ids_unique t Ht Hw) in *.
  rewrite tags_having_on_agg in Hh.
  repeat split; assumption.
Qed.

Lemma tags_group_ids_NoDup :
  NoDup (map (fun g => tg_id (fst g)) (TagsSql.groups_having eng r db)).
Proof.
  unfold TagsSql.groups_having.
  assert (H : NoDup (map (fun g : TagT * list (option (ArticleTagT * ArticleT)) =>
                            tg_id (fst g)) (TagsSql.groups eng r db))).
  { unfold TagsSql.groups. rewrite map_map. cbn [fst].
    apply NoDup_distinct_by_key. }
  revert H. generalize (TagsSql.groups eng r db) as gs.
  induction gs as [| g gs IH]; simpl; intros H; [constructor |].
  inversion H as [| ? ? Hn Hd]; subst.
  destruct (holds eng (Tags.havings r) _); simpl; [| now apply IH].
  constructor; [| now apply IH].
  intros Hin. apply Hn.
  apply in_map_iff in Hin as (g' & Hk & Hg').
  apply in_map_iff. exists g'. split; [exact Hk |]. now apply filter_In in Hg'.
Qed.

(** The rows before ORDER BY: one per group, none removed by DISTINCT. *)
Lemma tags_distinct_rows :
  distinct_by row_eqb (map (TagsSql.select_row) (TagsSql.groups_having eng r db))
  = map (TagsSql.select_row) (TagsSql.groups_having eng r db).
Proof.
  apply distinct_by_NoDup_id; [apply row_eqb_eq |].
  apply (NoDup_map_inv_list (fun row => get row "id")).
  rewrite map_map.
  apply (NoDup_map_inv_list
           (fun v => match v with JNumber z => z | _ => 0 end)).
  rewrite map_map. cbn. apply tags_group_ids_NoDup.
Qed.

Lemma tags_total_is_group_count :
  TagsSql.total_count eng r db
  = Z.of_nat (List.length (TagsSql.groups_having eng r db)).
Proof.
  unfold TagsSql.total_count, TagsSql.result.
  rewrite distinct_by_Z_NoDup by apply tags_group_ids_NoDup.
  now rewrite length_map.
Qed.

Lemma articles_agg_linked (t : TagT) :
  TagsSql.articles_agg (TagsSql.articles_of db t) = linked_articles db t.
Proof.
  unfold TagsSql.articles_agg, linked_articles, count_distinct. f_equal.
  apply same_elements_same_length; try apply NoDup_distinct_by_Z.
  intros k. rewrite !In_distinct_by_Z.
  unfold TagsSql.articles_of, TagsSql.article_links.
  rewrite in_flat_map, in_map_iff. split.
  - intros (o & Ho & Hk).
    apply in_map_iff in Ho as (la & <- & Hla).
    destruct la as [[l a] |]; [| destruct Hk].
    destruct Hk as [<- | []]. cbn [snd].
    unfold left_outer in Hla.
    destruct (filter _ (flat_map _ (ArticlesTags db))) as [| x xs] eqn:Hf.
    { destruct Hla as [Hla | []]. discriminate. }
    apply in_map_iff in Hla as (la' & [= ->] & Hla').
    rewrite <- Hf in Hla'.
    apply filter_In in Hla' as [Hla' Htag]. cbn [fst] in Htag.
    apply in_flat_map in Hla' as (l' & Hl' & Hp).
    apply in_map_iff in Hp as (a' & [= -> ->] & Ha').
    apply filter_In in Ha' as [Ha' Heq].
    exists l. split; [symmetry; now apply Z.eqb_eq |].
    apply filter_In. split; [exact Hl' |].
    rewrite Htag. simpl. apply existsb_exists. exists a. auto.
  - intros (l & <- & Hl).
    apply filter_In in Hl as [Hl Hc].
    apply andb_true_iff in Hc as [Htag Hex].
    apply existsb_exists in Hex as (a & Ha & Heq).
    assert (Hin : In (l, a)
                    (filter (fun la : ArticleTagT * ArticleT => tg_id t =? at_tag (fst la))
                       (flat_map (fun l0 =>
                          map (pair l0)
                            (filter (fun a0 => art_id a0 =? at_article l0) (Articles db)))
                          (ArticlesTags db)))).
    { apply filter_In. split; [| exact Htag].
      apply in_flat_map. exists l. split; [exact Hl |].
      apply in_map. apply filter_In. auto. }
    exists (Some (art_id a)). split.
    + apply in_map_iff. exists (Some (l, a)). split; [reflexivity |].
      unfold left_outer.
      destruct (filter _ (flat_map _ (ArticlesTags db))) as [| x xs];
        [destruct Hin | now apply in_map].
    + left. now apply Z.eqb_eq.
Qed.

Lemma linked_articles_nonneg (t : TagT) : 0 <= linked_articles db t.
Proof. unfold linked_articles. apply Nat2Z.is_nonneg. Qed.

End TagsPage.

(** X14.  With unique tag ids, every entity of the Tags list's data is
    a tag of the Tags table that satisfies the [where] and [having]
    predicates, with that tag's id, name and hub; its [articles] is the
    number of different articles linked to the tag, 0 for a tag that
    has none; and no two entities have the same id. *)
Theorem tags_data_are_matching_tags
    (eng : Engine) (r : Tags.Request) (db : Database)
    (data : list TagDenormalizer.TagObject) :
  NoDup (map tg_id (Tags db)) ->
  TagsSql.data_after eng r db = Some data ->
  NoDup (map TagDenormalizer.id data)
  /\ forall o, In o data ->
       exists t,
         In t (matching_tags eng r db)
         /\ o = TagDenormalizer.mkTagObject
                  (JNumber (tg_id t)) (JString (tg_name t)) (JNumber (tg_hub t))
                  (JInt (linked_articles db t)).
Proof.
  intros Hnd. unfold TagsSql.data_after.
  destruct (TagsSql.page_rows eng r db) as [rows |] eqn:Hp; [| discriminate].
  intros [= <-].
  unfold TagDenormalizer.set_data. rewrite fold_left_push_map. cbn [app].
  unfold TagsSql.page_rows, TagsSql.page_all in Hp.
  rewrite (tags_distinct_rows eng r db) in Hp.
  split.
  - rewrite map_map.
    unfold paginate in Hp.
    destruct ((Tags.offset r <? 0) || (Tags.limit r <? 0)); [discriminate |].
    injection Hp as <-.
    change (fun x => TagDenormalizer.id (TagDenormalizer.tagObject x))
      with (fun x : Row => get x "id").
    rewrite <- firstn_map, <- skipn_map.
    apply NoDup_firstn, NoDup_skipn.
    eapply Permutation_NoDup; [apply Permutation_map, sort_rows_perm |].
    rewrite map_map.
    apply (NoDup_map_inv_list (fun v => match v with JNumber z => z | _ => 0 end)).
    rewrite map_map. cbn. apply tags_group_ids_NoDup.
  - intros o Ho. apply in_map_iff in Ho as (row & <- & Hrow).
    apply (In_paginate _ _ _ _ _ Hp) in Hrow.
    apply (Permutation_in _ (Permutation_sym (sort_rows_perm eng _ _))) in Hrow.
    apply in_map_iff in Hrow as ([t rs] & <- & Hg).
    apply (tags_group_having eng r db Hnd) in Hg as (Ht & Hw & Hh & Hrs).
    cbn [fst snd] in *. subst rs.
    exists t. split.
    + apply filter_In. split; [exact Ht |]. now rewrite Hw, Hh.
    + unfold TagDenormalizer.tagObject, TagsSql.select_row. cbn [fst snd].
      change (get _ "id") with (JNumber (tg_id t)).
      change (get _ "name") with (JString (tg_name t)).
      change (get _ "hub") with (JNumber (tg_hub t)).
      change (get _ "articles")
        with (JString (string_of_Z (TagsSql.articles_agg (TagsSql.articles_of db t)))).
      cbn [ToString].
      rewrite articles_agg_linked, parseInt_string_of_nonneg
        by apply linked_articles_nonneg.
      reflexivity.
Qed.

Lemma paginate_length {A : Type} (offset limit : Z) (xs page : list A) :
  paginate offset limit xs = Some page ->
  Z.of_nat (List.length page) = page_size limit offset (Z.of_nat (List.length xs)).
Proof.
  unfold paginate, page_size.
  destruct (Z.ltb_spec offset 0) as [Ho | Ho]; [discriminate |].
  destruct (Z.ltb_spec limit 0) as [Hl | Hl]; [discriminate |].
  intros [= <-].
  rewrite length_firstn, length_skipn. lia.
Qed.

Lemma paginate_negative {A : Type} (offset limit : Z) (xs : list A) :
  offset < 0 \/ limit < 0 -> paginate offset limit xs = None.
Proof.
  unfold paginate. intros H.
  destruct (Z.ltb_spec offset 0), (Z.ltb_spec limit 0); simpl; try reflexivity; lia.
Qed.

Lemma paginate_some {A : Type} (offset limit : Z) (xs : list A) :
  0 <= offset -> 0 <= limit -> exists page, paginate offset limit xs = Some page.
Proof.
  unfold paginate. intros Ho Hl.
  destruct (Z.ltb_spec offset 0), (Z.ltb_spec limit 0); simpl; try lia.
  eexists. reflexivity.
Qed.

(** X15.  With a limit and an offset that are not negative, the data of
    the Tags list has min(limit, max(0, total - offset)) entities, where
    [total] is the value [setData] leaves in [total]: the page is full
    whenever enough matching tags remain after the offset.  With a
    negative limit or offset the page statement fails. *)
Theorem tags_page_has_the_size_total_allows
    (eng : Engine) (r : Tags.Request) (db : Database) :
  (0 <= Tags.limit r /\ 0 <= Tags.offset r ->
   exists data total,
     TagsSql.data_after eng r db = Some data
     /\ TagsSql.total_after eng r db = JInt total
     /\ Z.of_nat (List.length data) = page_size (Tags.limit r) (Tags.offset r) total)
  /\ (Tags.limit r < 0 \/ Tags.offset r < 0 -> TagsSql.data_after eng r db = None).
Proof.
  split.
  - intros [Hl Ho].
    unfold TagsSql.data_after, TagsSql.page_rows.
    destruct (paginate_some (Tags.offset r) (Tags.limit r) (TagsSql.page_all eng r db) Ho Hl)
      as (rows & Hp).
    rewrite Hp. cbn [option_map].
    exists (TagDenormalizer.set_data rows), (TagsSql.total_count eng r db).
    split; [reflexivity |]. split.
    + unfold TagsSql.total_after, TagsSql.total_rows, total_of.
      change (get [("total", JString (string_of_Z (TagsSql.total_count eng r db)))] "total")
        with (JString (string_of_Z (TagsSql.total_count eng r db))).
      cbn [ToString]. apply parseInt_string_of_nonneg.
      rewrite tags_total_is_group_count. apply Nat2Z.is_nonneg.
    + unfold TagDenormalizer.set_data. rewrite fold_left_push_map. cbn [app].
      rewrite length_map, (paginate_length _ _ _ _ Hp).
      f_equal. unfold TagsSql.page_all.
      rewrite <- (Permutation_length (sort_rows_perm eng _ _)).
      rewrite tags_distinct_rows, length_map, tags_total_is_group_count.
      reflexivity.
  - intros H. unfold TagsSql.data_after, TagsSql.page_rows.
    rewrite paginate_negative by tauto. reflexivity.
Qed.

Lemma tags_page_has_the_size_total_allows_witness :
  exists data total,
    TagsSql.data_after plain_engine
      (Tags.mkRequest (Tags.mkFilters None None None None) (Tags.mkSorts None None)
         10 0 JUndefined)
      db_hubs_3_5
    = Some data
    /\ TagsSql.total_after plain_engine
         (Tags.mkRequest (Tags.mkFilters None None None None) (Tags.mkSorts None None)
            10 0 JUndefined)
         db_hubs_3_5
       = JInt total
    /\ Z.of_nat (List.length data) = page_size 10 0 total.
Proof.
  destruct (tags_page_has_the_size_total_allows plain_engine
              (Tags.mkRequest (Tags.mkFilters None None None None) (Tags.mkSorts None None)
                 10 0 JUndefined)
              db_hubs_3_5) as [H _].
  apply H. simpl. lia.
Defined.

Lemma tags_data_are_matching_tags_witness :
  NoDup (map TagDenormalizer.id
           [TagDenormalizer.mkTagObject (JNumber 9) (JString "primes") (JNumber 3) (JInt 1)]).
Proof.
  apply (tags_data_are_matching_tags plain_engine
           (Tags.mkRequest (Tags.mkFilters None None None None) (Tags.mkSorts None None)
              10 0 JUndefined)
           db_hubs_3_5).
  - repeat constructor; simpl; tauto.
  - vm_compute. reflexivity.
Defined.

(* ================================================================== *)
(** * More on the page statement of Articles *)
(* ================================================================== *)

Section ArticlesPageMore.

Variable eng : Engine.
Variable r : Articles.Request.
Variable db : Database.

(** As [page_row_origin], with what WHERE and the joins ask of the
    article. *)
Lemma page_row_article (rows : list Row) (row : Row) :
  ArticlesSql.page_rows eng r db = Some rows -> In row rows ->
  exists h agg,
    row = ArticlesSql.select_row r (h, agg)
    /\ In (ArticlesSql.h_article h) (Articles db)
    /\ In h (ArticlesSql.heads_of eng r db (ArticlesSql.h_article h))
    /\ article_where eng r db (ArticlesSql.h_article h) = true.
Proof.
  unfold ArticlesSql.page_rows, ArticlesSql.page_all.
  intros Hp Hin.
  apply (In_paginate _ _ _ _ _ Hp) in Hin.
  apply (Permutation_in _ (Permutation_sym (sort_rows_perm eng _ _))) in Hin.
  apply In_distinct_by, in_map_iff in Hin as ([h agg] & <- & Hg).
  apply filter_In in Hg as [Hg _].
  apply in_map_iff in Hg as (h' & [= -> _] & Hh).
  apply In_distinct_by, in_map_iff in Hh as ([h'' p] & <- & Hj).
  apply filter_In in Hj as [Hj Hw].
  apply in_flat_map in Hj as (a & Ha & Hj).
  apply in_flat_map in Hj as (h' & Hh' & Hj).
  apply in_map_iff in Hj as (p' & [= -> ->] & _).
  cbv beta in Hw. cbn [fst snd] in *.
  rewrite articles_where_on_head in Hw.
  pose proof (proj1 (in_heads_of eng r db a h'') Hh') as (Hha & _).
  exists h'', agg. rewrite Hha.
  split; [reflexivity |]. split; [exact Ha |]. split; [exact Hh' |].
  unfold article_where.
  assert (Hjoin : has_author eng r db a && has_hub eng r db a && has_tag eng r db a = true)
    by (apply heads_of_joins; exists h''; exact Hh').
  rewrite Hha in Hw. rewrite Hw. exact Hjoin.
Qed.

End ArticlesPageMore.

(** X16.  Every entity of the Articles list's data is an article of the
    Articles table that satisfies the [where] predicates and has an
    author, a hub and a tag passing the join conditions: an article
    without author row, without hub or without tag is never listed.
    The entity carries the article's id and title, its author's id,
    and its abstract exactly on an extended list. *)
Theorem articles_data_are_joined_articles
    (eng : Engine) (r : Articles.Request) (db : Database)
    (data : list Denormalizer.ArticleObject) (o : Denormalizer.ArticleObject) :
  ArticlesSql.data_after eng r db = Some data -> In o data ->
  exists a,
    In a (Articles db)
    /\ article_where eng r db a = true
    /\ Denormalizer.id o = JNumber (art_id a)
    /\ Denormalizer.title o = JString (art_title a)
    /\ Denormalizer.createdAt o = JNumber (art_createdAt a)
    /\ Denormalizer.author_id (Denormalizer.author o) = JNumber (art_author a)
    /\ Denormalizer.abstract o
       = (if Articles.extended r then Some (JString (art_abstract a)) else None).
Proof.
  unfold ArticlesSql.data_after.
  destruct (ArticlesSql.page_rows eng r db) as [rows |] eqn:Hp; [| discriminate].
  intros [= <-] Ho.
  destruct (set_data_entity_rows _ _ _ Ho) as (first & later & Hrows & ->).
  assert (Hfirst : In first rows).
  { assert (H : In first (Denormalizer.rows_of
                            (Denormalizer.id
                               (Denormalizer.entity_from (Articles.extended r) first
                                  (first :: later))) rows))
      by (rewrite Hrows; now left).
    now apply filter_In in H. }
  destruct (page_row_article eng r db rows first Hp Hfirst)
    as (h & agg & -> & Ha & Hh & Hw).
  exists (ArticlesSql.h_article h).
  split; [exact Ha |]. split; [exact Hw |].
  apply in_heads_of in Hh as (_ & (_ & Hu) & _).
  apply andb_true_iff in Hu as [Hu _]. apply Z.eqb_eq in Hu.
  unfold Denormalizer.entity_from, Denormalizer.author_of, ArticlesSql.select_row.
  cbn [Denormalizer.id Denormalizer.title Denormalizer.createdAt Denormalizer.author
       Denormalizer.author_id Denormalizer.abstract fst snd].
  rewrite Hu.
  destruct (Articles.extended r); repeat split; reflexivity.
Qed.

Lemma articles_data_are_joined_articles_witness :
  exists a,
    In a (Articles db_hubs_3_5)
    /\ article_where plain_engine list_hub_3 db_hubs_3_5 a = true
    /\ JNumber 1 = JNumber (art_id a)
    /\ JString "On primes" = JString (art_title a)
    /\ JNumber 1000 = JNumber (art_createdAt a)
    /\ JNumber 7 = JNumber (art_author a)
    /\ None = (if false then Some (JString (art_abstract a)) else None).
Proof.
  apply (articles_data_are_joined_articles plain_engine list_hub_3 db_hubs_3_5
           [ Denormalizer.mkArticleObject (JNumber 1) (JString "On primes") None
               (JNumber 1000)
               (Denormalizer.mkAuthor (JNumber 7) (JString "U") (JString "hash"))
               [Denormalizer.mkHub (JNumber 3) (JString "Algebra")]
               [Denormalizer.mkTag (JNumber 9) (JString "primes") (JNumber 3)]
               (JInt 0) (JInt 0) ]
           (Denormalizer.mkArticleObject (JNumber 1) (JString "On primes") None
              (JNumber 1000)
              (Denormalizer.mkAuthor (JNumber 7) (JString "U") (JString "hash"))
              [Denormalizer.mkHub (JNumber 3) (JString "Algebra")]
              [Denormalizer.mkTag (JNumber 9) (JString "primes") (JNumber 3)]
              (JInt 0) (JInt 0))).
  - vm_compute. reflexivity.
  - left. reflexivity.
Defined.

(** X17.  The Articles page statement fails with a negative limit or
    offset.  Otherwise it returns at most [limit] rows, and the data
    has at most as many entities as rows: the limit bounds the joined
    rows, so a page can hold fewer than [limit] articles. *)
Theorem articles_page_is_bounded_by_limit
    (eng : Engine) (r : Articles.Request) (db : Database) :
  (Articles.limit r < 0 \/ Articles.offset r < 0 ->
   ArticlesSql.data_after eng r db = None)
  /\ (0 <= Articles.limit r /\ 0 <= Articles.offset r ->
      exists rows,
        ArticlesSql.page_rows eng r db = Some rows
        /\ ArticlesSql.data_after eng r db
           = Some (Denormalizer.set_data (Articles.extended r) rows)
        /\ Z.of_nat (List.length rows) <= Articles.limit r
        /\ (List.length (Denormalizer.set_data (Articles.extended r) rows)
            <= List.length rows)%nat).
Proof.
  split.
  - intros H. unfold ArticlesSql.data_after, ArticlesSql.page_rows.
    rewrite paginate_negative by tauto. reflexivity.
  - intros [Hl Ho].
    unfold ArticlesSql.data_after, ArticlesSql.page_rows.
    destruct (paginate_some (Articles.offset r) (Articles.limit r)
                (ArticlesSql.page_all eng r db) Ho Hl) as (rows & Hp).
    rewrite Hp. exists rows.
    split; [reflexivity |]. split; [reflexivity |]. split.
    + rewrite (paginate_length _ _ _ _ Hp). unfold page_size. lia.
    + rewrite <- (length_map Denormalizer.id), set_data_ids.
      rewrite <- (length_map Denormalizer.root_id rows).
      generalize (map Denormalizer.root_id rows) as ids.
      unfold Denormalizer.distinct.
      induction ids as [| i ids IH]; simpl; [lia |].
      apply le_n_S. etransitivity; [apply filter_length_le | exact IH].
Qed.

Lemma articles_page_is_bounded_by_limit_witness :
  ArticlesSql.data_after plain_engine
    (Articles.mkRequest no_filters no_sorts (-1) 0 JUndefined false) db_hubs_3_5
  = None.
Proof.
  destruct (articles_page_is_bounded_by_limit plain_engine
              (Articles.mkRequest no_filters no_sorts (-1) 0 JUndefined false)
              db_hubs_3_5) as [H _].
  apply H. left. reflexivity.
Defined.

Example limit_counts_rows_not_articles :
  option_map
    (map (fun o => (Denormalizer.id o, map Denormalizer.hub_id (Denormalizer.hubs o))))
    (ArticlesSql.data_after plain_engine
       (Articles.mkRequest no_filters no_sorts 1 0 JUndefined false) db_hubs_3_5)
  = Some [ (JNumber 1, [JNumber 3]) ].
Proof. vm_compute. reflexivity. Qed.

(* ================================================================== *)
(** * The statement of TagsInHub.setData *)
(* ================================================================== *)

Lemma distinct_by_Z_constant (k : Z) (xs : list Z) :
  xs <> [] -> (forall x, In x xs -> x = k) -> distinct_by Z.eqb xs = [k].
Proof.
  destruct xs as [| x xs]; [congruence |].
  intros _ H. simpl.
  rewrite (H x (or_introl eq_refl)). f_equal.
  assert (Hall : forall y, In y (distinct_by Z.eqb xs) -> y = k).
  { intros y Hy. apply H. right. eapply In_distinct_by, Hy. }
  induction (distinct_by Z.eqb xs) as [| y ys IH]; simpl; [reflexivity |].
  rewrite (Hall y (or_introl eq_refl)), Z.eqb_refl. simpl.
  apply IH. intros z Hz. apply Hall. now right.
Qed.

Lemma tagsInHub_from_where (hub : Z) (db : Database) (t : TagT) :
  In t (map fst (TagsInHubSql.from_where hub db))
  <-> In t (Tags db) /\ tg_hub t = hub.
Proof.
  unfold TagsInHubSql.from_where. split.
  - intros H. apply in_map_iff in H as ([t' x] & <- & H).
    apply filter_In in H as [H Hh]. apply Z.eqb_eq in Hh.
    apply in_flat_map in H as (t0 & Ht0 & H).
    apply in_map_iff in H as (x' & [= -> ->] & _).
    split; assumption.
  - intros [Ht Hh].
    destruct (left_outer
                (filter (fun la => tg_id t =? at_tag (fst la)) (TagsSql.article_links db)))
      as [| x xs] eqn:Hx; [now apply left_outer_not_nil in Hx |].
    apply in_map_iff. exists (t, x). split; [reflexivity |].
    apply filter_In. split; [| now apply Z.eqb_eq].
    apply in_flat_map. exists t. split; [exact Ht |].
    rewrite Hx. now left.
Qed.

(** X18.  In the statement of [TagsInHub.setData], the ORDER BY key
    COUNT(DISTINCT("Tag"."id")) is 1 for every group, so the ordering
    chooses nothing.  With pairwise different tag ids, whatever order
    the rows come back in, the data holds the tags of the hub, each
    once, whether or not an article carries them. *)
Theorem tagsInHub_data_are_the_tags_of_the_hub
    (hub : Z) (db : Database) (rows : list Row) :
  NoDup (map tg_id (Tags db)) ->
  Permutation (TagsInHubSql.selected hub db) rows ->
  (forall g, In g (TagsInHubSql.groups hub db) -> TagsInHubSql.order_key g = 1)
  /\ Permutation (TagsInHub.set_data rows) (TagsInHubSql.hub_tags hub db).
Proof.
  intros Hnd Hperm. split.
  - intros g Hg. unfold TagsInHubSql.groups in Hg.
    apply in_map_iff in Hg as (t & <- & Ht).
    apply In_distinct_by in Ht.
    unfold TagsInHubSql.order_key, count_distinct. cbn [snd].
    rewrite (distinct_by_Z_constant (tg_id t)); [reflexivity | |].
    + apply in_map_iff in Ht as ([t' x] & <- & Hj). cbn [fst].
      intros Hnil.
      assert (Hin : In (t', x)
                      (filter (fun j => tg_id (fst j) =? tg_id t')
                         (TagsInHubSql.from_where hub db)))
        by (apply filter_In; split; [exact Hj | apply Z.eqb_refl]).
      destruct (filter _ (TagsInHubSql.from_where hub db)) as [| j js];
        [contradiction | discriminate].
    + intros z Hz. apply in_flat_map in Hz as (v & Hv & Hz).
      apply in_map_iff in Hv as (j & <- & Hj).
      apply filter_In in Hj as [_ Hj]. apply Z.eqb_eq in Hj.
      destruct Hz as [<- | []]. exact Hj.
  - unfold TagsInHub.set_data. rewrite fold_left_push_map. cbn [app].
    apply Permutation_sym.
    eapply Permutation_trans;
      [| apply Permutation_map, Hperm].
    unfold TagsInHubSql.selected, TagsInHubSql.groups, TagsInHubSql.hub_tags.
    rewrite !map_map.
    change (fun x : TagT =>
              TagsInHub.tagObject
                (TagsInHubSql.select_row
                   (x, filter (fun j => tg_id (fst j) =? tg_id x)
                         (TagsInHubSql.from_where hub db))))
      with (fun t : TagT => TagsInHub.mkTagObject (JNumber (tg_id t)) (JString (tg_name t))).
    apply Permutation_map, NoDup_Permutation.
    + apply NoDup_filter. eapply NoDup_map_inv_list, Hnd.
    + eapply NoDup_map_inv_list, NoDup_distinct_by_key.
    + intros t. rewrite filter_In, Z.eqb_eq. split.
      * intros Ht. apply tagsInHub_from_where in Ht.
        destruct (distinct_by_key_rep tg_id t _ Ht) as (y & Hy & Hk).
        assert (Hy' := In_distinct_by _ _ _ Hy).
        apply tagsInHub_from_where in Hy' as [Hy' _].
        apply tagsInHub_from_where in Ht as [Ht _].
        rewrite <- (NoDup_map_inj_on tg_id (Tags db) y t Hnd Hy' Ht Hk). exact Hy.
      * intros Ht. apply In_distinct_by in Ht. now apply tagsInHub_from_where.
Qed.

Lemma tagsInHub_data_are_the_tags_of_the_hub_witness :
  Permutation
    (TagsInHub.set_data [ [("id", JNumber 9); ("name", JString "primes")] ])
    (TagsInHubSql.hub_tags 3 db_hubs_3_5).
Proof.
  apply (tagsInHub_data_are_the_tags_of_the_hub 3 db_hubs_3_5
           [ [("id", JNumber 9); ("name", JString "primes")] ]).
  - repeat constructor; simpl; tauto.
  - vm_compute. apply Permutation_refl.
Defined.

(* ================================================================== *)
(** * Loading the default rows *)
(* ================================================================== *)

Section SeedingFacts.

Context {E C : Type} (model : Seeding.Model E C).

Lemma for_of_app {X A : Type} (xs ys : list A)
    (body : A -> Seeding.M model X unit) (w : Seeding.World model) :
  Seeding.for_of (xs ++ ys) body w
  = Seeding.bind (Seeding.for_of xs body) (fun _ => Seeding.for_of ys body) w.
Proof.
  revert w. induction xs as [| x xs IH]; intros w; simpl.
  - reflexivity.
  - unfold Seeding.bind.
    destruct (body x w) as [w' [[] | e]]; [| reflexivity].
    rewrite IH. reflexivity.
Qed.

(** Nested loops run the body over the pairs in nested order. *)
Lemma for_of_nested {X A B : Type} (xs : list A) (inner : A -> list B)
    (body : A -> B -> Seeding.M model X unit) (w : Seeding.World model) :
  Seeding.for_of xs (fun x => Seeding.for_of (inner x) (body x)) w
  = Seeding.for_of (flat_map (fun x => map (pair x) (inner x)) xs)
      (fun p => body (fst p) (snd p)) w.
Proof.
  revert w. induction xs as [| x xs IH]; intros w; simpl; [reflexivity |].
  rewrite for_of_app. unfold Seeding.bind.
  assert (Hin : forall w0,
             Seeding.for_of (map (pair x) (inner x)) (fun p => body (fst p) (snd p)) w0
             = Seeding.for_of (inner x) (body x) w0).
  { induction (inner x) as [| y ys IHy]; intros w0; simpl; [reflexivity |].
    unfold Seeding.bind. destruct (body x y w0) as [w' [[] | e]]; [apply IHy | reflexivity]. }
  rewrite Hin.
  destruct (Seeding.for_of (inner x) (body x) w) as [w' [[] | e]]; [apply IH | reflexivity].
Qed.

Lemma for_of_map {X A B : Type} (f : A -> B) (xs : list A)
    (body : B -> Seeding.M model X unit) (w : Seeding.World model) :
  Seeding.for_of xs (fun x => body (f x)) w = Seeding.for_of (map f xs) body w.
Proof.
  revert w. induction xs as [| x xs IH]; intros w; simpl; [reflexivity |].
  unfold Seeding.bind. destruct (body (f x) w) as [w' [[] | e]]; [apply IH | reflexivity].
Qed.

(** A loop of awaited calls under the wrapping handler. *)
Lemma loader_attempt (cs : list C) (w : Seeding.World model) :
  Seeding.try_catch (Seeding.for_of cs (Seeding.await_findOrCreate model))
    (fun error => Seeding.throw (Seeding.NewError error)) w
  = Seeding.finish w (Seeding.attempt model cs (Seeding.rows w)).
Proof.
  unfold Seeding.try_catch, Seeding.finish.
  revert w. induction cs as [| c cs IH]; intros [t made0]; simpl.
  - rewrite app_nil_r. reflexivity.
  - unfold Seeding.bind. unfold Seeding.await_findOrCreate at 1.
    cbn [Seeding.rows Seeding.calls].
    destruct (Seeding.findOrCreate model t c) as [t' [e |]].
    + reflexivity.
    + specialize (IH (Seeding.mkWorld t' (made0 ++ [c])%list)).
      cbn [Seeding.rows Seeding.calls] in IH.
      rewrite IH.
      destruct (Seeding.attempt model cs t') as [[made t''] r].
      rewrite <- app_assoc. reflexivity.
Qed.

(** The calls of [attempt] are the given ones up to the first that
    rejects. *)
Lemma attempt_calls (cs : list C) (t : Seeding.table model) :
  match Seeding.attempt model cs t with
  | (made, t', None) => made = cs /\ Seeding.resolve_all model t cs t'
  | (made, t', Some e) =>
      exists pre c post t0,
        made = (pre ++ [c])%list /\ cs = (pre ++ c :: post)%list
        /\ Seeding.resolve_all model t pre t0
        /\ Seeding.findOrCreate model t0 c = (t', Some e)
  end.
Proof.
  revert t. induction cs as [| c cs IH]; intros t; simpl.
  - split; [reflexivity | constructor].
  - destruct (Seeding.findOrCreate model t c) as [t' [e |]] eqn:Hc.
    + exists [], c, cs, t. simpl. repeat split; try assumption. constructor.
    + specialize (IH t').
      destruct (Seeding.attempt model cs t') as [[made t''] [e |]].
      * destruct IH as (pre & c' & post & t0 & -> & -> & Hpre & Hrej).
        exists (c :: pre), c', post, t0. simpl.
        repeat split; try assumption. econstructor; eassumption.
      * destruct IH as [-> Hres]. split; [reflexivity |].
        econstructor; eassumption.
Qed.

Lemma finish_attempt_stops (cs : list C) (w : Seeding.World model) :
  Seeding.stops_at_first_rejection cs w
    (Seeding.finish w (Seeding.attempt model cs (Seeding.rows w))).
Proof.
  pose proof (attempt_calls cs (Seeding.rows w)) as Hat.
  unfold Seeding.stops_at_first_rejection.
  destruct (Seeding.attempt model cs (Seeding.rows w)) as [[made t'] [e |]];
    cbn [Seeding.finish fst snd Seeding.calls Seeding.rows].
  - destruct Hat as (pre & c & post & t0 & -> & -> & Hpre & Hrej).
    exists pre, c, post, t0. auto.
  - destruct Hat as [-> Hres]. auto.
Qed.

Lemma resolve_all_unique (cs : list C) (t t1 t2 : Seeding.table model) :
  Seeding.resolve_all model t cs t1 -> Seeding.resolve_all model t cs t2 -> t1 = t2.
Proof.
  intros H1. revert t2. induction H1 as [t | t c t' cs t'' Hc _ IH]; intros t2 H2.
  - inversion H2. reflexivity.
  - inversion H2 as [| ? ? u ? ? Hc' Hr]; subst.
    rewrite Hc in Hc'. injection Hc' as <-. apply IH, Hr.
Qed.

Lemma resolve_all_app (pre post : list C) (t t' : Seeding.table model) :
  Seeding.resolve_all model t (pre ++ post) t' ->
  exists t0, Seeding.resolve_all model t pre t0 /\ Seeding.resolve_all model t0 post t'.
Proof.
  revert t. induction pre as [| c pre IH]; intros t H; simpl in H.
  - exists t. split; [constructor | exact H].
  - inversion H as [| ? ? u ? ? Hc Hr]; subst.
    destruct (IH u Hr) as (t0 & Hp & Hq).
    exists t0. split; [econstructor; eassumption | exact Hq].
Qed.

(** A run that stops at the first rejection returns exactly when every
    call resolves. *)
Lemma stops_returns_iff (cs : list C) (w : Seeding.World model)
    (run : Seeding.World model * outcome (Seeding.JsError E) unit) :
  Seeding.stops_at_first_rejection cs w run ->
  (snd run = Returned tt <-> exists t', Seeding.resolve_all model (Seeding.rows w) cs t').
Proof.
  unfold Seeding.stops_at_first_rejection.
  destruct (snd run) as [[] | [e]].
  - intros [_ H]. split; [eauto | reflexivity].
  - intros (pre & c & post & t0 & -> & _ & Hpre & Hrej).
    split; [discriminate |].
    intros (t' & Hall). exfalso.
    apply resolve_all_app in Hall as (t1 & Hp & Hq).
    rewrite (resolve_all_unique _ _ _ _ Hp Hpre) in Hq.
    inversion Hq as [| ? ? u ? ? Hc _]; subst.
    rewrite Hrej in Hc. discriminate.
Qed.

(** A loop of awaited calls, each built from an element, under the
    wrapping handler. *)
Lemma row_loader_stops {A : Type} (f : A -> C) (xs : list A) (w : Seeding.World model) :
  Seeding.stops_at_first_rejection (map f xs) w
    (Seeding.try_catch
       (Seeding.for_of xs (fun x => Seeding.await_findOrCreate model (f x)))
       (fun error => Seeding.throw (Seeding.NewError error)) w).
Proof.
  assert (Heq : Seeding.try_catch
                  (Seeding.for_of xs (fun x => Seeding.await_findOrCreate model (f x)))
                  (fun error => Seeding.throw (Seeding.NewError error)) w
                = Seeding.finish w (Seeding.attempt model (map f xs) (Seeding.rows w))).
  { rewrite <- loader_attempt. unfold Seeding.try_catch.
    rewrite (for_of_map f xs (Seeding.await_findOrCreate model)). reflexivity. }
  rewrite Heq. apply finish_attempt_stops.
Qed.

End SeedingFacts.

Section JunctionLoaders.

Context {E : Type} (model : Seeding.Model E (Seeding.Options Seeding.Link Seeding.Link)).

Lemma link_loader_attempt (others : Seeding.SeedArticle -> list jsval)
    (articles : list Seeding.SeedArticle) (w : Seeding.World model) :
  Seeding.try_catch
    (Seeding.for_of articles (fun article =>
       Seeding.for_of (others article) (fun id =>
         Seeding.await_findOrCreate model
           (Seeding.mkOptions (Seeding.mkLink (Seeding.sa_id article) id)
              (Seeding.mkLink (Seeding.sa_id article) id)))))
    (fun error => Seeding.throw (Seeding.NewError error)) w
  = Seeding.finish w
      (Seeding.attempt model (Seeding.link_calls others articles) (Seeding.rows w)).
Proof.
  rewrite <- loader_attempt. unfold Seeding.try_catch.
  rewrite (for_of_nested model articles others
             (fun article id =>
                Seeding.await_findOrCreate model
                  (Seeding.mkOptions (Seeding.mkLink (Seeding.sa_id article) id)
                     (Seeding.mkLink (Seeding.sa_id article) id)))).
  rewrite (for_of_map model
             (fun p : Seeding.SeedArticle * jsval =>
                Seeding.mkOptions (Seeding.mkLink (Seeding.sa_id (fst p)) (snd p))
                  (Seeding.mkLink (Seeding.sa_id (fst p)) (snd p)))
             _ (Seeding.await_findOrCreate model)).
  unfold Seeding.link_calls. rewrite flat_map_concat_map, concat_map, map_map.
  rewrite flat_map_concat_map.
  replace (map (fun x => map _ (map (pair x) (others x))) articles)
    with (map (fun article =>
                 map (fun id =>
                        Seeding.mkOptions (Seeding.mkLink (Seeding.sa_id article) id)
                          (Seeding.mkLink (Seeding.sa_id article) id))
                   (others article)) articles)
    by (apply map_ext; intros a; now rewrite map_map).
  reflexivity.
Qed.

(** X19.  [ArticleHubDefaults] and [ArticleTagDefaults] have the
    (article, hub) and (article, tag) pairs of the default articles to
    load, in nested loop order, every time looking for the very pair
    they would create.  A run returns after a call for every pair, each
    resolved, and it returns exactly when every call resolves.
    Otherwise it throws a new Error made from the rejection of the
    first call that rejects: the calls before it resolved, it is the
    last call made, and the table is as it left it. *)
Theorem link_loaders_stop_at_the_first_rejection
    (articles : list Seeding.SeedArticle) (w : Seeding.World model) :
  Seeding.stops_at_first_rejection (Seeding.link_calls Seeding.sa_hubs articles) w
    (Seeding.ArticleHubDefaults model articles w)
  /\ Seeding.stops_at_first_rejection (Seeding.link_calls Seeding.sa_tags articles) w
       (Seeding.ArticleTagDefaults model articles w)
  /\ (snd (Seeding.ArticleHubDefaults model articles w) = Returned tt
      <-> exists t', Seeding.resolve_all model (Seeding.rows w)
                       (Seeding.link_calls Seeding.sa_hubs articles) t')
  /\ (snd (Seeding.ArticleTagDefaults model articles w) = Returned tt
      <-> exists t', Seeding.resolve_all model (Seeding.rows w)
                       (Seeding.link_calls Seeding.sa_tags articles) t')
  /\ (forall others c,
         In c (Seeding.link_calls others articles) ->
         exists article id,
           In article articles /\ In id (others article)
           /\ Seeding.where_ c = Seeding.mkLink (Seeding.sa_id article) id
           /\ Seeding.defaults c = Seeding.mkLink (Seeding.sa_id article) id).
Proof.
  assert (HH : Seeding.stops_at_first_rejection
                 (Seeding.link_calls Seeding.sa_hubs articles) w
                 (Seeding.ArticleHubDefaults model articles w)).
  { unfold Seeding.ArticleHubDefaults. rewrite link_loader_attempt.
    apply finish_attempt_stops. }
  assert (HT : Seeding.stops_at_first_rejection
                 (Seeding.link_calls Seeding.sa_tags articles) w
                 (Seeding.ArticleTagDefaults model articles w)).
  { unfold Seeding.ArticleTagDefaults. rewrite link_loader_attempt.
    apply finish_attempt_stops. }
  split; [exact HH |]. split; [exact HT |].
  split; [exact (stops_returns_iff model _ w _ HH) |].
  split; [exact (stops_returns_iff model _ w _ HT) |].
  intros others c Hc. apply in_flat_map in Hc as (a & Ha & Hc).
  apply in_map_iff in Hc as (i & <- & Hi).
  exists a, i. auto.
Qed.

End JunctionLoaders.

Example hub_loader_stops_at_a_null_hub :
  let run := Seeding.ArticleHubDefaults Seeding.sample_links Seeding.sample_articles
               (Seeding.mkWorld (model := Seeding.sample_links) [] []) in
  Seeding.rows (fst run)
  = [Seeding.mkLink (JNumber 1) (JNumber 3); Seeding.mkLink (JNumber 1) (JNumber 5)]
  /\ List.length (Seeding.calls (fst run)) = 3%nat
  /\ snd run
     = Thrown (Seeding.NewError "null value in column violates not-null constraint").
Proof. vm_compute. repeat split; reflexivity. Qed.

Section FlatLoaders.

Context {E : Type}.

(** X20.  [ArticleDefaults], [ArticleAnswerDefaults] and [TagDefaults]
    have one call of [findOrCreate] to make per default row, in order:
    an article is looked up by its id alone, an answer by id and
    article, a tag by id and name, with the row's members (for a tag,
    the tag itself) as defaults.  A run returns after all the calls,
    each resolved, and it returns exactly when every call resolves.
    Otherwise it throws a new Error made from the rejection of the
    first call that rejects: the calls before it resolved, it is the
    last call made, and the rows after it are never tried. *)
Theorem row_loaders_stop_at_the_first_rejection :
  (forall (model : Seeding.Model E (Seeding.Options jsval Seeding.ArticleRow))
          (articles : list Seeding.SeedArticle) (w : Seeding.World model),
      let all :=
        map (fun a =>
               Seeding.mkOptions (Seeding.sa_id a)
                 (Seeding.mkArticleRow (Seeding.sa_id a) (Seeding.sa_title a)
                    (Seeding.sa_author a) (Seeding.sa_abstract a) (Seeding.sa_raw a)
                    (Seeding.sa_createdAt a)))
          articles in
      Seeding.stops_at_first_rejection all w (Seeding.ArticleDefaults model articles w)
      /\ (snd (Seeding.ArticleDefaults model articles w) = Returned tt
          <-> exists t', Seeding.resolve_all model (Seeding.rows w) all t'))
  /\ (forall (model : Seeding.Model E (Seeding.Options Seeding.AnswerKey Seeding.SeedAnswer))
             (answers : list Seeding.SeedAnswer) (w : Seeding.World model),
         let all :=
           map (fun a =>
                  Seeding.mkOptions
                    (Seeding.mkAnswerKey (Seeding.sn_id a) (Seeding.sn_article a))
                    (Seeding.mkSeedAnswer (Seeding.sn_id a) (Seeding.sn_article a)
                       (Seeding.sn_user a) (Seeding.sn_message a)
                       (Seeding.sn_createdAt a)))
             answers in
         Seeding.stops_at_first_rejection all w
           (Seeding.ArticleAnswerDefaults model answers w)
         /\ (snd (Seeding.ArticleAnswerDefaults model answers w) = Returned tt
             <-> exists t', Seeding.resolve_all model (Seeding.rows w) all t'))
  /\ (forall (T : Type) (tag_id tag_name : T -> jsval)
             (model : Seeding.Model E (Seeding.Options Seeding.TagKey T))
             (tags : list T) (w : Seeding.World model),
         let all :=
           map (fun t => Seeding.mkOptions (Seeding.mkTagKey (tag_id t) (tag_name t)) t)
             tags in
         Seeding.stops_at_first_rejection all w
           (Seeding.TagDefaults tag_id tag_name model tags w)
         /\ (snd (Seeding.TagDefaults tag_id tag_name model tags w) = Returned tt
             <-> exists t', Seeding.resolve_all model (Seeding.rows w) all t')).
Proof.
  split; [| split].
  - intros model articles w. cbv zeta. unfold Seeding.ArticleDefaults.
    pose proof (row_loader_stops model
                  (fun a =>
                     Seeding.mkOptions (Seeding.sa_id a)
                       (Seeding.mkArticleRow (Seeding.sa_id a) (Seeding.sa_title a)
                          (Seeding.sa_author a) (Seeding.sa_abstract a) (Seeding.sa_raw a)
                          (Seeding.sa_createdAt a)))
                  articles w) as H.
    split; [exact H | exact (stops_returns_iff model _ w _ H)].
  - intros model answers w. cbv zeta. unfold Seeding.ArticleAnswerDefaults.
    pose proof (row_loader_stops model
                  (fun a =>
                     Seeding.mkOptions
                       (Seeding.mkAnswerKey (Seeding.sn_id a) (Seeding.sn_article a))
                       (Seeding.mkSeedAnswer (Seeding.sn_id a) (Seeding.sn_article a)
                          (Seeding.sn_user a) (Seeding.sn_message a)
                          (Seeding.sn_createdAt a)))
                  answers w) as H.
    split; [exact H | exact (stops_returns_iff model _ w _ H)].
  - intros T tag_id tag_name model tags w. cbv zeta. unfold Seeding.TagDefaults.
    pose proof (row_loader_stops model
                  (fun t => Seeding.mkOptions (Seeding.mkTagKey (tag_id t) (tag_name t)) t)
                  tags w) as H.
    split; [exact H | exact (stops_returns_iff model _ w _ H)].
Qed.

End FlatLoaders.
